(** * gymruntohevy: the Gymrun -> Strong converter and the unmapped-exercise
    extractor, embedded as functions on tables.

    [convert.py] and [exercises.py] are pipelines of pandas calls over one
    DataFrame.  The embedding keeps that shape: a table is its column labels
    plus its rows, every statement of the scripts that assigns a column is a
    function from tables to tables, and the two entry points are the
    compositions of those functions in the order of the source.

    Conventions of the model.
    - A row is a finite map from column label to cell; the labels of a loaded
      table are pairwise distinct (the CSV reader renames repeated headers).
    - Instants are whole seconds since 1970-01-01T00:00:00 as unbounded
      integers (the source format has no sub-second field).
    - 64-bit floats are the primitive binary64 floats, 64-bit integers are
      integers with the wrap-around written out.
    - What the scripts take from outside the repository is a parameter: the
      zone table of Europe/Oslo and the text grammars of numbers. *)

From Stdlib Require Import ZArith Lia.
From Stdlib Require Import Floats.PrimFloat Floats.SpecFloat Floats.FloatOps.
From Stdlib Require Import Strings.Ascii Strings.String Numbers.DecimalString.
From stdpp Require Import base option list sorting gmap strings.

Local Open Scope Z_scope.

(** ** Cells and tables *)

(** A cell of a DataFrame.  [CNaN] is the missing value (NaN, NaT, None).
    [CNaive t] is a timezone-naive timestamp, [CAware u off] a timezone-aware
    one holding the UTC instant [u] and the UTC offset [off] of its zone
    (a UTC timestamp is [CAware u 0]), [CDate d] a calendar date as days
    since 1970-01-01. *)
Inductive cell :=
  | CNaN
  | CStr (s : string)
  | CInt (z : Z)
  | CFloat (f : float)
  | CNaive (t : Z)
  | CAware (u : Z) (off : Z)
  | CDate (d : Z).

Record DataFrame := mkDF {
  columns : list string;
  rows : list (gmap string cell)
}.

(** The ways a run ends without writing its output.  The first five are the
    early returns of the scripts, each after printing its message;
    [Uncaught] is an exception that no handler of the script catches. *)
Inductive failure :=
  | MissingEssentialColumns (cols : list string)
  | AmbiguousTimeError (dt : Z)
  | NonExistentTimeError (dt : Z)
  | DateTimeProcessingError
  | MissingStrongColumns (cols : list string)
  | ExerciseColumnNotFound (col : string)
  | Uncaught.

Inductive outcome (A : Type) :=
  | Done (a : A)
  | Failed (e : failure).
Arguments Done {A} a.
Arguments Failed {A} e.

Definition obind {A B} (m : outcome A) (k : A -> outcome B) : outcome B :=
  match m with
  | Done a => k a
  | Failed e => Failed e
  end.

Notation "'let*' x ':=' m 'in' k" := (obind m (fun x => k))
  (at level 10, x name, m at level 100, k at level 200, only parsing).

(** Run [f] on every element, left to right, stopping at the first failure. *)
Fixpoint try_map {A B} (f : A -> outcome B) (l : list A) : outcome (list B) :=
  match l with
  | [] => Done []
  | x :: l' => let* y := f x in let* ys := try_map f l' in Done (y :: ys)
  end.

(** [col in df.columns] *)
Definition has_column (c : string) (df : DataFrame) : bool :=
  bool_decide (c ∈ columns df).

(** [df[c]] of one row; a label the row lacks reads as missing. *)
Definition cell_of (c : string) (r : gmap string cell) : cell :=
  default CNaN (r !! c).

(** [df[c] = ...] with a value computed per row: an existing column is
    overwritten in place, a new one is appended on the right. *)
Definition set_column (c : string) (f : gmap string cell -> cell)
    (df : DataFrame) : DataFrame :=
  mkDF (if has_column c df then columns df else columns df ++ [c])
       ((fun r => <[c := f r]> r) <$> rows df).

(** The same where computing the column can raise: the values of all rows
    are computed first, top to bottom, and the column is assigned only when
    none of them raised. *)
Definition try_set_column (c : string) (f : gmap string cell -> outcome cell)
    (df : DataFrame) : outcome DataFrame :=
  let* rs := try_map (fun r => let* v := f r in Done (<[c := v]> r)) (rows df) in
  Done (mkDF (if has_column c df then columns df else columns df ++ [c]) rs).

Definition isna (c : cell) : bool :=
  match c with
  | CNaN => true
  | CFloat f => negb (PrimFloat.eqb f f)
  | _ => false
  end.

(** ** Calendar arithmetic *)

Definition is_leap (y : Z) : bool :=
  ((y mod 4 =? 0) && negb (y mod 100 =? 0)) || (y mod 400 =? 0).

Definition days_in_month (y m : Z) : Z :=
  if m =? 2 then (if is_leap y then 29 else 28)
  else if (m =? 4) || (m =? 6) || (m =? 9) || (m =? 11) then 30
  else 31.

(** Days from 1970-01-01 to the proleptic Gregorian date [y]-[m]-[d]. *)
Definition days_from_civil (y m d : Z) : Z :=
  let y' := if m <=? 2 then y - 1 else y in
  let era := y' / 400 in
  let yoe := y' - era * 400 in
  let doy := (153 * (if 2 <? m then m - 3 else m + 9) + 2) / 5 + d - 1 in
  let doe := yoe * 365 + yoe / 4 - yoe / 100 + doy in
  era * 146097 + doe - 719468.

(** The inverse: year, month and day of a day number. *)
Definition civil_from_days (z : Z) : Z * Z * Z :=
  let z' := z + 719468 in
  let era := z' / 146097 in
  let doe := z' - era * 146097 in
  let yoe := (doe - doe / 1460 + doe / 36524 - doe / 146096) / 365 in
  let doy := doe - (365 * yoe + yoe / 4 - yoe / 100) in
  let mp := (5 * doy + 2) / 153 in
  let d := doy - (153 * mp + 2) / 5 + 1 in
  let m := if mp <? 10 then mp + 3 else mp - 9 in
  (yoe + era * 400 + (if m <=? 2 then 1 else 0), m, d).

Definition seconds_of_civil (y mo d h mi s : Z) : Z :=
  days_from_civil y mo d * 86400 + h * 3600 + mi * 60 + s.

(** [.dt.date] of a UTC timestamp: the day its instant falls on. *)
Definition utc_date (u : Z) : Z := u / 86400.

(** ** Parsing with the format [%d.%m.%Y %H:%M:%S]

    The format is matched the way strptime compiles it: every directive is
    an alternation of digit patterns tried in order, a blank of the format
    stands for a run of white space, and the whole text has to be consumed. *)

Inductive char_class :=
  | Digit (lo hi : Z)
  | Lit (a : ascii).

Inductive token :=
  | TField (alts : list (list char_class))
  | TLit (a : ascii)
  | TSpace.

Definition digit_value (a : ascii) : Z := Z.of_nat (nat_of_ascii a) - 48.

Definition class_match (c : char_class) (a : ascii) (acc : Z) : option Z :=
  match c with
  | Digit lo hi =>
      let v := digit_value a in
      if (lo <=? v) && (v <=? hi) then Some (acc * 10 + v) else None
  | Lit b => if Ascii.eqb a b then Some acc else None
  end.

Fixpoint match_alt (p : list char_class) (s : string) (acc : Z)
    : option (Z * string) :=
  match p with
  | [] => Some (acc, s)
  | c :: p' =>
      match s with
      | EmptyString => None
      | String a s' =>
          match class_match c a acc with
          | Some acc' => match_alt p' s' acc'
          | None => None
          end
      end
  end.

Definition is_space (a : ascii) : bool :=
  let n := Z.of_nat (nat_of_ascii a) in
  (n =? 32) || ((9 <=? n) && (n <=? 13)) || ((28 <=? n) && (n <=? 31)).

Fixpoint skip_spaces (s : string) : string :=
  match s with
  | String a s' => if is_space a then skip_spaces s' else s
  | EmptyString => s
  end.

Fixpoint match_format (fmt : list token) (s : string) : option (list Z) :=
  match fmt with
  | [] => match s with EmptyString => Some [] | _ => None end
  | TLit a :: fmt' =>
      match s with
      | String b s' => if Ascii.eqb a b then match_format fmt' s' else None
      | EmptyString => None
      end
  | TSpace :: fmt' =>
      match s with
      | String b s' =>
          if is_space b then match_format fmt' (skip_spaces s') else None
      | EmptyString => None
      end
  | TField alts :: fmt' =>
      (fix try (alts : list (list char_class)) : option (list Z) :=
         match alts with
         | [] => None
         | p :: alts' =>
             match match_alt p s 0 with
             | Some (v, rest) =>
                 match match_format fmt' rest with
                 | Some vs => Some (v :: vs)
                 | None => try alts'
                 end
             | None => try alts'
             end
         end) alts
  end.

Definition d09 := Digit 0 9.

Definition dir_d : token :=
  TField [[Digit 3 3; Digit 0 1]; [Digit 1 2; d09]; [Digit 0 0; Digit 1 9];
          [Digit 1 9]; [Lit " "; Digit 1 9]].
Definition dir_m : token :=
  TField [[Digit 1 1; Digit 0 2]; [Digit 0 0; Digit 1 9]; [Digit 1 9]].
Definition dir_Y : token := TField [[d09; d09; d09; d09]].
Definition dir_H : token :=
  TField [[Digit 2 2; Digit 0 3]; [Digit 0 1; d09]; [d09]].
Definition dir_M : token := TField [[Digit 0 5; d09]; [d09]].
Definition dir_S : token :=
  TField [[Digit 6 6; Digit 0 1]; [Digit 0 5; d09]; [d09]].

Definition gymrun_format : list token :=
  [dir_d; TLit "."; dir_m; TLit "."; dir_Y; TSpace;
   dir_H; TLit ":"; dir_M; TLit ":"; dir_S].

(** [pd.to_datetime(text, format='%d.%m.%Y %H:%M:%S', errors='coerce')] on
    one text: the naive timestamp, or nothing where the result is NaT.  A
    date that does not exist (year 0, 31.04., 29.02. of a common year) and a
    seconds field above 59 give no timestamp. *)
Definition to_datetime (s : string) : option Z :=
  match match_format gymrun_format s with
  | Some [d; mo; y; h; mi; sec] =>
      if (1 <=? y) && (d <=? days_in_month y mo) && (sec <=? 59)
      then Some (seconds_of_civil y mo d h mi sec)
      else None
  | _ => None
  end.

(** ** Printing with the format [%Y-%m-%d %H:%M:%S] *)

Definition show_nat (n : Z) : string :=
  NilZero.string_of_uint (N.to_uint (Z.to_N n)).

Definition pad2 (n : Z) : string :=
  if n <? 10 then String "0" (show_nat n) else show_nat n.

Definition pad4 (n : Z) : string :=
  if n <? 10 then "000" +:+ show_nat n
  else if n <? 100 then "00" +:+ show_nat n
  else if n <? 1000 then String "0" (show_nat n)
  else show_nat n.

Definition strftime (t : Z) : string :=
  let '(y, mo, d) := civil_from_days (t / 86400) in
  let sod := t mod 86400 in
  pad4 y +:+ "-" +:+ pad2 mo +:+ "-" +:+ pad2 d +:+ " " +:+
  pad2 (sod / 3600) +:+ ":" +:+ pad2 (sod mod 3600 / 60) +:+ ":" +:+
  pad2 (sod mod 60).

Example parse_ex1 : to_datetime "15.01.2024 12:00:00" = Some 1705320000.
Proof. reflexivity. Qed.
Example parse_ex2 : to_datetime "1.3.2024 7:05:09" = Some 1709276709.
Proof. reflexivity. Qed.
Example parse_ex3 : to_datetime "31.04.2024 10:00:00" = None.
Proof. reflexivity. Qed.
Example parse_ex4 : to_datetime "2024-01-15 12:00:00" = None.
Proof. reflexivity. Qed.
Example strftime_ex1 : strftime 1705320000 = "2024-01-15 12:00:00".
Proof. reflexivity. Qed.

(** ** The zone table and pytz's [localize]

    A pytz zone is two parallel lists: the UTC instants at which its rule
    changes, in increasing order, and the rule in force from each instant
    on.  The table of Europe/Oslo belongs to the tz database, not to the
    repository; the converter is a function of it. *)

Record tzinfo := mkTzinfo {
  utcoffset : Z;   (* seconds east of UTC *)
  dst : Z          (* the part of [utcoffset] that is daylight saving *)
}.

Record DstTzInfo := mkZone {
  utc_transition_times : list Z;
  transition_info : list tzinfo
}.

(** [bisect_right(a, x)] on an increasing list: the number of entries that
    are at most [x]. *)
Fixpoint bisect_right (a : list Z) (x : Z) : nat :=
  match a with
  | [] => 0%nat
  | t :: a' => if t <=? x then S (bisect_right a' x) else 0%nat
  end.

(** [self._transition_info[max(0, bisect_right(times, x) - 1)]]; nothing
    where the index is outside the list (IndexError). *)
Definition tzinfo_at (tz : DstTzInfo) (x : Z) : option tzinfo :=
  transition_info tz !! Nat.pred (bisect_right (utc_transition_times tz) x).

(** [fromutc]: the wall-clock time of the UTC instant [u] and its rule. *)
Definition fromutc (tz : DstTzInfo) (u : Z) : option (Z * tzinfo) :=
  inf ← tzinfo_at tz u; Some (u + utcoffset inf, inf).

(** [normalize] of the wall-clock time [dt] read under the rule [inf]. *)
Definition normalize (tz : DstTzInfo) (dt : Z) (inf : tzinfo)
    : option (Z * tzinfo) :=
  fromutc tz (dt - utcoffset inf).

Inductive localized :=
  | Localized (u : Z) (off : Z)
  | AmbiguousTime
  | NonExistentTime
  | IndexError.

(** One round of the loop of [localize]: the rule in force one day before or
    after [dt] is tried; it contributes a candidate when the instant it
    yields has wall-clock time [dt] again.  A candidate is kept as its UTC
    instant and offset, which is what equality of aware datetimes sees. *)
Definition possible_loc_dt (tz : DstTzInfo) (dt delta : Z)
    : option (option (Z * Z)) :=
  inf ← tzinfo_at tz (dt + delta);
  loc ← normalize tz dt inf;
  Some (if loc.1 =? dt then Some (dt - utcoffset inf, utcoffset loc.2)
        else None).

(** [tz.localize(dt, is_dst=None)]: the set of candidates decides. *)
Definition localize (tz : DstTzInfo) (dt : Z) : localized :=
  match possible_loc_dt tz dt (-86400), possible_loc_dt tz dt 86400 with
  | Some c1, Some c2 =>
      match c1, c2 with
      | None, None => NonExistentTime
      | Some (u, off), None => Localized u off
      | None, Some (u, off) => Localized u off
      | Some (u1, off1), Some (u2, _) =>
          if u1 =? u2 then Localized u1 off1 else AmbiguousTime
      end
  | _, _ => IndexError
  end.

(** The three ways a wall-clock time relates to the zone.  [u] is an
    instant whose wall-clock time in the zone is [dt]: *)
Definition shows (tz : DstTzInfo) (u dt : Z) : Prop :=
  exists inf, tzinfo_at tz u = Some inf /\ u + utcoffset inf = dt.

(** A skipped (spring-forward) wall-clock time: no instant shows it. *)
Definition skipped (tz : DstTzInfo) (dt : Z) : Prop :=
  forall u, ~ shows tz u dt.

(** A repeated (fall-back) wall-clock time: two instants show it. *)
Definition repeated (tz : DstTzInfo) (dt : Z) : Prop :=
  exists u1 u2, u1 <> u2 /\ shows tz u1 dt /\ shows tz u2 dt.

(** Off the DST boundaries: exactly one instant shows it. *)
Definition regular (tz : DstTzInfo) (dt : Z) : Prop :=
  exists u, shows tz u dt /\ forall u', shows tz u' dt -> u' = u.

(** The three cases decided on the table: an instant that shows [dt] is
    [dt] minus one of the offsets of the table. *)
Definition showsb (tz : DstTzInfo) (u dt : Z) : bool :=
  match tzinfo_at tz u with
  | Some inf => u + utcoffset inf =? dt
  | None => false
  end.

Definition instants_showing (tz : DstTzInfo) (dt : Z) : list Z :=
  filter (fun u => showsb tz u dt = true)
         ((fun inf => dt - utcoffset inf) <$> transition_info tz).

Definition regularb (tz : DstTzInfo) (dt : Z) : bool :=
  match instants_showing tz dt with
  | u :: l => forallb (Z.eqb u) l
  | [] => false
  end.

Definition repeatedb (tz : DstTzInfo) (dt : Z) : bool :=
  match instants_showing tz dt with
  | u :: l => negb (forallb (Z.eqb u) l)
  | [] => false
  end.

Definition skippedb (tz : DstTzInfo) (dt : Z) : bool :=
  match instants_showing tz dt with
  | [] => true
  | _ => false
  end.

(** What the results rely on in a zone table: the two lists are parallel and
    not empty, offsets stay below one day, and two rule changes are more than
    two days apart. *)
Fixpoint spaced (a : list Z) : bool :=
  match a with
  | t1 :: ((t2 :: _) as a') => (t1 + 172800 <? t2) && spaced a'
  | _ => true
  end.

Definition zone_ok (tz : DstTzInfo) : bool :=
  (length (utc_transition_times tz) =? length (transition_info tz))%nat
  && negb (length (transition_info tz) =? 0)%nat
  && spaced (utc_transition_times tz)
  && forallb (fun inf => (-86400 <? utcoffset inf) && (utcoffset inf <? 86400))
       (transition_info tz).

(** The rows of the Europe/Oslo table around 2024: the rule changes of
    2022-10-30, 2023-03-26, 2023-10-29, 2024-03-31, 2024-10-27 and
    2025-03-30, each at 01:00 UTC. *)
Definition oslo_2024 : DstTzInfo :=
  mkZone [1667091600; 1679792400; 1698541200; 1711846800;
          1729990800; 1743296400]
         [mkTzinfo 3600 0; mkTzinfo 7200 3600; mkTzinfo 3600 0;
          mkTzinfo 7200 3600; mkTzinfo 3600 0; mkTzinfo 7200 3600].

(** The first rows of the Europe/Oslo table as pytz builds it from the tz
    database: local mean time, 43 minutes ahead of UTC, from [datetime.min]
    on; Central European Time from 1895-01-01 00:00 local, which is
    1894-12-31 23:17:00 UTC; and the summer time of 1916, from 05-22 00:00
    UTC to 09-29 22:00 UTC. *)
Definition oslo_1894 : DstTzInfo :=
  mkZone [-62135596800; -2366757780; -1691884800; -1680573600]
         [mkTzinfo 2580 0; mkTzinfo 3600 0; mkTzinfo 7200 3600;
          mkTzinfo 3600 0].

(** ** Numbers *)

Definition int64_min : Z := - 2 ^ 63.
Definition int64_max : Z := 2 ^ 63 - 1.

Definition wrap64 (z : Z) : Z := (z + 2 ^ 63) mod 2 ^ 64 - 2 ^ 63.

(** int64 to float64: rounding to nearest, ties to even. *)
Definition float_of_int (z : Z) : float :=
  SF2Prim (binary_normalize prec emax z 0 false).

(** The integer part of a finite float (rounding toward zero). *)
Definition truncate (f : float) : option Z :=
  match Prim2SF f with
  | S754_zero _ => Some 0
  | S754_finite s m e =>
      let a := if 0 <=? e then Z.pos m * 2 ^ e else Z.pos m / 2 ^ (- e) in
      Some (if s then - a else a)
  | _ => None
  end.

(** [Series.astype(int)] on a float: pandas raises on NaN and the
    infinities; a finite value is truncated, and one outside the 64-bit
    range comes out as the smallest integer (the x86-64 conversion). *)
Definition int_of_float (f : float) : option Z :=
  match truncate f with
  | Some v =>
      Some (if (int64_min <=? v) && (v <=? int64_max) then v else int64_min)
  | None => None
  end.

(** A numeric value of an int64 or of a float64 column. *)
Inductive num :=
  | NInt (z : Z)
  | NFloat (f : float).

Definition num_gt0 (x : num) : bool :=
  match x with
  | NInt z => 0 <? z
  | NFloat f => PrimFloat.ltb 0 f
  end.

(** [x * k] in the arithmetic of the column's type. *)
Definition num_mul (x : num) (k : Z) : num :=
  match x with
  | NInt z => NInt (wrap64 (z * k))
  | NFloat f => NFloat (f * float_of_int k)
  end.

Definition num_astype_int (x : num) : option Z :=
  match x with
  | NInt z => Some z
  | NFloat f => int_of_float f
  end.

Definition num_astype_float (x : num) : float :=
  match x with
  | NInt z => float_of_int z
  | NFloat f => f
  end.

(** ** Python values of the mapping dictionary *)

Inductive pyobj :=
  | PyNone
  | PyNaN
  | PyStr (s : string)
  | PyInt (z : Z).

Global Instance pyobj_eq_dec : EqDecision pyobj.
Proof. solve_decision. Defined.

Definition show_int (z : Z) : string := NilZero.string_of_int (Z.to_int z).

(** [str(x)] *)
Definition py_str (x : pyobj) : string :=
  match x with
  | PyNone => "None"
  | PyNaN => "nan"
  | PyStr s => s
  | PyInt z => show_int z
  end.

(** [pd.notna(x)] *)
Definition py_notna (x : pyobj) : bool :=
  match x with
  | PyNone | PyNaN => false
  | _ => true
  end.

Example oslo_2024_ok : zone_ok oslo_2024 && zone_ok oslo_1894 = true.
Proof. reflexivity. Qed.
Example localize_winter :
  localize oslo_2024 1705320000 = Localized (1705320000 - 3600) 3600.
Proof. reflexivity. Qed.
Example localize_summer :
  localize oslo_2024 1721044800 = Localized (1721044800 - 7200) 7200.
Proof. reflexivity. Qed.
(* 2024-10-27 02:30:00 happens twice, 2024-03-31 02:30:00 never *)
Example localize_fall_back :
  localize oslo_2024 1729996200 = AmbiguousTime.
Proof. reflexivity. Qed.
Example localize_spring_forward :
  localize oslo_2024 1711852200 = NonExistentTime.
Proof. reflexivity. Qed.
Example truncate_ex : int_of_float (2.75 * 60)%float = Some 165.
Proof. vm_compute. reflexivity. Qed.
Example float_of_int_ex : float_of_int 1000 = 1000%float.
Proof. vm_compute. reflexivity. Qed.

(** ** Sample data

    Small tables in the shape of a Gymrun export and of a Strong header,
    and plain instances of the outside grammars, for the examples. *)

(** Digits with an optional fraction, as [pd.to_numeric] reads them. *)
Fixpoint plain_digits (s : string) (int_part : bool) (acc scale : Z)
    : option (Z * Z) :=
  match s with
  | EmptyString => Some (acc, scale)
  | String a s' =>
      if Ascii.eqb a "." then
        if int_part then plain_digits s' false acc scale else None
      else
        let v := digit_value a in
        if (0 <=? v) && (v <=? 9) then
          plain_digits s' int_part (acc * 10 + v)
            (if int_part then scale else scale * 10)
        else None
  end.

Definition plain_to_float (s : string) : option float :=
  match s with
  | EmptyString => None
  | _ =>
      match plain_digits s true 0 1 with
      | Some (n, scale) => Some (float_of_int n / float_of_int scale)%float
      | None => None
      end
  end.

Definition plain_float_to_str (f : float) : string :=
  match int_of_float f with
  | Some z => show_int z +:+ ".0"
  | None => "inf"
  end.

Definition gymrun_columns : list string :=
  ["Date"; "Time"; "Routine"; "Exercise"; "Set"; "Weight"; "Reps";
   "Duration"; "Distance"].

Definition gymrun_row (date time exercise : string) (set : Z)
    (weight : float) (reps : Z) (duration distance : cell)
    : gmap string cell :=
  list_to_map
    [("Date", CStr date); ("Time", CStr time); ("Routine", CNaN);
     ("Exercise", CStr exercise); ("Set", CInt set);
     ("Weight", CFloat weight); ("Reps", CInt reps);
     ("Duration", duration); ("Distance", distance)].

(** Two sets of a winter session out of order, a row in another date
    format, and a summer run of 5 minutes over 2.5 km. *)
Definition sample_gymrun : DataFrame :=
  mkDF gymrun_columns
    [gymrun_row "15.01.2024" "12:10:00" "Squat" 2 100 5 CNaN CNaN;
     gymrun_row "15.01.2024" "12:00:00" "Squat" 1 100 5 CNaN CNaN;
     gymrun_row "2024-01-15" "12:05:00" "Squat" 3 100 5 CNaN CNaN;
     gymrun_row "15.07.2024" "12:00:00" "Run" 1 0 0 (CFloat 5) (CFloat 2.5)].

(** A set logged at 02:30 on the night the clocks go back. *)
Definition fall_back_gymrun : DataFrame :=
  mkDF gymrun_columns
    [gymrun_row "26.10.2024" "18:00:00" "Squat" 1 100 5 CNaN CNaN;
     gymrun_row "27.10.2024" "02:30:00" "Squat" 2 100 5 CNaN CNaN].

(** A file whose dates are all in another format. *)
Definition iso_dates_gymrun : DataFrame :=
  mkDF gymrun_columns
    [gymrun_row "2024-01-15" "12:00:00" "Squat" 1 100 5 CNaN CNaN].

(** A set dated noon of 1890-01-01. *)
Definition old_gymrun : DataFrame :=
  mkDF gymrun_columns
    [gymrun_row "01.01.1890" "12:00:00" "Squat" 1 100 5 CNaN CNaN].

Definition strong_header : list string :=
  ["Date"; "Workout Name"; "Exercise Name"; "Set Order"; "Weight (kg)";
   "Reps"; "Seconds"; "Distance (meters)"; "RPE"; "Notes"; "Workout Notes";
   "Workout #"; "Duration (sec)"].

Definition bench_mapping : list (pyobj * pyobj) :=
  [(PyStr "Barbell Bench", PyStr "Bench Press (Barbell)")].

Definition bench_squat_gymrun : DataFrame :=
  mkDF gymrun_columns
    [gymrun_row "15.01.2024" "12:00:00" "Barbell Bench" 1 80 5 CNaN CNaN;
     gymrun_row "15.01.2024" "12:05:00" "Squat" 1 100 5 CNaN CNaN;
     gymrun_row "15.01.2024" "12:10:00" "Squat" 2 100 5 CNaN CNaN].

(** Three rows that carry their UTC timestamps: two of 2024-01-15 and one
    of 2024-07-15. *)
Definition sample_sessions : DataFrame :=
  mkDF ["Timestamp"]
    [{["Timestamp" := CAware 1705317000 0]};
     {["Timestamp" := CAware 1705316400 0]};
     {["Timestamp" := CAware 1721037600 0]}].

(** A row before the defaulting pass: no workout name, a set number that is
    no number, no weight, no repetitions. *)
Definition sample_undefaulted : DataFrame :=
  mkDF ["Workout Name"; "Set Order"; "Weight (kg)"; "Reps"]
    [list_to_map [("Workout Name", CNaN); ("Set Order", CStr "x");
                  ("Weight (kg)", CNaN); ("Reps", CNaN)]].

(** An exercise called 5 and a dictionary keyed by the integer 5. *)
Definition numbered_gymrun : DataFrame :=
  mkDF ["Exercise Name"] [{["Exercise Name" := CStr "5"]}].

Definition numbered_mapping : list (pyobj * pyobj) :=
  [(PyInt 5, PyStr "Squat")].

(** A file without the Set and Reps columns. *)
Definition no_set_no_reps_gymrun : DataFrame :=
  mkDF ["Date"; "Time"; "Routine"; "Exercise"; "Weight"]
    [list_to_map [("Date", CStr "15.01.2024"); ("Time", CStr "12:00:00");
                  ("Routine", CNaN); ("Exercise", CStr "Squat");
                  ("Weight", CFloat 100)]].


(** A set whose exercise name is missing, after the renaming. *)
Definition unnamed_exercise : DataFrame :=
  mkDF ["Exercise Name"; "Reps"]
    [list_to_map [("Exercise Name", CNaN); ("Reps", CInt 5)]].

(** ** convert.py *)

Section Converter.

(** The zone [pytz.timezone('Europe/Oslo')]. *)
Variable norway_tz : DstTzInfo.
(** The text grammar of [pd.to_numeric]: the float a text denotes, nothing
    where it denotes none (or NaN). *)
Variable str_to_float : string -> option float.
(** [str] of a float. *)
Variable float_to_str : float -> string.

(** [Series.astype(str)] on one cell. *)
Definition astype_str (c : cell) : string :=
  match c with
  | CNaN => "nan"
  | CStr s => s
  | CInt z => show_int z
  | CFloat f => float_to_str f
  | CNaive t => strftime t
  | CAware u off => strftime (u + off)
  | CDate d => strftime (d * 86400)
  end.

(** [apply_exercise_mappings], lines 12-31.  [valid_mappings] is built by
    inserting the entries in the order of the dictionary. *)
Definition valid_mappings (mapping_dict : list (pyobj * pyobj))
    : gmap string string :=
  foldl (fun m kv => <[py_str kv.1 := py_str kv.2]> m) ∅
        (filter (fun kv => py_notna kv.1 = true) mapping_dict).

(** [Series.replace(valid_mappings)] on one text. *)
Definition replace (m : gmap string string) (s : string) : string :=
  default s (m !! s).

Definition apply_exercise_mappings (df : DataFrame)
    (mapping_dict : list (pyobj * pyobj)) (exercise_col : string)
    : DataFrame :=
  if has_column exercise_col df then
    let valid := valid_mappings mapping_dict in
    set_column exercise_col
      (fun r => CStr (replace valid (astype_str (cell_of exercise_col r)))) df
  else df.

(** Lines 67-77: the run stops only when an essential column is absent. *)
Definition required_gymrun_cols : list string :=
  ["Date"; "Time"; "Exercise"; "Set"; "Weight"; "Reps"; "Type"; "Duration";
   "Distance"].
Definition essential_cols : list string :=
  ["Date"; "Time"; "Exercise"; "Set"; "Weight"; "Reps"].

Definition missing_from (cols : list string) (df : DataFrame) : list string :=
  filter (fun c => c ∉ columns df) cols.

Definition check_columns (df : DataFrame) : outcome unit :=
  match missing_from required_gymrun_cols df with
  | [] => Done tt
  | _ =>
      match missing_from essential_cols df with
      | [] => Done tt
      | missing_essential => Failed (MissingEssentialColumns missing_essential)
      end
  end.

(** Line 83, [gymrun_df['Date'] + ' ' + gymrun_df['Time']] on one row: text
    joins text, a missing cell gives a missing result, and a number in
    either column is a TypeError. *)
Definition date_plus_time (r : gmap string cell) : option cell :=
  match cell_of "Date" r, cell_of "Time" r with
  | CStr d, CStr t => Some (CStr (d +:+ " " +:+ t))
  | CStr _, CNaN | CNaN, CStr _ | CNaN, CNaN => Some CNaN
  | _, _ => None
  end.

(** Line 83 on one row: the naive timestamp, NaT where the text does not
    parse. *)
Definition naive_timestamp (r : gmap string cell) : outcome cell :=
  match date_plus_time r with
  | Some (CStr s) =>
      Done (match to_datetime s with Some t => CNaive t | None => CNaN end)
  | Some _ => Done CNaN
  | None => Failed DateTimeProcessingError
  end.

(** Line 84 *)
Definition dropna (c : string) (df : DataFrame) : DataFrame :=
  mkDF (columns df) (filter (fun r => isna (cell_of c r) = false) (rows df)).

(** Line 88 on one cell, with the handlers of lines 95-103. *)
Definition localize_cell (c : cell) : outcome cell :=
  match c with
  | CNaive dt =>
      match localize norway_tz dt with
      | Localized u off => Done (CAware u off)
      | AmbiguousTime => Failed (AmbiguousTimeError dt)
      | NonExistentTime => Failed (NonExistentTimeError dt)
      | IndexError => Failed DateTimeProcessingError
      end
  | _ => Failed DateTimeProcessingError
  end.

(** Line 91 on one cell. *)
Definition tz_convert_utc (c : cell) : cell :=
  match c with
  | CAware u _ => CAware u 0
  | _ => CNaN
  end.

(** Lines 83-84: the naive timestamps, then the rows without one dropped. *)
Definition parse_naive (df : DataFrame) : outcome DataFrame :=
  let* df0 := try_set_column "NaiveTimestamp" naive_timestamp df in
  Done (dropna "NaiveTimestamp" df0).

(** Lines 86-91.  [apply] on a column without rows leaves it timezone-naive,
    on which [tz_convert] raises: a table left without rows ends the run in
    the last handler. *)
Definition localize_to_utc (df : DataFrame) : outcome DataFrame :=
  let* df2 := try_set_column "LocalizedTimestamp"
                (fun r => localize_cell (cell_of "NaiveTimestamp" r)) df in
  match rows df2 with
  | [] => Failed DateTimeProcessingError
  | _ =>
      Done (set_column "Timestamp"
              (fun r => tz_convert_utc (cell_of "LocalizedTimestamp" r)) df2)
  end.

(** Lines 81-103 *)
Definition parse_timestamps (df : DataFrame) : outcome DataFrame :=
  let* df1 := parse_naive df in localize_to_utc df1.

(** The UTC instant of the row, its UTC date and its session bounds. *)
Definition instant (c : cell) : Z :=
  match c with
  | CAware u _ => u
  | _ => 0
  end.
Definition timestamp_of (r : gmap string cell) : Z :=
  instant (cell_of "Timestamp" r).
Definition date_of (r : gmap string cell) : Z :=
  match cell_of "WorkoutUTCDate" r with
  | CDate d => d
  | _ => 0
  end.

Definition not_later (r1 r2 : gmap string cell) : Prop :=
  timestamp_of r1 <= timestamp_of r2.

Global Instance not_later_dec : RelDecision not_later.
Proof. intros r1 r2. unfold not_later. apply _. Defined.

(** Line 106, [sort_values('Timestamp')].  The order that the sort gives to
    rows with equal timestamps is not fixed by pandas; here they keep their
    order. *)
Definition sort_values (df : DataFrame) : DataFrame :=
  mkDF (columns df) (merge_sort not_later (rows df)).

(** [groupby(key)[val].transform('min')] and ['max'] at the row [r]: the
    extreme of [val] over the rows with the key of [r]. *)
Definition group_of (key : gmap string cell -> Z) (rs : list (gmap string cell))
    (r : gmap string cell) : list (gmap string cell) :=
  filter (fun r' => key r' = key r) rs.

Definition transform_min (key val : gmap string cell -> Z)
    (rs : list (gmap string cell)) (r : gmap string cell) : Z :=
  foldr Z.min (val r) (val <$> group_of key rs r).

Definition transform_max (key val : gmap string cell -> Z)
    (rs : list (gmap string cell)) (r : gmap string cell) : Z :=
  foldr Z.max (val r) (val <$> group_of key rs r).

(** [Series.unique()]: the distinct values in the order of first
    appearance. *)
Fixpoint unique (l : list Z) : list Z :=
  match l with
  | [] => []
  | x :: l' => x :: filter (fun y => y <> x) (unique l')
  end.

(** Line 116: [{date: i + 1 for i, date in enumerate(unique_utc_dates)}] *)
Definition enumerate_from_1 (l : list Z) : gmap Z Z :=
  list_to_map (imap (fun i d => (d, Z.of_nat i + 1)) l).

(** Lines 109-118 *)
Definition group_workouts (df : DataFrame) : DataFrame :=
  let df1 := set_column "WorkoutUTCDate"
               (fun r => CDate (utc_date (timestamp_of r))) df in
  let df2 := set_column "WorkoutStartTimeUTC"
               (fun r => CAware (transform_min date_of timestamp_of
                                   (rows df1) r) 0) df1 in
  let df3 := set_column "WorkoutEndTimeUTC"
               (fun r => CAware (transform_max date_of timestamp_of
                                   (rows df2) r) 0) df2 in
  let df4 := set_column "Duration (sec)"
               (fun r => CInt (instant (cell_of "WorkoutEndTimeUTC" r)
                               - instant (cell_of "WorkoutStartTimeUTC" r)))
               df3 in
  let unique_utc_dates := unique (date_of <$> rows df4) in
  let utc_date_to_workout_num := enumerate_from_1 unique_utc_dates in
  let df5 := set_column "Workout #"
               (fun r => match utc_date_to_workout_num !! date_of r with
                         | Some n => CInt n
                         | None => CNaN
                         end) df4 in
  set_column "Date"
    (fun r => CStr (strftime (instant (cell_of "WorkoutStartTimeUTC" r))))
    df5.

(** [pd.to_numeric(..., errors='coerce')] on one cell: the number, nothing
    where the result is NaN.  Text parses to a float; the timestamp cells
    never reach a numeric column. *)
Definition to_numeric (c : cell) : option num :=
  match c with
  | CStr s => NFloat <$> str_to_float s
  | CInt z => Some (NInt z)
  | CFloat f => if isna c then None else Some (NFloat f)
  | _ => None
  end.

(** [.fillna(k)] after [to_numeric]: a missing value lives in a float
    column, so it is filled with the float of [k]. *)
Definition fillna_num (k : float) (x : option num) : num :=
  default (NFloat k) x.

(** Lines 128-134 on one cell.  [np.where] computes both branches for every
    row, so the cast runs (and can raise) also where the duration is not
    positive. *)
Definition seconds_of_duration (c : cell) : outcome cell :=
  let duration_numeric := fillna_num 0 (to_numeric c) in
  match num_astype_int (num_mul duration_numeric 60) with
  | Some s => Done (CInt (if num_gt0 duration_numeric then s else 0))
  | None => Failed Uncaught
  end.

(** Lines 142-148 on one cell. *)
Definition meters_of_distance (c : cell) : cell :=
  let distance_numeric := fillna_num 0 (to_numeric c) in
  CFloat (if num_gt0 distance_numeric
          then num_astype_float (num_mul distance_numeric 1000)
          else 0%float).

(** Lines 120-151 *)
Definition process_cardio (df : DataFrame) : outcome DataFrame :=
  let df1 := set_column "Seconds" (fun _ => CInt 0) df in
  let df2 := set_column "Distance (meters)" (fun _ => CFloat 0) df1 in
  let* df3 :=
    if has_column "Duration" df2 then
      try_set_column "Seconds"
        (fun r => seconds_of_duration (cell_of "Duration" r)) df2
    else Done df2 in
  Done (if has_column "Distance" df3 then
          set_column "Distance (meters)"
            (fun r => meters_of_distance (cell_of "Distance" r)) df3
        else df3).

(** Lines 155-165.  The five new labels are taken to be new: a table that
    already has one of them next to its source column is outside the
    model. *)
Definition rename_map : list (string * string) :=
  [("Routine", "Workout Name"); ("Exercise", "Exercise Name");
   ("Set", "Set Order"); ("Weight", "Weight (kg)"); ("Note", "Notes")].

Definition rename_label (m : list (string * string)) (c : string) : string :=
  match list_find (fun kv => kv.1 = c) m with
  | Some (_, kv) => kv.2
  | None => c
  end.

Definition rename_row (m : list (string * string)) (r : gmap string cell)
    : gmap string cell :=
  foldr (fun kv acc =>
           match r !! kv.1 with
           | Some v => <[kv.2 := v]> (delete kv.1 acc)
           | None => acc
           end) r m.

Definition rename_columns (m : list (string * string)) (df : DataFrame)
    : DataFrame :=
  mkDF (rename_label m <$> columns df) (rename_row m <$> rows df).

(** Lines 170-181 *)
Definition default_for_missing (col : string) : cell :=
  if bool_decide (col ∈ ["RPE"; "Notes"; "Workout Notes"]) then CStr ""
  else if bool_decide (col ∈ ["Weight (kg)"; "Distance (meters)"])
  then CFloat 0
  else if bool_decide
            (col ∈ ["Reps"; "Set Order"; "Seconds"; "Duration (sec)"])
  then CInt 0
  else CStr "".

Definition add_missing_columns (strong_headers : list string)
    (df : DataFrame) : DataFrame :=
  foldl (fun df col =>
           if has_column col df then df
           else set_column col (fun _ => default_for_missing col) df)
        df strong_headers.

(** Lines 186-207 *)
Definition fill_defaults : list (string * cell) :=
  [("Workout Name", CStr "Workout"); ("Notes", CStr "");
   ("Workout Notes", CStr ""); ("RPE", CStr ""); ("Weight (kg)", CFloat 0);
   ("Reps", CInt 0); ("Set Order", CInt 1); ("Seconds", CInt 0);
   ("Distance (meters)", CFloat 0)].

(** The default of the dictionary as the float that [fillna] writes into a
    numeric column. *)
Definition default_num (default : cell) : float :=
  match default with
  | CInt k => float_of_int k
  | CFloat f => f
  | _ => 0%float
  end.

(** One cell of the column [col] in the loop of lines 198-207.  The
    in-place [fillna] of line 207 is taken to write through to the table. *)
Definition fill_cell (col : string) (default : cell) (c : cell)
    : outcome cell :=
  if bool_decide (col ∈ ["Set Order"; "Reps"; "Seconds"]) then
    match num_astype_int (fillna_num (default_num default) (to_numeric c)) with
    | Some z => Done (CInt z)
    | None => Failed Uncaught
    end
  else if bool_decide (col ∈ ["Weight (kg)"; "Distance (meters)"]) then
    Done (CFloat (num_astype_float
                    (fillna_num (default_num default) (to_numeric c))))
  else Done (if isna c then default else c).

Definition fill_column (col : string) (default : cell) (df : DataFrame)
    : outcome DataFrame :=
  if has_column col df then
    try_set_column col (fun r => fill_cell col default (cell_of col r)) df
  else Done df.

Fixpoint fill_all (defaults : list (string * cell)) (df : DataFrame)
    : outcome DataFrame :=
  match defaults with
  | [] => Done df
  | (col, default) :: defaults' =>
      let* df' := fill_column col default df in fill_all defaults' df'
  end.

(** Lines 211-216.  Only integer and float cells reach these casts; reading
    a column that is absent is a KeyError. *)
Definition cell_astype_int (c : cell) : outcome cell :=
  match c with
  | CInt z => Done (CInt z)
  | CFloat f =>
      match int_of_float f with
      | Some z => Done (CInt z)
      | None => Failed Uncaught
      end
  | _ => Failed Uncaught
  end.

Definition cell_astype_float (c : cell) : outcome cell :=
  match c with
  | CInt z => Done (CFloat (float_of_int z))
  | CFloat f => Done (CFloat f)
  | CNaN => Done CNaN
  | _ => Failed Uncaught
  end.

Definition cast_column (cast : cell -> outcome cell) (col : string)
    (df : DataFrame) : outcome DataFrame :=
  if has_column col df then
    try_set_column col (fun r => cast (cell_of col r)) df
  else Failed Uncaught.

Definition final_types (df : DataFrame) : outcome DataFrame :=
  let* df := cast_column cell_astype_int "Set Order" df in
  let* df := cast_column cell_astype_int "Reps" df in
  let* df := cast_column cell_astype_int "Seconds" df in
  let* df := cast_column cell_astype_float "Weight (kg)" df in
  let* df := cast_column cell_astype_float "Distance (meters)" df in
  cast_column cell_astype_int "Duration (sec)" df.

(** Lines 221-233: the check for missing columns, then
    [gymrun_df[strong_headers]]. *)
Definition select_final (strong_headers : list string) (df : DataFrame)
    : outcome DataFrame :=
  match missing_from strong_headers df with
  | [] =>
      Done (mkDF strong_headers
              ((fun r => filter (fun kv => kv.1 ∈ strong_headers) r)
                 <$> rows df))
  | missing_final_cols => Failed (MissingStrongColumns missing_final_cols)
  end.

(** [convert_gymrun_to_strong], from the loaded tables on: [gymrun_df] is
    the table read from the Gymrun file, [strong_headers] the header of the
    Strong example file; the result is the table handed to [to_csv]. *)
Definition convert_gymrun_to_strong (gymrun_df : DataFrame)
    (strong_headers : list string) (initial_mapping : list (pyobj * pyobj))
    : outcome DataFrame :=
  let* _ := check_columns gymrun_df in
  let* df := parse_timestamps gymrun_df in
  let df := group_workouts (sort_values df) in
  let* df := process_cardio df in
  let df := rename_columns rename_map df in
  let df := apply_exercise_mappings df initial_mapping "Exercise Name" in
  let df := add_missing_columns strong_headers df in
  let* df := fill_all fill_defaults df in
  let* df := final_types df in
  select_final strong_headers df.

(** ** exercises.py *)

(** Equality of the values of a column, as [nunique] counts them. *)
Definition cell_eqb (a b : cell) : bool :=
  match a, b with
  | CStr s, CStr t => bool_decide (s = t)
  | CInt x, CInt y => x =? y
  | CFloat f, CFloat g => PrimFloat.eqb f g
  | CNaive x, CNaive y => x =? y
  | CAware x _, CAware y _ => x =? y
  | CDate x, CDate y => x =? y
  | _, _ => false
  end.

Fixpoint distinct (l : list cell) : list cell :=
  match l with
  | [] => []
  | c :: l' => c :: filter (fun d => cell_eqb d c = false) (distinct l')
  end.

(** [Series.nunique()]: the number of distinct values, missing ones left
    out. *)
Definition nunique (l : list cell) : nat :=
  length (distinct (filter (fun c => isna c = false) l)).

(** [Series.isin(values)] on one text: a text equals no other kind of
    Python value. *)
Definition isin (s : string) (values : list pyobj) : bool :=
  bool_decide (PyStr s ∈ values).

(** [extract_unmapped_exercises], lines 37-56, from the loaded table on.
    The result is the table handed to [to_csv] and the count that is
    printed; no count is printed when no row is left. *)
Definition extract_unmapped_exercises (gymrun_df : DataFrame)
    (mapping_dict : list (pyobj * pyobj)) (exercise_col : string)
    : outcome (DataFrame * option nat) :=
  if has_column exercise_col gymrun_df then
    let mapped_exercises := mapping_dict.*1 in
    let unmapped_df :=
      mkDF (columns gymrun_df)
           (filter (fun r => isin (astype_str (cell_of exercise_col r))
                                  mapped_exercises = false)
                   (rows gymrun_df)) in
    Done (unmapped_df,
          match rows unmapped_df with
          | [] => None
          | _ => Some (nunique (cell_of exercise_col <$> rows unmapped_df))
          end)
  else Failed (ExerciseColumnNotFound exercise_col).


(** ** Notions used in the statements *)

(** The naive timestamp that line 83 gives the row, if it gives one. *)
Definition parsed (r : gmap string cell) : option Z :=
  match naive_timestamp r with
  | Done (CNaive dt) => Some dt
  | _ => None
  end.

Definition text_cell (c : cell) : bool :=
  match c with
  | CStr _ | CNaN => true
  | _ => false
  end.

(** [Date] and [Time] are text columns, as a CSV reader types a column that
    holds dates or times: every cell is a text or is missing. *)
Definition date_time_text (df : DataFrame) : bool :=
  forallb (fun r => text_cell (cell_of "Date" r)
                    && text_cell (cell_of "Time" r)) (rows df).

(** The table without the rows whose timestamp does not parse. *)
Definition keep_parsed (df : DataFrame) : DataFrame :=
  mkDF (columns df) (filter (fun r => is_Some (parsed r)) (rows df)).

(** A row as lines 83-91 leave it. *)
Definition with_timestamps (r : gmap string cell) (dt u off : Z)
    : gmap string cell :=
  <["Timestamp" := CAware u 0]>
    (<["LocalizedTimestamp" := CAware u off]>
       (<["NaiveTimestamp" := CNaive dt]> r)).

(** The UTC calendar date of the row's timestamp, and the cells of the
    session columns as numbers. *)
Definition day_of (r : gmap string cell) : Z := utc_date (timestamp_of r).
Definition session_start (r : gmap string cell) : Z :=
  instant (cell_of "WorkoutStartTimeUTC" r).
Definition session_end (r : gmap string cell) : Z :=
  instant (cell_of "WorkoutEndTimeUTC" r).

(** A field that is present, numeric and greater than zero: its number. *)
Definition positive_number (present : bool) (c : cell) : option num :=
  if present then
    match to_numeric c with
    | Some x => if num_gt0 x then Some x else None
    | None => None
    end
  else None.

(** [astype(int)] does not raise on [x]: an integer, or a float that is
    neither NaN nor infinite. *)
Definition cast_defined (x : num) : bool :=
  match x with
  | NInt _ => true
  | NFloat f =>
      match Prim2SF f with
      | S754_zero _ | S754_finite _ _ _ => true
      | _ => false
      end
  end.

(** No Duration cell of the table makes the cast of line 132 raise. *)
Definition durations_castable (df : DataFrame) : Prop :=
  has_column "Duration" df = true ->
  Forall (fun r =>
            cast_defined
              (num_mul (fillna_num 0 (to_numeric (cell_of "Duration" r))) 60)
            = true) (rows df).

(** The columns that the loop of lines 198-207 makes numeric. *)
Definition int_columns : list string := ["Set Order"; "Reps"; "Seconds"].
Definition float_columns : list string :=
  ["Weight (kg)"; "Distance (meters)"].



(** The entries of a dictionary whose key is a text. *)
Definition has_text_key (kv : pyobj * pyobj) : bool :=
  match kv.1 with
  | PyStr _ => true
  | _ => false
  end.

Definition text_entries (mapping_dict : list (pyobj * pyobj))
    : list (pyobj * pyobj) :=
  filter (fun kv => has_text_key kv = true) mapping_dict.

(** The entry of the dictionary that decides the name [s]: the last one
    whose key is not missing and reads as [s]. *)
Definition deciding_entry (mapping_dict : list (pyobj * pyobj)) (s : string)
    : option (pyobj * pyobj) :=
  last (filter (fun kv => py_notna kv.1 = true /\ py_str kv.1 = s)
               mapping_dict).

(** The text of a text cell. *)
Definition cell_text (c : cell) : option string :=
  match c with
  | CStr s => Some s
  | _ => None
  end.

(** The rows of [df'] are the rows of [df] with columns added that leave
    the timestamp and the UTC date of every row as they are. *)
Definition tracks (df' df : DataFrame) : Prop :=
  exists G : gmap string cell -> gmap string cell,
    rows df' = G <$> rows df
    /\ forall x, date_of (G x) = day_of x
                 /\ timestamp_of (G x) = timestamp_of x.

(** The row [r'] has the cells of [r] under every label that [P] holds
    of. *)
Definition keeps (P : string -> Prop) (r r' : gmap string cell) : Prop :=
  forall c, P c -> r' !! c = r !! c.

(** The labels that lines 120-207 write, rename or fill. *)
Definition touched : list string :=
  ["Seconds"; "Distance (meters)"; "Routine"; "Exercise"; "Set"; "Weight";
   "Note"; "Workout Name"; "Exercise Name"; "Set Order"; "Weight (kg)";
   "Notes"; "Workout Notes"; "RPE"; "Reps"].

(** Every row has a cell under every column of the table. *)
Definition rectangular (df : DataFrame) : bool :=
  forallb (fun r => forallb (fun c => bool_decide (is_Some (r !! c)))
                      (columns df)) (rows df).

(** No cell of the row makes the integer casts of lines 132 and 202 raise:
    what its Duration (where the table has the column), Set and Reps read
    as is no NaN and no infinity. *)
Definition castable_row (has_duration : bool) (r : gmap string cell) : bool :=
  (negb has_duration
   || cast_defined
        (num_mul (fillna_num 0 (to_numeric (cell_of "Duration" r))) 60))
  && cast_defined
       (fillna_num (default_num (CInt 1)) (to_numeric (cell_of "Set" r)))
  && cast_defined
       (fillna_num (default_num (CInt 0)) (to_numeric (cell_of "Reps" r))).

(** ** Facts about the table operations *)

Lemma try_map_Done {A B} (f : A -> outcome B) (l : list A) (l' : list B) :
  try_map f l = Done l' <-> Forall2 (fun x y => f x = Done y) l l'.
Proof.
  revert l'. induction l as [|x l IH]; intros l'; simpl.
  - split.
    + intros [= <-]. constructor.
    + intros H. by inversion H.
  - destruct (f x) as [y|e] eqn:Hx; simpl.
    + destruct (try_map f l) as [ys|e] eqn:Hl; simpl.
      * split.
        -- intros [= <-]. constructor; [done|]. by apply IH.
        -- intros H. inversion H as [|? y' ? ys' Hy Hys]; subst.
           rewrite Hx in Hy. injection Hy as <-.
           apply IH in Hys. by injection Hys as <-.
      * split; [done|].
        intros H. inversion H as [|? y' ? ys' Hy Hys]; subst.
        by apply IH in Hys.
    + split; [done|].
      intros H. inversion H as [|? y' ? ys' Hy Hys]; subst.
      by rewrite Hx in Hy.
Qed.

Lemma try_map_Failed {A B} (f : A -> outcome B) (l : list A) (e : failure) :
  try_map f l = Failed e ->
  exists i x, l !! i = Some x /\ f x = Failed e
    /\ forall j y, (j < i)%nat -> l !! j = Some y -> exists z, f y = Done z.
Proof.
  induction l as [|x l IH]; simpl; [done|].
  destruct (f x) as [y|e'] eqn:Hx; simpl.
  - destruct (try_map f l) as [ys|e'] eqn:Hl; simpl; [done|].
    intros [= ->]. destruct (IH eq_refl) as (i & x' & Hi & Hfx & Hbefore).
    exists (S i), x'. split_and!; [done..|].
    intros [|j] y' Hj Hy; simpl in *.
    + injection Hy as <-. by exists y.
    + apply (Hbefore j); [lia|done].
  - intros [= ->]. exists 0%nat, x. split_and!; [done..|].
    intros j y' Hj. lia.
Qed.

Lemma try_map_total {A B} (f : A -> outcome B) (l : list A) :
  (forall x, x ∈ l -> exists y, f x = Done y) ->
  exists l', try_map f l = Done l'.
Proof.
  induction l as [|x l IH]; intros Hall; simpl; [by eexists|].
  destruct (Hall x) as [y ->]; [by left|]. simpl.
  destruct IH as [ys ->]; [|by eexists].
  intros x' Hx'. apply Hall. by right.
Qed.

Lemma try_map_pure {A B} (g : A -> B) (l : list A) :
  try_map (fun x => Done (g x)) l = Done (g <$> l).
Proof. induction l as [|x l IH]; simpl; [done|]. by rewrite IH. Qed.

Lemma try_map_ext {A B} (f g : A -> outcome B) (l : list A) :
  (forall x, x ∈ l -> f x = g x) -> try_map f l = try_map g l.
Proof.
  induction l as [|x l IH]; intros H; simpl; [done|].
  rewrite (H x) by left. rewrite IH; [done|].
  intros y Hy. apply H. by right.
Qed.

(** The rows of a column assignment that went through. *)
Lemma try_set_column_Done c f df df' :
  try_set_column c f df = Done df' <->
  columns df' = (if has_column c df then columns df else columns df ++ [c])
  /\ Forall2 (fun r r' => exists v, f r = Done v /\ r' = <[c := v]> r)
       (rows df) (rows df').
Proof.
  unfold try_set_column.
  destruct (try_map _ (rows df)) as [rs|e] eqn:Hrs; simpl.
  - apply try_map_Done in Hrs. split.
    + intros [= <-]. simpl. split; [done|].
      eapply Forall2_impl; [done|]. intros r r' Hr. simpl in Hr.
      destruct (f r) as [v|]; simpl in Hr; [|done].
      injection Hr as <-. by exists v.
    + intros [Hc Hr]. destruct df' as [cs' rs']. simpl in *. subst cs'.
      f_equal. f_equal.
      assert (Forall2 (fun x y => (let* v := f x in Done (<[c:=v]> x)) = Done y)
                (rows df) rs') as Hrs'.
      { eapply Forall2_impl; [done|]. intros r r' (v & -> & ->). done. }
      apply try_map_Done in Hrs'. apply try_map_Done in Hrs.
      rewrite Hrs in Hrs'. by injection Hrs'.
  - split; [done|]. intros [_ Hr].
    assert (Forall2 (fun x y => (let* v := f x in Done (<[c:=v]> x)) = Done y)
              (rows df) (rows df')) as Hrs'.
    { eapply Forall2_impl; [done|]. intros r r' (v & -> & ->). done. }
    apply try_map_Done in Hrs'. by rewrite Hrs in Hrs'.
Qed.

Lemma try_set_column_pure c g df :
  try_set_column c (fun r => Done (g r)) df = Done (set_column c g df).
Proof. unfold try_set_column, set_column. simpl. by rewrite try_map_pure. Qed.

Lemma cell_of_insert c v (r : gmap string cell) : cell_of c (<[c := v]> r) = v.
Proof. unfold cell_of. by rewrite lookup_insert_eq. Qed.

Lemma cell_of_insert_ne c c' v (r : gmap string cell) :
  c <> c' -> cell_of c' (<[c := v]> r) = cell_of c' r.
Proof. intros H. unfold cell_of. by rewrite lookup_insert_ne. Qed.

(** ** Facts about the zone table and [localize] *)

Lemma bisect_right_mono a x y :
  x <= y -> (bisect_right a x <= bisect_right a y)%nat.
Proof.
  intros Hxy. induction a as [|t a IH]; simpl; [done|].
  destruct (Z.leb_spec t x), (Z.leb_spec t y); lia.
Qed.

Lemma bisect_right_length a x : (bisect_right a x <= length a)%nat.
Proof.
  induction a as [|t a IH]; simpl; [done|].
  destruct (t <=? x); lia.
Qed.

(** Two days hold at most one rule change. *)
Lemma bisect_right_window a x y :
  spaced a = true -> x <= y -> y - x <= 172800 ->
  (bisect_right a y <= S (bisect_right a x))%nat.
Proof.
  intros Hsp Hxy Hwin. induction a as [|t a IH]; simpl; [lia|].
  assert (spaced a = true) as Hsp'.
  { destruct a; [done|]. simpl in Hsp. by apply andb_true_iff in Hsp as [_ ?]. }
  specialize (IH Hsp').
  destruct (Z.leb_spec t x), (Z.leb_spec t y); try lia.
  destruct a as [|t2 a]; simpl; [lia|].
  simpl in Hsp. apply andb_true_iff in Hsp as [Ht _].
  apply Z.ltb_lt in Ht.
  destruct (Z.leb_spec t2 y); lia.
Qed.

Lemma zone_ok_inv tz :
  zone_ok tz = true ->
  length (utc_transition_times tz) = length (transition_info tz)
  /\ (0 < length (transition_info tz))%nat
  /\ spaced (utc_transition_times tz) = true
  /\ forall inf, inf ∈ transition_info tz ->
       -86400 < utcoffset inf < 86400.
Proof.
  unfold zone_ok. rewrite !andb_true_iff, negb_true_iff.
  intros [[[Hlen Hne] Hsp] Hoff].
  apply Nat.eqb_eq in Hlen. apply Nat.eqb_neq in Hne.
  split_and!; [done|lia|done|].
  intros inf Hin. rewrite forallb_forall in Hoff.
  specialize (Hoff inf). rewrite <- list_elem_of_In in Hoff.
  apply Hoff in Hin. apply andb_true_iff in Hin as [H1 H2].
  apply Z.ltb_lt in H1, H2. lia.
Qed.

Lemma tzinfo_at_total tz x :
  zone_ok tz = true -> exists inf, tzinfo_at tz x = Some inf.
Proof.
  intros (Hlen & Hne & _)%zone_ok_inv. unfold tzinfo_at.
  apply lookup_lt_is_Some_2.
  pose proof (bisect_right_length (utc_transition_times tz) x). lia.
Qed.

Lemma tzinfo_at_bound tz x inf :
  zone_ok tz = true -> tzinfo_at tz x = Some inf ->
  -86400 < utcoffset inf < 86400.
Proof.
  intros (_ & _ & _ & Hoff)%zone_ok_inv Hat. apply Hoff.
  unfold tzinfo_at in Hat. by eapply list_elem_of_lookup_2.
Qed.

Lemma tzinfo_at_same tz x y :
  bisect_right (utc_transition_times tz) x
  = bisect_right (utc_transition_times tz) y ->
  tzinfo_at tz x = tzinfo_at tz y.
Proof. unfold tzinfo_at. by intros ->. Qed.

Lemma shows_bound tz u dt :
  zone_ok tz = true -> shows tz u dt -> dt - 86400 < u < dt + 86400.
Proof.
  intros Hok (inf & Hat & Hdt).
  pose proof (tzinfo_at_bound _ _ _ Hok Hat). lia.
Qed.

(** A candidate of [localize] is an instant that shows [dt]. *)
Lemma possible_loc_dt_shows tz dt delta u off :
  possible_loc_dt tz dt delta = Some (Some (u, off)) ->
  exists inf, tzinfo_at tz u = Some inf /\ utcoffset inf = off
              /\ u + off = dt.
Proof.
  unfold possible_loc_dt, normalize, fromutc.
  destruct (tzinfo_at tz (dt + delta)) as [inf|]; simpl; [|done].
  destruct (tzinfo_at tz (dt - utcoffset inf)) as [inf'|] eqn:Hat; simpl;
    [|done].
  destruct (Z.eqb_spec (dt - utcoffset inf + utcoffset inf') dt); [|done].
  intros [= <- <-]. exists inf'. split_and!; [done|done|lia].
Qed.

(** The rule met one day away is the rule at [u]: the candidate is [u]. *)
Lemma possible_loc_dt_hit tz dt delta u inf :
  tzinfo_at tz u = Some inf -> u + utcoffset inf = dt ->
  bisect_right (utc_transition_times tz) (dt + delta)
  = bisect_right (utc_transition_times tz) u ->
  possible_loc_dt tz dt delta = Some (Some (u, utcoffset inf)).
Proof.
  intros Hat Hdt Hsame. unfold possible_loc_dt, normalize, fromutc.
  rewrite (tzinfo_at_same _ _ _ Hsame), Hat. simpl.
  replace (dt - utcoffset inf) with u by lia. rewrite Hat. simpl.
  rewrite Hdt, Z.eqb_refl. done.
Qed.

Lemma possible_loc_dt_total tz dt delta :
  zone_ok tz = true -> exists c, possible_loc_dt tz dt delta = Some c.
Proof.
  intros Hok. unfold possible_loc_dt, normalize, fromutc.
  destruct (tzinfo_at_total tz (dt + delta) Hok) as [inf ->]. simpl.
  destruct (tzinfo_at_total tz (dt - utcoffset inf) Hok) as [inf' ->]. simpl.
  by eexists.
Qed.

(** An instant that shows [dt] is found by the probe one day before or by
    the probe one day after. *)
Lemma shows_probe tz dt u :
  zone_ok tz = true -> shows tz u dt ->
  bisect_right (utc_transition_times tz) (dt + -86400)
  = bisect_right (utc_transition_times tz) u
  \/ bisect_right (utc_transition_times tz) (dt + 86400)
     = bisect_right (utc_transition_times tz) u.
Proof.
  intros Hok Hsh. pose proof (shows_bound _ _ _ Hok Hsh) as Hb.
  destruct (zone_ok_inv _ Hok) as (_ & _ & Hsp & _).
  set (a := utc_transition_times tz) in *.
  pose proof (bisect_right_mono a (dt + -86400) u ltac:(lia)).
  pose proof (bisect_right_mono a u (dt + 86400) ltac:(lia)).
  pose proof (bisect_right_window a (dt + -86400) (dt + 86400) Hsp
                ltac:(lia) ltac:(lia)).
  lia.
Qed.

Lemma localize_regular tz dt u :
  zone_ok tz = true -> shows tz u dt ->
  (forall u', shows tz u' dt -> u' = u) ->
  exists inf, tzinfo_at tz u = Some inf /\ u + utcoffset inf = dt
              /\ localize tz dt = Localized u (utcoffset inf).
Proof.
  intros Hok Hsh Huniq. pose proof Hsh as (inf & Hat & Hdt).
  exists inf. split_and!; [done..|].
  assert (forall delta u' off',
            possible_loc_dt tz dt delta = Some (Some (u', off')) ->
            u' = u /\ off' = utcoffset inf) as Hcand.
  { intros delta u' off' Hc.
    apply possible_loc_dt_shows in Hc as (inf' & Hat' & Hoff' & Hdt').
    assert (u' = u) as ->.
    { apply Huniq. exists inf'. split; [done|]. lia. }
    split; [done|]. lia. }
  unfold localize.
  destruct (possible_loc_dt_total tz dt (-86400) Hok) as [c1 Hc1].
  destruct (possible_loc_dt_total tz dt 86400 Hok) as [c2 Hc2].
  rewrite Hc1, Hc2.
  destruct (shows_probe _ _ _ Hok Hsh) as [Hp|Hp].
  - rewrite (possible_loc_dt_hit _ _ _ _ _ Hat Hdt Hp) in Hc1.
    injection Hc1 as <-.
    destruct c2 as [[u2 off2]|]; [|done].
    destruct (Hcand _ _ _ Hc2) as [-> ->]. by rewrite Z.eqb_refl.
  - rewrite (possible_loc_dt_hit _ _ _ _ _ Hat Hdt Hp) in Hc2.
    injection Hc2 as <-.
    destruct c1 as [[u1 off1]|]; [|done].
    destruct (Hcand _ _ _ Hc1) as [-> ->]. by rewrite Z.eqb_refl.
Qed.

Lemma localize_skipped tz dt :
  zone_ok tz = true -> skipped tz dt -> localize tz dt = NonExistentTime.
Proof.
  intros Hok Hsk. unfold localize.
  destruct (possible_loc_dt_total tz dt (-86400) Hok) as [c1 Hc1].
  destruct (possible_loc_dt_total tz dt 86400 Hok) as [c2 Hc2].
  rewrite Hc1, Hc2.
  assert (forall delta c, possible_loc_dt tz dt delta = Some c -> c = None)
    as Hnone.
  { intros delta [[u off]|] Hc; [|done].
    apply possible_loc_dt_shows in Hc as (inf & Hat & Hoff & Hdt).
    destruct (Hsk u). exists inf. split; [done|]. lia. }
  by rewrite (Hnone _ _ Hc1), (Hnone _ _ Hc2).
Qed.

Lemma localize_repeated tz dt :
  zone_ok tz = true -> repeated tz dt -> localize tz dt = AmbiguousTime.
Proof.
  intros Hok (u1 & u2 & Hne & Hsh1 & Hsh2).
  assert (exists v1 v2, v1 < v2 /\ shows tz v1 dt /\ shows tz v2 dt)
    as (v1 & v2 & Hlt & Hv1 & Hv2).
  { destruct (Z.lt_ge_cases u1 u2).
    - by exists u1, u2.
    - exists u2, u1. split_and!; [lia|done..]. }
  clear u1 u2 Hne Hsh1 Hsh2.
  pose proof Hv1 as (inf1 & Hat1 & Hdt1).
  pose proof Hv2 as (inf2 & Hat2 & Hdt2).
  pose proof (shows_bound _ _ _ Hok Hv1) as Hb1.
  pose proof (shows_bound _ _ _ Hok Hv2) as Hb2.
  destruct (zone_ok_inv _ Hok) as (_ & _ & Hsp & _).
  set (a := utc_transition_times tz) in *.
  assert (bisect_right a v1 <> bisect_right a v2) as Hdiff.
  { intros Hsame. apply (tzinfo_at_same tz) in Hsame.
    rewrite Hat1, Hat2 in Hsame. injection Hsame as <-. lia. }
  pose proof (bisect_right_mono a v1 v2 ltac:(lia)).
  pose proof (bisect_right_mono a (dt + -86400) v1 ltac:(lia)).
  pose proof (bisect_right_mono a v2 (dt + 86400) ltac:(lia)).
  pose proof (bisect_right_window a (dt + -86400) (dt + 86400) Hsp
                ltac:(lia) ltac:(lia)).
  unfold localize.
  rewrite (possible_loc_dt_hit _ _ (-86400) _ _ Hat1 Hdt1) by (fold a; lia).
  rewrite (possible_loc_dt_hit _ _ 86400 _ _ Hat2 Hdt2) by (fold a; lia).
  destruct (Z.eqb_spec v1 v2); [lia|done].
Qed.

Lemma showsb_shows tz u dt : showsb tz u dt = true <-> shows tz u dt.
Proof.
  unfold showsb, shows. split.
  - destruct (tzinfo_at tz u) as [inf|]; [|done].
    intros H%Z.eqb_eq. by exists inf.
  - intros (inf & -> & H). by apply Z.eqb_eq.
Qed.

Lemma instants_showing_spec tz dt u :
  u ∈ instants_showing tz dt <-> shows tz u dt.
Proof.
  unfold instants_showing. rewrite list_elem_of_filter, showsb_shows.
  split; [by intros [? _]|].
  intros Hsh. split; [done|].
  destruct Hsh as (inf & Hat & Hdt).
  apply list_elem_of_fmap. exists inf. split; [lia|].
  unfold tzinfo_at in Hat. by eapply list_elem_of_lookup_2.
Qed.

Lemma regularb_sound tz dt : regularb tz dt = true -> regular tz dt.
Proof.
  unfold regularb. destruct (instants_showing tz dt) as [|u l] eqn:Hl; [done|].
  intros Hall. exists u. split.
  - apply instants_showing_spec. rewrite Hl. by left.
  - intros u' Hu'%instants_showing_spec. rewrite Hl in Hu'.
    apply elem_of_cons in Hu' as [->|Hin]; [done|].
    rewrite forallb_forall in Hall. specialize (Hall u').
    rewrite <- list_elem_of_In in Hall. apply Hall in Hin.
    apply Z.eqb_eq in Hin. done.
Qed.

Lemma repeatedb_sound tz dt : repeatedb tz dt = true -> repeated tz dt.
Proof.
  unfold repeatedb. destruct (instants_showing tz dt) as [|u l] eqn:Hl; [done|].
  intros Hall%negb_true_iff.
  assert (exists u', u' ∈ l /\ u' <> u) as (u' & Hin & Hne).
  { clear Hl. induction l as [|x l IH]; simpl in Hall; [done|].
    destruct (Z.eqb_spec u x) as [->|Hx]; simpl in Hall.
    - destruct (IH Hall) as (u' & ? & ?). exists u'. split; [by right|done].
    - exists x. split; [by left|done]. }
  exists u', u. split_and!; [done|..]; apply instants_showing_spec; rewrite Hl.
  - by right.
  - by left.
Qed.

Lemma skippedb_sound tz dt : skippedb tz dt = true -> skipped tz dt.
Proof.
  unfold skippedb. destruct (instants_showing tz dt) as [|u l] eqn:Hl; [|done].
  intros _ u Hu%instants_showing_spec. rewrite Hl in Hu. by inversion Hu.
Qed.

(** ** Facts about lines 81-103 *)

Lemma naive_timestamp_cases r :
  naive_timestamp r = Failed DateTimeProcessingError /\ parsed r = None
  \/ naive_timestamp r = Done CNaN /\ parsed r = None
  \/ exists dt, naive_timestamp r = Done (CNaive dt) /\ parsed r = Some dt.
Proof.
  unfold parsed, naive_timestamp.
  destruct (date_plus_time r) as [[]|]; auto.
  destruct (to_datetime s); eauto.
Qed.

Lemma naive_timestamp_text r :
  text_cell (cell_of "Date" r) && text_cell (cell_of "Time" r) = true ->
  naive_timestamp r
  = Done (match parsed r with Some dt => CNaive dt | None => CNaN end).
Proof.
  unfold parsed, naive_timestamp, date_plus_time.
  destruct (cell_of "Date" r), (cell_of "Time" r); try done.
  by destruct (to_datetime _).
Qed.

Lemma localize_cell_Done c v :
  localize_cell c = Done v ->
  exists dt u off, c = CNaive dt /\ localize norway_tz dt = Localized u off
                   /\ v = CAware u off.
Proof.
  destruct c; simpl; try done.
  destruct (localize norway_tz t) as [u off| | |] eqn:Hl; try done.
  intros [= <-]. by exists t, u, off.
Qed.

(** What a run of lines 81-103 that goes through leaves: the rows that
    parse, in their order, each with its three timestamps. *)
Lemma parse_timestamps_Done df df' :
  parse_timestamps df = Done df' ->
  rows df' <> []
  /\ Forall2 (fun r r' => exists dt u off,
                parsed r = Some dt
                /\ localize norway_tz dt = Localized u off
                /\ r' = with_timestamps r dt u off)
       (filter (fun r => is_Some (parsed r)) (rows df)) (rows df').
Proof.
  unfold parse_timestamps, parse_naive, localize_to_utc.
  destruct (try_set_column "NaiveTimestamp" _ df) as [df0|] eqn:H0;
    simpl; [|done].
  destruct (try_set_column "LocalizedTimestamp" _ _) as [df2|] eqn:H2;
    simpl; [|done].
  destruct (rows df2) as [|r2 rs2] eqn:Hrs2; [done|].
  intros [= <-]. simpl. rewrite Hrs2.
  split; [done|]. rewrite <- Hrs2. clear Hrs2 r2 rs2.
  apply try_set_column_Done in H0 as [_ H0].
  apply try_set_column_Done in H2 as [_ H2]. simpl in H2.
  assert (Forall2 (fun r r' => exists v,
                     naive_timestamp r = Done v
                     /\ r' = <["NaiveTimestamp" := v]> r)
            (filter (fun r => is_Some (parsed r)) (rows df))
            (filter (fun r => isna (cell_of "NaiveTimestamp" r) = false)
                    (rows df0))) as H0'.
  { eapply Forall2_filter; [|exact H0].
    intros r r0 (v & Hv & ->). rewrite cell_of_insert.
    destruct (naive_timestamp_cases r) as [[Hf _]|[[Hn Hp]|(dt & Hd & Hp)]].
    - by rewrite Hf in Hv.
    - rewrite Hn in Hv. injection Hv as <-. rewrite Hp. simpl.
      split; [by intros []|done].
    - rewrite Hd in Hv. injection Hv as <-. rewrite Hp. simpl.
      split; [done|by eexists]. }
  apply Forall2_fmap_r.
  eapply Forall2_trans; [|exact H0'|exact H2].
  intros r r0 r2 (v & Hv & ->) (w & Hw & ->). simpl in *.
  rewrite cell_of_insert in Hw.
  apply localize_cell_Done in Hw as (dt & u & off & -> & Hloc & ->).
  exists dt, u, off. split_and!; [|done|].
  - unfold parsed. by rewrite Hv.
  - unfold with_timestamps. by rewrite cell_of_insert.
Qed.

(** [localize] decides between the three cases of a wall-clock time. *)
Lemma localize_spec tz dt :
  zone_ok tz = true ->
  match localize tz dt with
  | Localized u off =>
      (exists inf, tzinfo_at tz u = Some inf /\ utcoffset inf = off
                   /\ u + off = dt)
      /\ forall u', shows tz u' dt -> u' = u
  | AmbiguousTime => repeated tz dt
  | NonExistentTime => skipped tz dt
  | IndexError => False
  end.
Proof.
  intros Hok.
  destruct (skippedb tz dt) eqn:Hs.
  { pose proof (skippedb_sound _ _ Hs) as H.
    by rewrite (localize_skipped _ _ Hok H). }
  destruct (repeatedb tz dt) eqn:Hr.
  { pose proof (repeatedb_sound _ _ Hr) as H.
    by rewrite (localize_repeated _ _ Hok H). }
  assert (regularb tz dt = true) as Hreg.
  { unfold skippedb, repeatedb, regularb in *.
    destruct (instants_showing tz dt); [done|].
    by apply negb_false_iff in Hr. }
  destruct (regularb_sound _ _ Hreg) as (u & Hsh & Huniq).
  destruct (localize_regular _ _ _ Hok Hsh Huniq) as (inf & Hat & Hdt & ->).
  split; [|done]. exists inf. done.
Qed.


Lemma try_set_column_ext c f g df :
  (forall r, r ∈ rows df -> f r = g r) ->
  try_set_column c f df = try_set_column c g df.
Proof.
  intros H. unfold try_set_column. f_equal.
  apply try_map_ext. intros r Hr. by rewrite (H r Hr).
Qed.

Lemma filter_fmap_comm {A B} (f : A -> B) (P : A -> Prop) (Q : B -> Prop)
    `{!forall x, Decision (P x), !forall y, Decision (Q y)} (l : list A) :
  (forall x, Q (f x) <-> P x) -> filter Q (f <$> l) = f <$> filter P l.
Proof.
  intros Hiff. induction l as [|x l IH]; [done|].
  rewrite fmap_cons, !filter_cons, IH.
  destruct (decide (Q (f x))) as [HQ|HQ], (decide (P x)) as [HP|HP];
    try done; by apply Hiff in HQ || apply Hiff in HP.
Qed.

Lemma date_time_text_row df r :
  date_time_text df = true -> r ∈ rows df ->
  text_cell (cell_of "Date" r) && text_cell (cell_of "Time" r) = true.
Proof.
  unfold date_time_text. rewrite forallb_forall. intros H Hr.
  apply H. by apply list_elem_of_In.
Qed.

(** Lines 83-84 on text columns: the rows that parse are kept, each with
    its naive timestamp. *)
Lemma parse_naive_text df :
  date_time_text df = true ->
  parse_naive df
  = Done (mkDF (if has_column "NaiveTimestamp" df then columns df
                else columns df ++ ["NaiveTimestamp"])
               ((fun r => <["NaiveTimestamp" :=
                              match parsed r with
                              | Some dt => CNaive dt
                              | None => CNaN
                              end]> r)
                  <$> filter (fun r => is_Some (parsed r)) (rows df))).
Proof.
  intros Htext. unfold parse_naive.
  rewrite (try_set_column_ext _ _
             (fun r => Done (match parsed r with
                             | Some dt => CNaive dt
                             | None => CNaN
                             end))).
  2: { intros r Hr. apply naive_timestamp_text.
       by eapply date_time_text_row. }
  rewrite try_set_column_pure. simpl. unfold dropna, set_column. simpl.
  f_equal. f_equal. apply filter_fmap_comm.
  intros r. rewrite cell_of_insert. destruct (parsed r); simpl.
  - split; [by eexists|done].
  - split; [done|by intros []].
Qed.

Lemma date_time_text_keep_parsed df :
  date_time_text df = true -> date_time_text (keep_parsed df) = true.
Proof.
  unfold date_time_text, keep_parsed. simpl. rewrite !forallb_forall.
  intros H r Hr. apply H. apply list_elem_of_In.
  apply list_elem_of_In in Hr. by apply list_elem_of_filter in Hr as [_ ?].
Qed.

Lemma parse_naive_keep_parsed df :
  date_time_text df = true -> parse_naive (keep_parsed df) = parse_naive df.
Proof.
  intros Htext.
  rewrite (parse_naive_text df Htext).
  rewrite (parse_naive_text _ (date_time_text_keep_parsed _ Htext)).
  unfold keep_parsed, has_column. simpl. do 3 f_equal.
  rewrite list_filter_filter. apply list_filter_iff. tauto.
Qed.

(** Lines 86-91 go through when every row holds a regular local time. *)
Lemma localize_to_utc_total df :
  zone_ok norway_tz = true -> rows df <> [] ->
  (forall r, r ∈ rows df ->
     exists dt, cell_of "NaiveTimestamp" r = CNaive dt
                /\ regular norway_tz dt) ->
  exists df', localize_to_utc df = Done df'.
Proof.
  intros Hok Hne Hall. unfold localize_to_utc, try_set_column.
  destruct (try_map_total
              (fun r => let* v := localize_cell (cell_of "NaiveTimestamp" r)
                        in Done (<["LocalizedTimestamp" := v]> r))
              (rows df)) as [rs Hrs].
  { intros r Hr. destruct (Hall r Hr) as (dt & -> & (u & Hsh & Huniq)).
    destruct (localize_regular _ _ _ Hok Hsh Huniq) as (inf & _ & _ & Hloc).
    simpl. rewrite Hloc. simpl. by eexists. }
  rewrite Hrs. simpl.
  apply try_map_Done, Forall2_length in Hrs.
  destruct rs; [|by eexists].
  destruct (rows df); [done|]. simpl in Hrs. lia.
Qed.


(** ** Claims about the timestamps *)

(** C1, as the code has it: on a table whose Date and Time columns are
    text, whose parseable rows all hold a local time off the boundaries of
    the zone's rules, and that has such a row, lines 81-103 do not abort;
    they keep exactly the parseable rows, and the canonical UTC timestamp of
    each is the one instant at which the zone shows the row's local time:
    the local wall-clock time minus the UTC offset of the rule in force at
    that instant.  That is one hour earlier where the rule in force is one
    of +1 h and two hours earlier where it is one of +2 h; where the table
    has another rule, such as the local mean time of Europe/Oslo before
    1895, the offset is that rule's. *)
Theorem utc_timestamp_is_local_minus_offset (df : DataFrame) :
  zone_ok norway_tz = true ->
  date_time_text df = true ->
  Forall (fun r => forall dt, parsed r = Some dt -> regular norway_tz dt)
         (rows df) ->
  rows (keep_parsed df) <> [] ->
  exists df',
    parse_timestamps df = Done df'
    /\ Forall2 (fun r r' => exists dt inf,
                  parsed r = Some dt
                  /\ tzinfo_at norway_tz (dt - utcoffset inf) = Some inf
                  /\ (forall u, shows norway_tz u dt -> u = dt - utcoffset inf)
                  /\ cell_of "Timestamp" r' = CAware (dt - utcoffset inf) 0
                  /\ (utcoffset inf = 3600 ->
                      cell_of "Timestamp" r' = CAware (dt - 3600) 0)
                  /\ (utcoffset inf = 7200 ->
                      cell_of "Timestamp" r' = CAware (dt - 7200) 0)
                  /\ r' = with_timestamps r dt (dt - utcoffset inf)
                            (utcoffset inf))
         (rows (keep_parsed df)) (rows df').
Proof.
  intros Hok Htext Hreg Hne.
  assert (exists df', parse_timestamps df = Done df') as [df' Hdf'].
  { unfold parse_timestamps. rewrite (parse_naive_text df Htext). simpl.
    apply localize_to_utc_total; [done|..]; simpl.
    - intros Hnil. apply fmap_nil_inv in Hnil. done.
    - intros r1 (r & -> & Hr)%list_elem_of_fmap.
      apply list_elem_of_filter in Hr as [[dt Hdt] Hr].
      exists dt. rewrite cell_of_insert, Hdt. split; [done|].
      rewrite Forall_forall in Hreg. by apply (Hreg r). }
  exists df'. split; [done|].
  apply parse_timestamps_Done in Hdf' as [_ Hrows].
  eapply Forall2_impl; [exact Hrows|].
  intros r r' (dt & u & off & Hdt & Hloc & ->). simpl.
  pose proof (localize_spec norway_tz dt Hok) as Hspec.
  rewrite Hloc in Hspec. destruct Hspec as [(inf & Hat & <- & Hu) Honly].
  assert (u = dt - utcoffset inf) as -> by lia.
  assert (cell_of "Timestamp"
            (with_timestamps r dt (dt - utcoffset inf) (utcoffset inf))
          = CAware (dt - utcoffset inf) 0) as Hcell.
  { unfold with_timestamps. by rewrite cell_of_insert. }
  exists dt, inf.
  split_and!; [done|done|exact Honly|exact Hcell| | |done].
  - intros Hoff. by rewrite Hcell, Hoff.
  - intros Hoff. by rewrite Hcell, Hoff.
Qed.

Lemma check_columns_keep_parsed df :
  check_columns (keep_parsed df) = check_columns df.
Proof. done. Qed.


(** X17 (lines 83-84).  The discard: a row whose Date and Time do not
    parse takes no part in the run.  Lines 81-103 keep exactly the rows that
    parse, and the whole conversion of a table equals the conversion of the
    table without its unparseable rows, so such a row is in no output and
    changes no result. *)
Lemma unparseable_rows_are_dropped (gymrun_df : DataFrame)
    (strong_headers : list string) (initial_mapping : list (pyobj * pyobj)) :
  date_time_text gymrun_df = true ->
  convert_gymrun_to_strong gymrun_df strong_headers initial_mapping
  = convert_gymrun_to_strong (keep_parsed gymrun_df) strong_headers
      initial_mapping
  /\ forall df', parse_timestamps gymrun_df = Done df' ->
       Forall2 (fun r r' => exists dt u off,
                  parsed r = Some dt /\ r' = with_timestamps r dt u off)
         (rows (keep_parsed gymrun_df)) (rows df').
Proof.
  intros Htext. split.
  - unfold convert_gymrun_to_strong, parse_timestamps.
    by rewrite check_columns_keep_parsed, (parse_naive_keep_parsed _ Htext).
  - intros df' [_ Hrows]%parse_timestamps_Done.
    eapply Forall2_impl; [exact Hrows|].
    intros r r' (dt & u & off & ? & _ & ?). by exists dt, u, off.
Qed.

(** ** Facts about lines 105-118 *)

Lemma foldr_min_le_base x l : foldr Z.min x l <= x.
Proof. induction l as [|y l IH]; simpl; lia. Qed.

Lemma foldr_min_le_elem x l y : y ∈ l -> foldr Z.min x l <= y.
Proof.
  induction l as [|z l IH]; [by inversion 1|].
  intros [->|Hy]%elem_of_cons; simpl; [lia|]. specialize (IH Hy). lia.
Qed.

Lemma foldr_min_elem x l : foldr Z.min x l ∈ x :: l.
Proof.
  induction l as [|y l IH]; simpl; [by left|].
  destruct (Z.min_spec y (foldr Z.min x l)) as [[_ ->]|[_ ->]].
  - right. by left.
  - apply elem_of_cons in IH as [->|IH]; [by left|]. right. by right.
Qed.

Lemma foldr_min_same x y l :
  x ∈ l -> y ∈ l -> foldr Z.min x l = foldr Z.min y l.
Proof.
  intros Hx Hy.
  pose proof (foldr_min_elem x l) as [Hex|Hex]%elem_of_cons;
  pose proof (foldr_min_elem y l) as [Hey|Hey]%elem_of_cons.
  - pose proof (foldr_min_le_elem x l y Hy).
    pose proof (foldr_min_le_elem y l x Hx). lia.
  - pose proof (foldr_min_le_elem x l _ Hey).
    pose proof (foldr_min_le_elem y l x Hx). lia.
  - pose proof (foldr_min_le_elem x l y Hy).
    pose proof (foldr_min_le_elem y l _ Hex). lia.
  - pose proof (foldr_min_le_elem x l _ Hey).
    pose proof (foldr_min_le_elem y l _ Hex). lia.
Qed.

Lemma foldr_max_ge_base x l : x <= foldr Z.max x l.
Proof. induction l as [|y l IH]; simpl; lia. Qed.

Lemma foldr_max_ge_elem x l y : y ∈ l -> y <= foldr Z.max x l.
Proof.
  induction l as [|z l IH]; [by inversion 1|].
  intros [->|Hy]%elem_of_cons; simpl; [lia|]. specialize (IH Hy). lia.
Qed.

Lemma foldr_max_elem x l : foldr Z.max x l ∈ x :: l.
Proof.
  induction l as [|y l IH]; simpl; [by left|].
  destruct (Z.max_spec y (foldr Z.max x l)) as [[_ ->]|[_ ->]].
  - apply elem_of_cons in IH as [->|IH]; [by left|]. right. by right.
  - right. by left.
Qed.

Lemma foldr_max_same x y l :
  x ∈ l -> y ∈ l -> foldr Z.max x l = foldr Z.max y l.
Proof.
  intros Hx Hy.
  pose proof (foldr_max_elem x l) as [Hex|Hex]%elem_of_cons;
  pose proof (foldr_max_elem y l) as [Hey|Hey]%elem_of_cons.
  - pose proof (foldr_max_ge_elem x l y Hy).
    pose proof (foldr_max_ge_elem y l x Hx). lia.
  - pose proof (foldr_max_ge_elem x l _ Hey).
    pose proof (foldr_max_ge_elem y l x Hx). lia.
  - pose proof (foldr_max_ge_elem x l y Hy).
    pose proof (foldr_max_ge_elem y l _ Hex). lia.
  - pose proof (foldr_max_ge_elem x l _ Hey).
    pose proof (foldr_max_ge_elem y l _ Hex). lia.
Qed.

(** The timestamps of the session of [r]: those of the rows of [rs] on the
    UTC date of [r]. *)
Lemma group_of_fmap (key val key' val' : gmap string cell -> Z)
    (g : gmap string cell -> gmap string cell) rs r :
  (forall x, key (g x) = key' x) -> (forall x, val (g x) = val' x) ->
  val <$> group_of key (g <$> rs) (g r) = val' <$> group_of key' rs r.
Proof.
  intros Hkey Hval. unfold group_of.
  rewrite (filter_fmap_comm g (fun x => key' x = key' r)
             (fun y => key y = key (g r))).
  - rewrite <- list_fmap_compose. apply list_fmap_ext. intros _ x _. apply Hval.
  - intros x. by rewrite !Hkey.
Qed.

Lemma group_of_self key rs (r : gmap string cell) :
  r ∈ rs -> r ∈ group_of key rs r.
Proof. intros Hr. unfold group_of. by apply list_elem_of_filter. Qed.

Lemma group_of_same_key key rs (r1 r2 : gmap string cell) :
  key r1 = key r2 -> group_of key rs r1 = group_of key rs r2.
Proof. intros Hk. unfold group_of. by rewrite Hk. Qed.

Ltac cell_simpl :=
  repeat (rewrite cell_of_insert || rewrite cell_of_insert_ne by done).

Lemma set_column_lookup c f df i r' :
  rows (set_column c f df) !! i = Some r' <->
  exists r, rows df !! i = Some r /\ r' = <[c := f r]> r.
Proof.
  unfold set_column. simpl. rewrite list_lookup_fmap.
  destruct (rows df !! i) as [r|]; simpl.
  - split.
    + intros [= <-]. by exists r.
    + by intros (? & [= <-] & ->).
  - split; [done|]. by intros (? & ? & _).
Qed.

Lemma tracks_set_column c f df' df :
  c <> "Timestamp" -> c <> "WorkoutUTCDate" ->
  tracks df' df -> tracks (set_column c f df') df.
Proof.
  intros Hc1 Hc2 (G & HG & Hinv).
  exists (fun x => <[c := f (G x)]> (G x)). split.
  - unfold set_column. simpl. by rewrite HG, <- list_fmap_compose.
  - intros x. unfold date_of, timestamp_of. cell_simpl. apply Hinv.
Qed.

Lemma tracks_lookup df' df i r' :
  tracks df' df -> rows df' !! i = Some r' ->
  exists r, rows df !! i = Some r
    /\ date_of r' = day_of r /\ timestamp_of r' = timestamp_of r
    /\ date_of <$> rows df' = day_of <$> rows df
    /\ (forall op, foldr op (timestamp_of r')
                     (timestamp_of <$> group_of date_of (rows df') r')
                   = foldr op (timestamp_of r)
                       (timestamp_of <$> group_of day_of (rows df) r)).
Proof.
  intros (G & HG & Hinv) Hi. rewrite HG, list_lookup_fmap in Hi.
  destruct (rows df !! i) as [r|]; [|done]. injection Hi as <-.
  exists r. split_and!; [done|apply Hinv|apply Hinv|..].
  - rewrite HG, <- list_fmap_compose. apply list_fmap_ext.
    intros _ x _. apply Hinv.
  - intros op. rewrite HG. f_equal; [apply Hinv|].
    apply group_of_fmap; intros x; apply Hinv.
Qed.

(** The session columns of a row after lines 109-118, in terms of the rows
    before them. *)
Lemma group_workouts_lookup df i r' :
  rows (group_workouts df) !! i = Some r' ->
  exists r,
    rows df !! i = Some r
    /\ timestamp_of r' = timestamp_of r
    /\ cell_of "WorkoutUTCDate" r' = CDate (day_of r)
    /\ cell_of "WorkoutStartTimeUTC" r'
       = CAware (foldr Z.min (timestamp_of r)
                   (timestamp_of <$> group_of day_of (rows df) r)) 0
    /\ cell_of "WorkoutEndTimeUTC" r'
       = CAware (foldr Z.max (timestamp_of r)
                   (timestamp_of <$> group_of day_of (rows df) r)) 0
    /\ cell_of "Duration (sec)" r' = CInt (session_end r' - session_start r')
    /\ cell_of "Date" r' = CStr (strftime (session_start r'))
    /\ cell_of "Workout #" r'
       = match enumerate_from_1 (unique (day_of <$> rows df)) !! day_of r with
         | Some n => CInt n
         | None => CNaN
         end.
Proof.
  unfold group_workouts. cbv zeta.
  set (df1 := set_column "WorkoutUTCDate" _ df).
  set (df2 := set_column "WorkoutStartTimeUTC" _ df1).
  set (df3 := set_column "WorkoutEndTimeUTC" _ df2).
  set (df4 := set_column "Duration (sec)" _ df3).
  set (df5 := set_column "Workout #" _ df4).
  assert (tracks df1 df) as Ht1.
  { exists (fun x => <["WorkoutUTCDate" := CDate (utc_date (timestamp_of x))]> x).
    split; [done|]. intros x. unfold date_of, timestamp_of. by cell_simpl. }
  assert (tracks df2 df) as Ht2 by by apply tracks_set_column.
  assert (tracks df3 df) as Ht3 by by apply tracks_set_column.
  assert (tracks df4 df) as Ht4 by by apply tracks_set_column.
  intros (r5 & H5 & ->)%set_column_lookup.
  apply set_column_lookup in H5 as (r4 & H4 & ->).
  destruct (tracks_lookup _ _ _ _ Ht4 H4) as (r & Hr & Hd4 & Hts4 & Hdates & _).
  apply set_column_lookup in H4 as (r3 & H3 & ->).
  apply set_column_lookup in H3 as (r2 & H2 & ->).
  destruct (tracks_lookup _ _ _ _ Ht2 H2) as (? & Hr' & _ & _ & _ & Hop2).
  rewrite Hr in Hr'. injection Hr' as <-.
  apply set_column_lookup in H2 as (r1 & H1 & ->).
  destruct (tracks_lookup _ _ _ _ Ht1 H1) as (? & Hr' & Hd1 & Hts1 & _ & Hop1).
  rewrite Hr in Hr'. injection Hr' as <-.
  exists r. split; [done|].
  rewrite Hdates, Hd4.
  unfold transform_max in *. unfold transform_min in *.
  rewrite Hop2, Hop1.
  unfold session_start, session_end, timestamp_of at 1. cell_simpl. simpl.
  apply set_column_lookup in H1 as (r0 & Hr0 & ->).
  rewrite Hr in Hr0. injection Hr0 as <-.
  split_and!; try done.
  by cell_simpl.
Qed.

Lemma group_workouts_length df :
  length (rows (group_workouts df)) = length (rows df).
Proof. unfold group_workouts, set_column. simpl. by rewrite !length_fmap. Qed.

Lemma group_workouts_lookup_total df i r :
  rows df !! i = Some r -> exists r', rows (group_workouts df) !! i = Some r'.
Proof.
  intros Hr. apply lookup_lt_is_Some_2. rewrite group_workouts_length.
  by eapply lookup_lt_Some.
Qed.

Lemma group_workouts_days df :
  day_of <$> rows (group_workouts df) = day_of <$> rows df.
Proof.
  apply list_eq. intros i. rewrite !list_lookup_fmap.
  destruct (rows (group_workouts df) !! i) as [r'|] eqn:Hr'.
  - apply group_workouts_lookup in Hr' as (r & -> & Hts & _).
    simpl. unfold day_of. by rewrite Hts.
  - destruct (rows df !! i) as [r|] eqn:Hr; [|done].
    destruct (group_workouts_lookup_total _ _ _ Hr) as [r' Hr'']. congruence.
Qed.

(** ** Claims about the sessions *)

(** C2: after lines 108-118 every row lies between the start and the end of
    its session, its workout duration is the end minus the start in whole
    seconds, and two rows on the same UTC calendar date carry the same
    session start, session end and duration. *)
Theorem session_bounds_and_duration (df : DataFrame) (i : nat)
    (r' : gmap string cell) :
  rows (group_workouts df) !! i = Some r' ->
  session_start r' <= timestamp_of r' <= session_end r'
  /\ cell_of "Duration (sec)" r' = CInt (session_end r' - session_start r')
  /\ forall j r'',
       rows (group_workouts df) !! j = Some r'' -> day_of r'' = day_of r' ->
       cell_of "WorkoutStartTimeUTC" r'' = cell_of "WorkoutStartTimeUTC" r'
       /\ cell_of "WorkoutEndTimeUTC" r'' = cell_of "WorkoutEndTimeUTC" r'
       /\ cell_of "Duration (sec)" r'' = cell_of "Duration (sec)" r'.
Proof.
  intros (r & Hr & Hts & _ & Hs & He & Hd & _)%group_workouts_lookup.
  unfold session_start, session_end in *. rewrite Hs, He in *. simpl.
  split_and!.
  - rewrite Hts. apply foldr_min_le_base.
  - rewrite Hts. apply foldr_max_ge_base.
  - done.
  - intros j r''
      (r2 & Hr2 & Hts2 & _ & Hs2 & He2 & Hd2 & _)%group_workouts_lookup Hday.
    unfold session_start, session_end in *. rewrite Hs2, He2 in *.
    simpl in *.
    assert (day_of r2 = day_of r) as Hday'.
    { unfold day_of in *. by rewrite <- Hts, <- Hts2. }
    assert (timestamp_of r ∈ timestamp_of <$> group_of day_of (rows df) r)
      as Hin.
    { apply list_elem_of_fmap_2, group_of_self.
      by eapply list_elem_of_lookup_2. }
    assert (timestamp_of r2 ∈ timestamp_of <$> group_of day_of (rows df) r)
      as Hin2.
    { rewrite <- (group_of_same_key day_of _ r2 r Hday').
      apply list_elem_of_fmap_2, group_of_self.
      by eapply list_elem_of_lookup_2. }
    rewrite Hd, Hd2, (group_of_same_key day_of _ r2 r Hday').
    rewrite (foldr_min_same _ _ _ Hin2 Hin), (foldr_max_same _ _ _ Hin2 Hin).
    done.
Qed.

(** ** Facts about the numbering of lines 115-117 *)

Lemma elem_of_unique l x : x ∈ unique l <-> x ∈ l.
Proof.
  induction l as [|y l IH]; simpl; [done|].
  rewrite !elem_of_cons, list_elem_of_filter, IH.
  destruct (decide (x = y)); tauto.
Qed.

Lemma NoDup_unique l : NoDup (unique l).
Proof.
  induction l as [|y l IH]; simpl; constructor.
  - rewrite list_elem_of_filter. by intros [Hne _].
  - by apply NoDup_filter.
Qed.

Lemma StronglySorted_filter {A} (R : relation A) (P : A -> Prop)
    `{!forall x, Decision (P x)} l :
  StronglySorted R l -> StronglySorted R (filter P l).
Proof.
  induction 1 as [|x l Hl IH Hx]; [constructor|].
  rewrite filter_cons. destruct (decide (P x)); [|done].
  constructor; [done|].
  rewrite Forall_forall in Hx |- *.
  intros y [_ Hy]%list_elem_of_filter. by apply Hx.
Qed.

(** On dates that do not decrease along the rows, the order of first
    appearance is the order of the dates. *)
Lemma unique_sorted l :
  StronglySorted Z.le l -> StronglySorted Z.lt (unique l).
Proof.
  induction 1 as [|x l Hl IH Hx]; simpl; constructor.
  - by apply StronglySorted_filter.
  - rewrite Forall_forall in Hx |- *.
    intros y [Hne Hy]%list_elem_of_filter.
    apply (proj1 (elem_of_unique _ _)) in Hy.
    specialize (Hx y Hy). lia.
Qed.

Lemma StronglySorted_lookup {A} (R : relation A) l i j x y :
  StronglySorted R l -> (i < j)%nat ->
  l !! i = Some x -> l !! j = Some y -> R x y.
Proof.
  intros Hl. revert i j. induction Hl as [|z l Hl IH Hz]; intros i j Hij Hi Hj.
  - done.
  - destruct j as [|j]; [lia|]. simpl in Hj. destruct i as [|i]; simpl in Hi.
    + injection Hi as <-. rewrite Forall_forall in Hz. apply Hz.
      by eapply list_elem_of_lookup_2.
    + apply (IH i j); [lia|done..].
Qed.

Lemma enumerate_from_1_lookup l k d :
  NoDup l -> l !! k = Some d ->
  enumerate_from_1 l !! d = Some (Z.of_nat k + 1).
Proof.
  intros Hnd Hk. unfold enumerate_from_1.
  apply elem_of_list_to_map_1.
  - rewrite fmap_imap.
    rewrite (imap_ext _ (const id)) by done.
    by rewrite imap_const, list_fmap_id.
  - by apply (elem_of_lookup_imap_2 (fun i d => (d, Z.of_nat i + 1))).
Qed.

Global Instance not_later_total : Total not_later.
Proof. intros r1 r2. unfold not_later. lia. Qed.

Global Instance not_later_trans : Transitive not_later.
Proof. intros r1 r2 r3. unfold not_later. lia. Qed.


Lemma utc_date_mono u1 u2 : u1 <= u2 -> utc_date u1 <= utc_date u2.
Proof. intros H. unfold utc_date. by apply Z.div_le_mono. Qed.

Lemma sort_values_days_sorted df :
  StronglySorted Z.le (day_of <$> rows (sort_values df)).
Proof.
  apply StronglySorted_fmap with (R1 := not_later).
  - intros r1 r2 H. by apply utc_date_mono.
  - apply StronglySorted_merge_sort; apply _.
Qed.

(** ** Claim about the workout numbers *)


(** ** Facts about lines 120-151 *)

Lemma has_column_set_column_ne c c' f df :
  c <> c' -> has_column c (set_column c' f df) = has_column c df.
Proof.
  intros Hne. unfold has_column, set_column. simpl.
  destruct (has_column c' df); [done|].
  apply bool_decide_ext. rewrite elem_of_app, list_elem_of_singleton.
  clear norway_tz str_to_float float_to_str. tauto.
Qed.

Lemma cast_defined_Some x :
  cast_defined x = true -> exists s, num_astype_int x = Some s.
Proof.
  destruct x as [z|f]; simpl; [by eexists|].
  unfold int_of_float, truncate.
  destruct (Prim2SF f); try done; by eexists.
Qed.

Lemma Forall2_fmap_self {A B} (P : A -> B -> Prop) (g : A -> B) l :
  (forall x, x ∈ l -> P x (g x)) -> Forall2 P l (g <$> l).
Proof.
  intros H. apply Forall2_fmap_r, Forall_Forall2_diag, Forall_forall.
  intros x Hx. by apply H.
Qed.

(** ** Claim about the cardio columns *)

(** Lines 120-151 cell by cell, in the arithmetic of the columns. *)
Lemma process_cardio_cells (df : DataFrame) :
  durations_castable df ->
  exists df',
    process_cardio df = Done df'
    /\ Forall2 (fun r r' =>
         match positive_number (has_column "Duration" df)
                 (cell_of "Duration" r) with
         | Some minutes =>
             exists s, num_astype_int (num_mul minutes 60) = Some s
                       /\ cell_of "Seconds" r' = CInt s
         | None => cell_of "Seconds" r' = CInt 0
         end
         /\ cell_of "Distance (meters)" r'
            = match positive_number (has_column "Distance" df)
                      (cell_of "Distance" r) with
              | Some km => CFloat (num_astype_float (num_mul km 1000))
              | None => CFloat 0
              end)
       (rows df) (rows df').
Proof.
  intros Hcast. unfold durations_castable in Hcast. unfold process_cardio.
  set (df1 := set_column "Seconds" _ df).
  set (df2 := set_column "Distance (meters)" _ df1).
  assert (has_column "Duration" df2 = has_column "Duration" df) as HDur.
  { unfold df2, df1. by rewrite !has_column_set_column_ne. }
  assert (has_column "Distance" df2 = has_column "Distance" df) as HDis.
  { unfold df2, df1. by rewrite !has_column_set_column_ne. }
  set (secs := fun r : gmap string cell =>
         let x := fillna_num 0 (to_numeric (cell_of "Duration" r)) in
         CInt (if num_gt0 x then default 0 (num_astype_int (num_mul x 60))
               else 0)).
  assert (exists df3,
            (if has_column "Duration" df2
             then try_set_column "Seconds"
                    (fun r => seconds_of_duration (cell_of "Duration" r)) df2
             else Done df2) = Done df3
            /\ df3 = if has_column "Duration" df
                     then set_column "Seconds" secs df2 else df2)
    as (df3 & -> & Hdf3).
  { rewrite HDur. destruct (has_column "Duration" df) eqn:Hd; [|by eexists].
    eexists. split; [|done].
    rewrite <- try_set_column_pure. apply try_set_column_ext.
    intros r2 (r1 & -> & (r & -> & Hr)%list_elem_of_fmap)%list_elem_of_fmap.
    specialize (Hcast ltac:(done)). rewrite Forall_forall in Hcast.
    specialize (Hcast r Hr). unfold secs, seconds_of_duration. cell_simpl.
    destruct (cast_defined_Some _ Hcast) as [s ->]. done. }
  simpl. eexists. split; [done|].
  assert (has_column "Distance" df3 = has_column "Distance" df) as HDis3.
  { rewrite Hdf3. destruct (has_column "Duration" df); [|done].
    by rewrite has_column_set_column_ne. }
  rewrite HDis3.
  assert (rows df3
          = (fun r => let r2 := <["Distance (meters)" := CFloat 0]>
                                  (<["Seconds" := CInt 0]> r) in
                      if has_column "Duration" df
                      then <["Seconds" := secs r2]> r2 else r2) <$> rows df)
    as Hrows3.
  { rewrite Hdf3. destruct (has_column "Duration" df); simpl;
      by rewrite <- !list_fmap_compose. }
  assert (rows (if has_column "Distance" df
                then set_column "Distance (meters)"
                       (fun r => meters_of_distance (cell_of "Distance" r))
                       df3
                else df3)
          = (fun r3 => if has_column "Distance" df
                       then <["Distance (meters)" :=
                                meters_of_distance (cell_of "Distance" r3)]> r3
                       else r3) <$> rows df3) as ->.
  { destruct (has_column "Distance" df); simpl; [done|].
    by rewrite list_fmap_id. }
  rewrite Hrows3, <- list_fmap_compose.
  apply Forall2_fmap_self. intros r Hr. simpl.
  unfold positive_number, secs, meters_of_distance.
  destruct (has_column "Duration" df) eqn:Hd,
           (has_column "Distance" df) eqn:Hi; cell_simpl.
  - specialize (Hcast ltac:(done)). rewrite Forall_forall in Hcast.
    specialize (Hcast r Hr).
    split.
    + destruct (to_numeric (cell_of "Duration" r)) as [x|]; simpl in *.
      * destruct (num_gt0 x); [|done].
        destruct (cast_defined_Some _ Hcast) as [s Hs]. rewrite Hs.
        by exists s.
      * done.
    + destruct (to_numeric (cell_of "Distance" r)) as [x|]; simpl; [|done].
      by destruct (num_gt0 x).
  - specialize (Hcast ltac:(done)). rewrite Forall_forall in Hcast.
    specialize (Hcast r Hr).
    split; [|done].
    destruct (to_numeric (cell_of "Duration" r)) as [x|]; simpl in *.
    + destruct (num_gt0 x); [|done].
      destruct (cast_defined_Some _ Hcast) as [s Hs]. rewrite Hs.
      by exists s.
    + done.
  - split; [done|].
    destruct (to_numeric (cell_of "Distance" r)) as [x|]; simpl; [|done].
    by destruct (num_gt0 x).
  - done.
Qed.

Lemma wrap64_small z : int64_min <= z <= int64_max -> wrap64 z = z.
Proof.
  unfold wrap64, int64_min, int64_max. intros Hz.
  rewrite Z.mod_small by lia. lia.
Qed.

Lemma positive_number_gt0 present c x :
  positive_number present c = Some x -> num_gt0 x = true.
Proof.
  unfold positive_number. destruct present; [|done].
  destruct (to_numeric c) as [y|]; [|done].
  destruct (num_gt0 y) eqn:Hy; [|done]. by intros [= <-].
Qed.

(** C5: where no Duration cell makes the integer cast raise, lines 120-151
    go through, and for every row: a Duration that is present, numeric and
    greater than zero is taken as minutes and gives Seconds = minutes * 60
    as an integer (the int64 product of an integer duration, which is the
    product itself while it fits; the float product truncated toward zero
    of a float one), any other gives 0; a Distance that is present, numeric
    and greater than zero is taken as kilometres and gives Distance
    (meters) = km * 1000 as a float, any other gives 0.0.  In particular a
    duration of 5 gives 300 seconds and a distance of 2.5 gives 2500.0
    metres. *)
Theorem cardio_unit_conversion (df : DataFrame) :
  durations_castable df ->
  exists df',
    process_cardio df = Done df'
    /\ Forall2 (fun r r' =>
         match positive_number (has_column "Duration" df)
                 (cell_of "Duration" r) with
         | Some (NInt minutes) =>
             cell_of "Seconds" r' = CInt (wrap64 (minutes * 60))
             /\ (minutes * 60 <= int64_max ->
                 cell_of "Seconds" r' = CInt (minutes * 60))
         | Some (NFloat minutes) =>
             exists s, int_of_float (minutes * 60)%float = Some s
                       /\ cell_of "Seconds" r' = CInt s
         | None => cell_of "Seconds" r' = CInt 0
         end
         /\ cell_of "Distance (meters)" r'
            = match positive_number (has_column "Distance" df)
                      (cell_of "Distance" r) with
              | Some (NInt km) => CFloat (float_of_int (wrap64 (km * 1000)))
              | Some (NFloat km) => CFloat (km * 1000)%float
              | None => CFloat 0
              end
         /\ (has_column "Duration" df = true ->
             cell_of "Duration" r = CInt 5 \/ cell_of "Duration" r = CFloat 5 ->
             cell_of "Seconds" r' = CInt 300)
         /\ (has_column "Distance" df = true ->
             cell_of "Distance" r = CFloat 2.5 ->
             cell_of "Distance (meters)" r' = CFloat 2500))
       (rows df) (rows df').
Proof.
  intros Hcast.
  destruct (process_cardio_cells df Hcast) as (df' & Hdf' & Hrows).
  exists df'. split; [done|].
  eapply Forall2_impl; [exact Hrows|]. clear Hrows.
  intros r r' [Hsec Hdist].
  assert (float_of_int 60 = 60%float) as H60 by (vm_compute; reflexivity).
  assert (float_of_int 1000 = 1000%float) as H1000
    by (vm_compute; reflexivity).
  split_and!.
  - destruct (positive_number _ (cell_of "Duration" r)) as [[z|f]|] eqn:Hp.
    + destruct Hsec as (s & Hs & Hcell).
      cbn [num_astype_int num_mul] in Hs. injection Hs as <-.
      split; [done|]. intros Hle. rewrite Hcell. f_equal.
      apply positive_number_gt0 in Hp. cbn [num_gt0] in Hp.
      apply Z.ltb_lt in Hp. apply wrap64_small.
      unfold int64_min. split; [lia|done].
    + destruct Hsec as (s & Hs & Hcell).
      cbn [num_astype_int num_mul] in Hs. rewrite H60 in Hs. eauto.
    + done.
  - rewrite Hdist.
    destruct (positive_number _ (cell_of "Distance" r)) as [[z|f]|];
      cbn [num_astype_float num_mul]; [done|by rewrite H1000|done].
  - intros Hcol Hcell. rewrite Hcol in Hsec.
    assert (forall c, c = CInt 5 \/ c = CFloat 5 ->
              exists x, positive_number true c = Some x
                        /\ num_astype_int (num_mul x 60) = Some 300)
      as Hfive.
    { intros c [-> | ->].
      - exists (NInt 5). split; vm_compute; reflexivity.
      - exists (NFloat 5). split; vm_compute; reflexivity. }
    destruct (Hfive _ Hcell) as (x & Hx & H300). rewrite Hx in Hsec.
    destruct Hsec as (s & Hs & ->). congruence.
  - intros Hcol Hcell. rewrite Hdist, Hcol, Hcell.
    assert (positive_number true (CFloat 2.5) = Some (NFloat 2.5)) as ->
      by (vm_compute; reflexivity).
    vm_compute. reflexivity.
Qed.

(** ** Facts about lines 170-207 *)

Lemma has_column_columns c df df' :
  columns df' = columns df -> has_column c df' = has_column c df.
Proof. unfold has_column. by intros ->. Qed.

Lemma try_set_column_total c f df :
  (forall r, r ∈ rows df -> exists v, f r = Done v) ->
  exists df', try_set_column c f df = Done df'.
Proof.
  intros Hall. unfold try_set_column.
  destruct (try_map_total (fun r => let* v := f r in Done (<[c := v]> r))
              (rows df)) as [rs ->]; [|by eexists].
  intros r Hr. destruct (Hall r Hr) as [v ->]. by eexists.
Qed.

Lemma fill_column_Done col d df df' :
  fill_column col d df = Done df' ->
  columns df' = columns df
  /\ Forall2 (fun r r' =>
                if has_column col df
                then exists v, fill_cell col d (cell_of col r) = Done v
                               /\ r' = <[col := v]> r
                else r' = r) (rows df) (rows df').
Proof.
  unfold fill_column. destruct (has_column col df) eqn:Hc.
  - intros [Hcols Hrows]%try_set_column_Done. by rewrite Hc in Hcols.
  - intros [= <-]. split; [done|]. by apply Forall_Forall2_diag, Forall_true.
Qed.

Lemma fill_all_spec defaults df df' :
  NoDup defaults.*1 -> fill_all defaults df = Done df' ->
  columns df' = columns df
  /\ Forall2 (fun r r' =>
                (forall col d, (col, d) ∈ defaults ->
                   has_column col df = true ->
                   fill_cell col d (cell_of col r) = Done (cell_of col r'))
                /\ (forall c, c ∉ defaults.*1 -> r' !! c = r !! c))
       (rows df) (rows df').
Proof.
  revert df. induction defaults as [|[c0 d0] rest IH]; intros df Hnd; simpl.
  - intros [= <-]. split; [done|].
    apply Forall_Forall2_diag, Forall_true. intros r. split; [|done].
    intros col d Hin. by inversion Hin.
  - apply NoDup_cons in Hnd as [Hc0 Hnd].
    destruct (fill_column c0 d0 df) as [df1|] eqn:H1; simpl; [|done].
    intros H2. apply fill_column_Done in H1 as [Hcols1 Hrows1].
    destruct (IH df1 Hnd H2) as [Hcols2 Hrows2].
    split; [congruence|].
    eapply Forall2_trans; [|exact Hrows1|exact Hrows2].
    intros r r1 r' Hr1 [Hfill Hsame]. simpl in *. split.
    + intros col d [[= -> ->]|Hin]%elem_of_cons Hhas.
      * rewrite Hhas in Hr1. destruct Hr1 as (v & Hv & ->).
        unfold cell_of at 2. rewrite (Hsame c0 Hc0), lookup_insert_eq.
        done.
      * assert (col <> c0) as Hne.
        { intros ->. apply Hc0, list_elem_of_fmap. by exists (c0, d). }
        rewrite <- (Hfill col d Hin).
        2: { by rewrite (has_column_columns _ _ _ Hcols1). }
        f_equal. destruct (has_column c0 df).
        -- destruct Hr1 as (v & _ & ->). by rewrite cell_of_insert_ne.
        -- by subst.
    + intros c Hc. apply not_elem_of_cons in Hc as [Hne Hc].
      rewrite (Hsame c Hc). destruct (has_column c0 df).
      * destruct Hr1 as (v & _ & ->). by rewrite lookup_insert_ne.
      * by subst.
Qed.

Lemma fill_all_total defaults df :
  NoDup defaults.*1 ->
  (forall col d, (col, d) ∈ defaults -> has_column col df = true ->
     forall r, r ∈ rows df ->
       exists v, fill_cell col d (cell_of col r) = Done v) ->
  exists df', fill_all defaults df = Done df'.
Proof.
  revert df. induction defaults as [|[c0 d0] rest IH]; intros df Hnd Hall;
    simpl; [by eexists|].
  apply NoDup_cons in Hnd as [Hc0 Hnd].
  assert (exists df1, fill_column c0 d0 df = Done df1) as [df1 H1].
  { unfold fill_column. destruct (has_column c0 df) eqn:Hc; [|by eexists].
    apply try_set_column_total. intros r Hr.
    apply (Hall c0 d0); [by left|done..]. }
  rewrite H1. simpl. apply IH; [done|].
  apply fill_column_Done in H1 as [Hcols1 Hrows1].
  intros col d Hin Hhas r1 [i Hi]%list_elem_of_lookup_1.
  destruct (Forall2_lookup_r _ _ _ _ _ Hrows1 Hi) as (r & Hr & Hr1).
  assert (col <> c0) as Hne.
  { intros ->. apply Hc0, list_elem_of_fmap. by exists (c0, d). }
  assert (cell_of col r1 = cell_of col r) as ->.
  { destruct (has_column c0 df).
    - destruct Hr1 as (v & _ & ->). by rewrite cell_of_insert_ne.
    - by subst. }
  apply (Hall col d); [by right| |by eapply list_elem_of_lookup_2].
  by rewrite <- (has_column_columns _ _ _ Hcols1).
Qed.

Lemma fill_defaults_NoDup : NoDup fill_defaults.*1.
Proof. apply (bool_decide_unpack (NoDup fill_defaults.*1)). by vm_compute. Qed.

(** The values the loop writes for a cell that needs the default are the
    defaults of the dictionary, in the type of the column. *)
Ltac eval_bool_decide :=
  repeat match goal with
         | |- context [bool_decide ?P] =>
             let b := eval vm_compute in (bool_decide P) in
             change (bool_decide P) with b
         end;
  cbv iota.


Lemma has_column_set_column c f df : has_column c (set_column c f df) = true.
Proof.
  unfold has_column at 1. unfold set_column. simpl.
  apply bool_decide_eq_true.
  destruct (has_column c df) eqn:Hc.
  - unfold has_column in Hc. by apply bool_decide_eq_true in Hc.
  - apply elem_of_app. right. by apply list_elem_of_singleton.
Qed.

(** Lines 170-181: the columns of the header that the table lacks are
    added with their initial value, the others are left as they are. *)
Lemma add_missing_columns_spec hs df :
  exists G : gmap string cell -> gmap string cell,
    rows (add_missing_columns hs df) = G <$> rows df
    /\ (forall c, has_column c (add_missing_columns hs df)
                  = has_column c df || bool_decide (c ∈ hs))
    /\ (forall c r, has_column c df = true -> G r !! c = r !! c)
    /\ (forall c r, has_column c df = false -> c ∈ hs ->
          G r !! c = Some (default_for_missing c)).
Proof.
  unfold add_missing_columns. revert df.
  induction hs as [|h hs IH]; intros df; simpl.
  - exists id. split_and!.
    + by rewrite list_fmap_id.
    + intros c. by rewrite orb_false_r.
    + done.
    + intros c r _ Hc. by inversion Hc.
  - set (df0 := if has_column h df then df
                else set_column h (fun _ => default_for_missing h) df).
    destruct (IH df0) as (G' & Hrows & Hcols & Hkeep & Hadd).
    set (g := fun r : gmap string cell =>
                if has_column h df then r
                else <[h := default_for_missing h]> r).
    assert (rows df0 = g <$> rows df) as Hrows0.
    { unfold df0, g. destruct (has_column h df); simpl; [|done].
      by rewrite list_fmap_id. }
    assert (forall c, has_column c df0
                      = has_column c df || bool_decide (c = h)) as Hcols0.
    { intros c. unfold df0. destruct (has_column h df) eqn:Hh.
      - destruct (decide (c = h)) as [->|Hne].
        + by rewrite Hh.
        + by rewrite (bool_decide_eq_false_2 _ Hne), orb_false_r.
      - destruct (decide (c = h)) as [->|Hne].
        + by rewrite has_column_set_column, Hh, bool_decide_eq_true_2.
        + rewrite has_column_set_column_ne by done.
          by rewrite (bool_decide_eq_false_2 _ Hne), orb_false_r. }
    exists (G' ∘ g). split_and!.
    + by rewrite Hrows, Hrows0, <- list_fmap_compose.
    + intros c. rewrite Hcols, Hcols0, <- orb_assoc. f_equal.
      destruct (decide (c = h)) as [->|Hne].
      * rewrite (bool_decide_eq_true_2 (h = h)) by done. simpl.
        symmetry. apply bool_decide_eq_true_2. by left.
      * rewrite (bool_decide_eq_false_2 _ Hne). simpl.
        apply bool_decide_ext. rewrite elem_of_cons.
        clear norway_tz str_to_float float_to_str. tauto.
    + intros c r Hc. simpl. rewrite Hkeep.
      * unfold g. destruct (has_column h df) eqn:Hh; [done|].
        rewrite lookup_insert_ne; [done|]. intros ->. congruence.
      * by rewrite Hcols0, Hc.
    + intros c r Hc Hin. simpl.
      destruct (decide (c = h)) as [->|Hne].
      * rewrite Hkeep.
        -- unfold g. by rewrite Hc, lookup_insert_eq.
        -- rewrite Hcols0, bool_decide_eq_true_2 by done. apply orb_true_r.
      * apply Hadd.
        -- by rewrite Hcols0, Hc, (bool_decide_eq_false_2 _ Hne).
        -- apply elem_of_cons in Hin as [?|?]; done.
Qed.


(** ** Claim about the defaulting pass *)


(** ** Claim about the final selection *)

Lemma obind_Done {A B} (m : outcome A) (k : A -> outcome B) b :
  obind m k = Done b -> exists a, m = Done a /\ k a = Done b.
Proof. destruct m as [a|]; simpl; [|done]. intros H. by exists a. Qed.

Lemma missing_from_nil hs df :
  missing_from hs df = [] <-> forall c, c ∈ hs -> has_column c df = true.
Proof.
  unfold missing_from, has_column. split.
  - intros Hnil c Hc. apply bool_decide_eq_true.
    destruct (decide (c ∈ columns df)) as [|Hn]; [done|].
    assert (c ∈ filter (fun c => c ∉ columns df) hs) as Hin
      by by apply list_elem_of_filter.
    rewrite Hnil in Hin. by inversion Hin.
  - intros Hall. induction hs as [|h hs IH]; [done|].
    rewrite filter_cons.
    destruct (decide (h ∉ columns df)) as [Hn|_].
    + destruct Hn. eapply bool_decide_eq_true_1, Hall. by left.
    + apply IH. intros c Hc. apply Hall. by right.
Qed.

(** C10: lines 221-233 stop the run with the list of the missing columns
    when a column of the target header is absent from the processed table,
    and otherwise select the columns of the header in its order; whenever
    the converter returns a table, its columns are exactly the header. *)
Theorem output_columns_are_target_headers (strong_headers : list string) :
  (forall df, missing_from strong_headers df <> [] ->
     select_final strong_headers df
     = Failed (MissingStrongColumns (missing_from strong_headers df)))
  /\ (forall df, missing_from strong_headers df = [] ->
        exists out, select_final strong_headers df = Done out
                    /\ columns out = strong_headers)
  /\ (forall gymrun_df initial_mapping out,
        convert_gymrun_to_strong gymrun_df strong_headers initial_mapping
        = Done out ->
        columns out = strong_headers).
Proof.
  split_and!.
  - intros df Hne. unfold select_final.
    by destruct (missing_from strong_headers df).
  - intros df Hnil. unfold select_final. rewrite Hnil. by eexists.
  - intros gymrun_df initial_mapping out. unfold convert_gymrun_to_strong.
    intros (_ & _ & H)%obind_Done.
    apply obind_Done in H as (df1 & _ & H).
    apply obind_Done in H as (df2 & _ & H).
    apply obind_Done in H as (df3 & _ & H).
    apply obind_Done in H as (df4 & _ & H).
    unfold select_final in H.
    destruct (missing_from strong_headers df4); [|done].
    by injection H as <-.
Qed.

(** ** Claims about the exercise names *)

Lemma foldl_insert_lookup (l : list (pyobj * pyobj)) (acc : gmap string string)
    (s : string) :
  foldl (fun m kv => <[py_str kv.1 := py_str kv.2]> m) acc l !! s
  = match last (filter (fun kv => py_str kv.1 = s) l) with
    | Some kv => Some (py_str kv.2)
    | None => acc !! s
    end.
Proof.
  revert acc. induction l as [|kv l IH]; intros acc; simpl; [done|].
  rewrite IH, filter_cons.
  destruct (decide (py_str kv.1 = s)) as [Heq|Hne].
  - rewrite last_cons.
    destruct (last (filter _ l)); [done|].
    by rewrite <- Heq, lookup_insert_eq.
  - destruct (last (filter _ l)); [done|].
    by rewrite lookup_insert_ne.
Qed.

(** [valid_mappings] sends a name to the text of the value of its deciding
    entry. *)
Lemma valid_mappings_lookup mapping_dict s :
  valid_mappings mapping_dict !! s
  = (fun kv => py_str kv.2) <$> deciding_entry mapping_dict s.
Proof.
  unfold valid_mappings, deciding_entry.
  rewrite foldl_insert_lookup, list_filter_filter.
  rewrite (list_filter_iff _
             (fun kv => py_notna kv.1 = true /\ py_str kv.1 = s)) by (clear norway_tz str_to_float float_to_str; tauto).
  by destruct (last _).
Qed.

Lemma valid_mappings_notna mapping_dict :
  valid_mappings (filter (fun kv => py_notna kv.1 = true) mapping_dict)
  = valid_mappings mapping_dict.
Proof.
  unfold valid_mappings. f_equal. rewrite list_filter_filter.
  apply list_filter_iff. tauto.
Qed.

(** C7, as the code has it: every value of the exercise column is read as
    text and replaced by the text of the value of the entry that decides
    it, the last entry whose key is not missing and reads as that text; a
    name that no such key reads as passes through unchanged; the other
    columns are not touched; and the entries whose key is missing (None or
    NaN) play no part.  Keys that are not text are read as text with [str],
    not ignored. *)
Theorem exercise_names_are_substituted (df : DataFrame)
    (mapping_dict : list (pyobj * pyobj)) (exercise_col : string)
    (i : nat) (r' : gmap string cell) :
  has_column exercise_col df = true ->
  rows (apply_exercise_mappings df mapping_dict exercise_col) !! i = Some r' ->
  (exists r,
     rows df !! i = Some r
     /\ cell_of exercise_col r'
        = CStr (match deciding_entry mapping_dict
                        (astype_str (cell_of exercise_col r)) with
                | Some kv => py_str kv.2
                | None => astype_str (cell_of exercise_col r)
                end)
     /\ forall c, c <> exercise_col -> r' !! c = r !! c)
  /\ apply_exercise_mappings df mapping_dict exercise_col
     = apply_exercise_mappings df
         (filter (fun kv => py_notna kv.1 = true) mapping_dict) exercise_col.
Proof.
  intros Hhas. unfold apply_exercise_mappings. rewrite Hhas.
  intros (r & Hr & ->)%set_column_lookup. split.
  - exists r. split_and!; [done| |].
    + rewrite cell_of_insert. unfold replace.
      rewrite valid_mappings_lookup.
      by destruct (deciding_entry _ _).
    + intros c Hc. by rewrite lookup_insert_ne.
  - by rewrite valid_mappings_notna.
Qed.

(** ** Claim about the extractor *)

Lemma distinct_text (l : list string) :
  exists l', distinct (CStr <$> l) = CStr <$> l'
             /\ NoDup l' /\ forall x, x ∈ l' <-> x ∈ l.
Proof.
  induction l as [|x l (l' & Hl' & Hnd & Hel)]; csimpl.
  - exists []. split_and!; [done|constructor|done].
  - exists (x :: filter (fun y => y <> x) l'). split_and!.
    + rewrite Hl'. csimpl. f_equal.
      apply (filter_fmap_comm CStr (fun y => y <> x)
               (fun d => cell_eqb d (CStr x) = false)).
      intros y. simpl. rewrite bool_decide_eq_false. done.
    + constructor; [|by apply NoDup_filter].
      rewrite list_elem_of_filter. by intros [Hne _].
    + intros y. rewrite !elem_of_cons, list_elem_of_filter, Hel.
      clear norway_tz str_to_float float_to_str.
      destruct (decide (y = x)); tauto.
Qed.

Lemma text_cells_names (cs : list cell) :
  Forall (fun c => text_cell c = true) cs ->
  filter (fun c => isna c = false) cs = CStr <$> base.omap cell_text cs.
Proof.
  induction 1 as [|c cs Hc _ IH]; [done|].
  rewrite filter_cons. destruct c; try done; csimpl.
  all: by rewrite ?IH.
Qed.

(** On a text column [nunique] is the number of distinct names. *)
Lemma nunique_text (cs : list cell) :
  Forall (fun c => text_cell c = true) cs ->
  nunique cs = size (list_to_set (base.omap cell_text cs) : gset string).
Proof.
  intros Htext. unfold nunique. rewrite (text_cells_names _ Htext).
  destruct (distinct_text (base.omap cell_text cs)) as (l' & -> & Hnd & Hel).
  rewrite length_fmap, <- (size_list_to_set (C := gset string) l' Hnd).
  f_equal. apply set_eq. intros x. by rewrite !elem_of_list_to_set, Hel.
Qed.

(** C8: the extractor keeps exactly the rows whose exercise name, read as
    text, is no key of the dictionary, each as it is and in the order of
    the table, under the columns of the table; with a row left it reports
    the number of distinct names of the kept rows, with none left it
    reports that there is none. *)
Theorem unmapped_rows_and_count (gymrun_df : DataFrame)
    (mapping_dict : list (pyobj * pyobj)) (exercise_col : string) :
  has_column exercise_col gymrun_df = true ->
  exists unmapped_df count,
    extract_unmapped_exercises gymrun_df mapping_dict exercise_col
    = Done (unmapped_df, count)
    /\ columns unmapped_df = columns gymrun_df
    /\ rows unmapped_df
       = filter (fun r => PyStr (astype_str (cell_of exercise_col r))
                          ∉ mapping_dict.*1) (rows gymrun_df)
    /\ (rows unmapped_df = [] -> count = None)
    /\ (rows unmapped_df <> [] ->
        Forall (fun r => text_cell (cell_of exercise_col r) = true)
               (rows unmapped_df) ->
        count = Some (size (list_to_set
                              (base.omap cell_text
                                 (cell_of exercise_col <$> rows unmapped_df))
                            : gset string))).
Proof.
  intros Hhas. unfold extract_unmapped_exercises. rewrite Hhas.
  eexists _, _. split; [done|]. simpl. split_and!.
  - done.
  - apply list_filter_iff. intros r. unfold isin.
    by rewrite bool_decide_eq_false.
  - by intros ->.
  - intros Hne Htext.
    destruct (filter _ (rows gymrun_df)) as [|r0 rs] eqn:Hrows; [done|].
    f_equal. apply nunique_text.
    apply Forall_fmap. eapply Forall_impl; [exact Htext|]. done.
Qed.

(** ** The table left without rows *)

(** When no row parses, lines 86-91 run on a table without rows and the
    run ends in the handler of line 101. *)
Lemma no_parseable_row_aborts (df : DataFrame) :
  date_time_text df = true -> rows (keep_parsed df) = [] ->
  parse_timestamps df = Failed DateTimeProcessingError.
Proof.
  intros Htext Hnil. unfold parse_timestamps.
  rewrite (parse_naive_text df Htext). simpl in *. by rewrite Hnil.
Qed.

(** Regular local times, checked row by row on the table. *)
Lemma all_regular_check (df : DataFrame) :
  forallb (fun r => match parsed r with
                    | Some dt => regularb norway_tz dt
                    | None => true
                    end) (rows df) = true ->
  Forall (fun r => forall dt, parsed r = Some dt -> regular norway_tz dt)
         (rows df).
Proof.
  rewrite forallb_forall, Forall_forall. intros H r Hr dt Hdt.
  apply list_elem_of_In, H in Hr. rewrite Hdt in Hr.
  by apply regularb_sound.
Qed.

(** ** How the run can fail *)

Lemma try_set_column_Failed c f df e :
  try_set_column c f df = Failed e -> exists r, r ∈ rows df /\ f r = Failed e.
Proof.
  unfold try_set_column.
  destruct (try_map _ _) as [rs|e'] eqn:Hm; simpl; [done|].
  intros [= ->]. apply try_map_Failed in Hm as (i & x & Hi & Hx & _).
  exists x. split; [by eapply list_elem_of_lookup_2|].
  destruct (f x); simpl in Hx; congruence.
Qed.

Lemma check_columns_spec df :
  check_columns df
  = match missing_from essential_cols df with
    | [] => Done tt
    | missing_essential => Failed (MissingEssentialColumns missing_essential)
    end.
Proof.
  unfold check_columns.
  destruct (missing_from required_gymrun_cols df) eqn:Hreq; [|done].
  destruct (missing_from essential_cols df) as [|c l] eqn:Hess; [done|].
  exfalso.
  assert (c ∈ missing_from essential_cols df) as Hc by (rewrite Hess; left).
  apply list_elem_of_filter in Hc as [Hn He].
  assert (c ∈ missing_from required_gymrun_cols df) as Hr.
  { apply list_elem_of_filter. split; [done|].
    unfold essential_cols in He. unfold required_gymrun_cols.
    repeat (apply elem_of_cons in He as [->|He];
            [repeat (first [by left | right])|]).
    by apply elem_of_nil in He. }
  rewrite Hreq in Hr. by apply elem_of_nil in Hr.
Qed.

Lemma localize_cell_Failed c e :
  localize_cell c = Failed e ->
  e = DateTimeProcessingError
  \/ exists dt, c = CNaive dt
       /\ (e = AmbiguousTimeError dt /\ localize norway_tz dt = AmbiguousTime
           \/ e = NonExistentTimeError dt
              /\ localize norway_tz dt = NonExistentTime).
Proof.
  destruct c; simpl; try (intros [= <-]; by left).
  destruct (localize norway_tz t) eqn:Hl; intros [= <-]; eauto 10.
Qed.

Lemma parse_timestamps_Failed df e :
  parse_timestamps df = Failed e ->
  e = DateTimeProcessingError
  \/ exists r dt, r ∈ rows df /\ parsed r = Some dt
       /\ (e = AmbiguousTimeError dt /\ localize norway_tz dt = AmbiguousTime
           \/ e = NonExistentTimeError dt
              /\ localize norway_tz dt = NonExistentTime).
Proof.
  unfold parse_timestamps, parse_naive.
  destruct (try_set_column "NaiveTimestamp" _ _) as [df0|e0] eqn:H0; simpl.
  - apply try_set_column_Done in H0 as [_ H0].
    unfold localize_to_utc.
    destruct (try_set_column "LocalizedTimestamp" _ _) as [df2|e2] eqn:H2;
      simpl.
    { destruct (rows df2); [intros [= <-]; by left | done]. }
    intros [= ->]. apply try_set_column_Failed in H2 as (r1 & Hr1 & Hf).
    apply localize_cell_Failed in Hf as [->|(dt & Hc & He)]; [by left|].
    right. simpl in Hr1. apply list_elem_of_filter in Hr1 as [_ Hr1].
    apply list_elem_of_lookup_1 in Hr1 as [i Hi].
    destruct (Forall2_lookup_r _ _ _ _ _ H0 Hi) as (r & Hr & v & Hv & ->).
    rewrite cell_of_insert in Hc. subst v.
    exists r, dt. split; [by eapply list_elem_of_lookup_2|].
    split; [|done]. unfold parsed. by rewrite Hv.
  - intros [= ->]. apply try_set_column_Failed in H0 as (r & _ & Hf).
    destruct (naive_timestamp_cases r) as [[H _]|[[H _]|(dt & H & _)]];
      rewrite H in Hf; try done. left. congruence.
Qed.

Lemma process_cardio_Failed df e : process_cardio df = Failed e -> e = Uncaught.
Proof.
  unfold process_cardio.
  destruct (has_column "Duration" _); simpl; [|by destruct (has_column _ _)].
  destruct (try_set_column "Seconds" _ _) as [df3|e3] eqn:H3; simpl; [done|].
  intros [= ->]. apply try_set_column_Failed in H3 as (r & _ & Hf).
  unfold seconds_of_duration in Hf.
  destruct (num_astype_int _); congruence.
Qed.

Lemma fill_cell_Failed col d c e : fill_cell col d c = Failed e -> e = Uncaught.
Proof.
  unfold fill_cell. repeat case_bool_decide; try done.
  destruct (num_astype_int _); congruence.
Qed.

Lemma fill_all_Failed defaults df e :
  fill_all defaults df = Failed e -> e = Uncaught.
Proof.
  revert df. induction defaults as [|[col d] l IH]; intros df; simpl; [done|].
  destruct (fill_column col d df) as [df'|e'] eqn:Hf; simpl; [apply IH|].
  intros [= ->]. unfold fill_column in Hf.
  destruct (has_column col df); [|done].
  apply try_set_column_Failed in Hf as (r & _ & Hf).
  by apply fill_cell_Failed in Hf.
Qed.

Lemma cast_column_Done cast col df df' :
  cast_column cast col df = Done df' ->
  has_column col df = true /\ columns df' = columns df
  /\ Forall2 (fun r r' => exists v, cast (cell_of col r) = Done v
                                    /\ r' = <[col := v]> r)
       (rows df) (rows df').
Proof.
  unfold cast_column. destruct (has_column col df) eqn:Hc; [|done].
  intros H. apply try_set_column_Done in H as [H1 H2]. by rewrite Hc in H1.
Qed.

Lemma cast_column_Failed cast col df e :
  (forall c e', cast c = Failed e' -> e' = Uncaught) ->
  cast_column cast col df = Failed e -> e = Uncaught.
Proof.
  intros Hcast. unfold cast_column.
  destruct (has_column col df); [|congruence].
  intros (r & _ & Hf)%try_set_column_Failed. by eapply Hcast.
Qed.

Lemma cell_astype_int_Failed c e : cell_astype_int c = Failed e -> e = Uncaught.
Proof.
  destruct c; simpl; try congruence. destruct (int_of_float f); congruence.
Qed.

Lemma cell_astype_float_Failed c e :
  cell_astype_float c = Failed e -> e = Uncaught.
Proof. destruct c; simpl; congruence. Qed.

Lemma final_types_Failed df e : final_types df = Failed e -> e = Uncaught.
Proof.
  unfold final_types.
  repeat match goal with
         | |- obind (cast_column ?f ?c ?d) _ = _ -> _ =>
             let H := fresh "H" in
             destruct (cast_column f c d) eqn:H; simpl;
             [|intros [= <-];
               first [by eapply cast_column_Failed, H;
                        apply cell_astype_int_Failed
                     |by eapply cast_column_Failed, H;
                        apply cell_astype_float_Failed]]
         end.
  intros H5. eapply cast_column_Failed, H5. apply cell_astype_int_Failed.
Qed.

(** ** What the steps keep *)

Lemma keeps_rows_refl P rs : Forall2 (keeps P) rs rs.
Proof. apply Forall_Forall2_diag, Forall_forall. by intros r _ c _. Qed.

Lemma keeps_rows_trans P rs1 rs2 rs3 :
  Forall2 (keeps P) rs1 rs2 -> Forall2 (keeps P) rs2 rs3 ->
  Forall2 (keeps P) rs1 rs3.
Proof.
  intros H1 H2. eapply Forall2_trans; [|exact H1|exact H2].
  intros r1 r2 r3 H12 H23 c Hc. by rewrite H23, H12.
Qed.

Lemma keeps_set_column (P : string -> Prop) c f df :
  ~ P c -> Forall2 (keeps P) (rows df) (rows (set_column c f df)).
Proof.
  intros Hc. simpl. apply Forall2_fmap_self. intros r _ c' Hc'.
  apply lookup_insert_ne. by intros ->.
Qed.

Lemma keeps_try_set_column (P : string -> Prop) c f df df' :
  ~ P c -> try_set_column c f df = Done df' ->
  Forall2 (keeps P) (rows df) (rows df').
Proof.
  intros Hc [_ H]%try_set_column_Done. eapply Forall2_impl; [exact H|].
  intros r r' (v & _ & ->) c' Hc'. apply lookup_insert_ne. by intros ->.
Qed.

Lemma final_types_Done df df' :
  final_types df = Done df' ->
  columns df' = columns df
  /\ Forall2 (keeps (fun c => c ∉ ["Set Order"; "Reps"; "Seconds";
                                      "Weight (kg)"; "Distance (meters)";
                                      "Duration (sec)"]))
       (rows df) (rows df').
Proof.
  unfold final_types. intros H.
  repeat (let d := fresh "d" in
          let Hd := fresh "Hd" in
          apply obind_Done in H as (d & Hd & H);
          apply cast_column_Done in Hd as (_ & ? & ?); cbv beta in H).
  apply cast_column_Done in H as (_ & ? & ?).
  split; [congruence|].
  repeat (eapply keeps_rows_trans;
          [eapply Forall2_impl; [eassumption|];
           intros r r' (v & _ & ->) c' Hc'; apply lookup_insert_ne;
           intros <-; apply Hc'; repeat (first [by left | right])|]).
  apply keeps_rows_refl.
Qed.

Lemma has_column_set_column_mono c c' f df :
  has_column c df = true -> has_column c (set_column c' f df) = true.
Proof.
  intros H. destruct (decide (c = c')) as [->|Hne].
  - apply has_column_set_column.
  - by rewrite has_column_set_column_ne.
Qed.

Lemma has_column_try_set_column_mono c c' f df df' :
  try_set_column c' f df = Done df' ->
  has_column c df = true -> has_column c df' = true.
Proof.
  intros [Hc _]%try_set_column_Done H%bool_decide_eq_true_1.
  apply bool_decide_eq_true_2. rewrite Hc.
  destruct (has_column c' df); [done|]. apply elem_of_app. by left.
Qed.

Lemma process_cardio_keeps (P : string -> Prop) df df' :
  ~ P "Seconds" -> ~ P "Distance (meters)" ->
  process_cardio df = Done df' ->
  Forall2 (keeps P) (rows df) (rows df')
  /\ forall c, has_column c df = true -> has_column c df' = true.
Proof.
  intros Hs Hd. unfold process_cardio.
  set (df1 := set_column "Seconds" _ df).
  set (df2 := set_column "Distance (meters)" _ df1).
  intros (df3 & H3 & [= <-])%obind_Done.
  assert (Forall2 (keeps P) (rows df) (rows df2)
          /\ forall c, has_column c df = true -> has_column c df2 = true)
    as [K2 C2].
  { split.
    - eapply keeps_rows_trans; by apply keeps_set_column.
    - intros c Hc. by do 2 apply has_column_set_column_mono. }
  assert (Forall2 (keeps P) (rows df2) (rows df3)
          /\ forall c, has_column c df2 = true -> has_column c df3 = true)
    as [K3 C3].
  { destruct (has_column "Duration" df2).
    - split; [eapply keeps_try_set_column; [exact Hs|exact H3]|].
      intros c. by eapply has_column_try_set_column_mono.
    - injection H3 as <-. split; [apply keeps_rows_refl|done]. }
  destruct (has_column "Distance" df3).
  - split.
    + eapply keeps_rows_trans; [|by apply keeps_set_column].
      by eapply keeps_rows_trans.
    + intros c Hc. by apply has_column_set_column_mono, C3, C2.
  - split; [by eapply keeps_rows_trans|]. intros c Hc. by apply C3, C2.
Qed.

Lemma rename_label_other m c : c ∉ m.*1 -> rename_label m c = c.
Proof.
  intros Hc. unfold rename_label.
  destruct (list_find _ m) as [[i kv]|] eqn:Hf; [|done].
  apply list_find_Some in Hf as (Hi & Hkv & _). exfalso. apply Hc.
  rewrite <- Hkv. apply list_elem_of_fmap_2. by eapply list_elem_of_lookup_2.
Qed.

Lemma rename_row_other m (r : gmap string cell) c :
  c ∉ m.*1 -> c ∉ m.*2 -> rename_row m r !! c = r !! c.
Proof.
  unfold rename_row. induction m as [|kv m IH]; simpl; [done|].
  intros H1 H2. apply not_elem_of_cons in H1 as [H1 H1'].
  apply not_elem_of_cons in H2 as [H2 H2'].
  destruct (r !! kv.1); [|by apply IH].
  rewrite lookup_insert_ne, lookup_delete_ne by done. by apply IH.
Qed.

Lemma rename_columns_keeps (P : string -> Prop) m df :
  (forall c, P c -> c ∉ m.*1) -> (forall c, P c -> c ∉ m.*2) ->
  Forall2 (keeps P) (rows df) (rows (rename_columns m df))
  /\ forall c, c ∉ m.*1 -> has_column c df = true ->
       has_column c (rename_columns m df) = true.
Proof.
  intros HP1 HP2. split.
  - simpl. apply Forall2_fmap_self. intros r _ c Hc.
    apply rename_row_other; auto.
  - intros c Hc H%bool_decide_eq_true_1. apply bool_decide_eq_true_2. simpl.
    rewrite <- (rename_label_other m c Hc). by apply list_elem_of_fmap_2.
Qed.

Lemma apply_exercise_mappings_keeps (P : string -> Prop) df m col :
  ~ P col ->
  Forall2 (keeps P) (rows df) (rows (apply_exercise_mappings df m col))
  /\ forall c, has_column c (apply_exercise_mappings df m col)
               = has_column c df.
Proof.
  intros Hc. unfold apply_exercise_mappings.
  destruct (has_column col df) eqn:Hcol.
  - split; [by apply keeps_set_column|]. intros c.
    destruct (decide (c = col)) as [->|Hne].
    + by rewrite has_column_set_column.
    + by rewrite has_column_set_column_ne.
  - split; [apply keeps_rows_refl|done].
Qed.

Lemma select_final_Done hs df out :
  select_final hs df = Done out ->
  columns out = hs
  /\ (forall c, c ∈ hs -> has_column c df = true)
  /\ rows out = (fun r => filter (fun kv => kv.1 ∈ hs) r) <$> rows df.
Proof.
  unfold select_final. destruct (missing_from hs df) eqn:Hm; [|done].
  intros [= <-]. split_and!; [done| |done]. by apply missing_from_nil.
Qed.

Lemma select_row_lookup (hs : list string) (r : gmap string cell) c :
  filter (fun kv : string * cell => kv.1 ∈ hs) r !! c
  = if bool_decide (c ∈ hs) then r !! c else None.
Proof.
  rewrite map_lookup_filter. destruct (r !! c) as [v|]; simpl.
  - case_guard; case_bool_decide; simpl in *; done.
  - by case_bool_decide.
Qed.

Lemma convert_Done df hs m out :
  convert_gymrun_to_strong df hs m = Done out ->
  exists df1 df2 df3 df4,
    check_columns df = Done tt
    /\ parse_timestamps df = Done df1
    /\ process_cardio (group_workouts (sort_values df1)) = Done df2
    /\ fill_all fill_defaults
         (add_missing_columns hs
            (apply_exercise_mappings (rename_columns rename_map df2) m
               "Exercise Name")) = Done df3
    /\ final_types df3 = Done df4
    /\ select_final hs df4 = Done out.
Proof.
  unfold convert_gymrun_to_strong. intros H.
  apply obind_Done in H as ([] & H0 & H).
  apply obind_Done in H as (df1 & H1 & H).
  apply obind_Done in H as (df2 & H2 & H).
  apply obind_Done in H as (df3 & H3 & H).
  apply obind_Done in H as (df4 & H4 & H).
  by exists df1, df2, df3, df4.
Qed.

(** [c] is in the list of literals of the goal. *)
Ltac in_literals := repeat (first [by left | right]).

(** Every label of the hypothesis [H : c ∈ [l1; ...; ln]] is in the list of
    the goal. *)
Ltac sublist_of H :=
  repeat (apply elem_of_cons in H as [->|H]; [in_literals|]);
  by apply elem_of_nil in H.

(** The hypothesis [H : c ∈ [l1; ...; ln]] is absurd for the literal [c]. *)
Ltac not_in_literals H :=
  repeat (apply elem_of_cons in H as [H|H]; [discriminate H|]);
  by apply elem_of_nil in H.

Lemma convert_keeps df hs m out :
  convert_gymrun_to_strong df hs m = Done out ->
  exists df1 df3 df4,
    parse_timestamps df = Done df1
    /\ Forall2
         (keeps (fun c =>
                   (c ∉ touched)
                   /\ has_column c (group_workouts (sort_values df1)) = true))
         (rows (group_workouts (sort_values df1))) (rows df3)
    /\ final_types df3 = Done df4
    /\ rows out
       = (fun r => filter (fun kv : string * cell => kv.1 ∈ hs) r)
           <$> rows df4.
Proof.
  intros (df1 & df2 & df3 & df4 & _ & H1 & H2 & H3 & H4 & H5)%convert_Done.
  exists df1, df3, df4. split; [done|].
  apply select_final_Done in H5 as (_ & _ & K5).
  split; [|done]. clear H4 K5.
  set (dfg := group_workouts (sort_values df1)) in *.
  set (P := fun c => (c ∉ touched) /\ has_column c dfg = true).
  assert (forall (l : list string) c,
            (forall x, x ∈ l -> x ∈ touched) -> P c -> c ∉ l)
    as Hout.
  { intros l c Hl [Hc _] Hin. by apply Hc, Hl. }
  apply (process_cardio_keeps P) in H2 as [K2 C2];
    [|intros [Hc _]; apply Hc; unfold touched; in_literals..].
  set (dfr := rename_columns rename_map df2) in *.
  destruct (rename_columns_keeps P rename_map df2) as [Kr Cr].
  { intros c. apply Hout. intros x Hx. cbn in Hx. unfold touched.
    sublist_of Hx. }
  { intros c. apply Hout. intros x Hx. cbn in Hx. unfold touched.
    sublist_of Hx. }
  fold dfr in Kr, Cr.
  set (dfm := apply_exercise_mappings dfr m "Exercise Name") in *.
  destruct (apply_exercise_mappings_keeps P dfr m "Exercise Name")
    as [Km Cm].
  { intros [Hc _]. apply Hc. unfold touched. in_literals. }
  fold dfm in Km, Cm.
  destruct (add_missing_columns_spec hs dfm) as (G & HG & _ & Hkeep & _).
  set (dfa := add_missing_columns hs dfm) in *.
  apply fill_all_spec in H3 as [_ K3]; [|apply fill_defaults_NoDup].
  eapply keeps_rows_trans; [exact K2|].
  eapply keeps_rows_trans; [exact Kr|].
  eapply keeps_rows_trans; [exact Km|].
  apply (keeps_rows_trans _ _ (rows dfa)).
  { rewrite HG. apply Forall2_fmap_self. intros r _ c Hc.
    apply Hkeep. rewrite Cm. apply Cr; [|apply C2, Hc].
    eapply Hout; [|exact Hc]. intros x Hx. cbn in Hx. unfold touched.
    sublist_of Hx. }
  eapply Forall2_impl; [exact K3|]. intros r r' [_ Hr] c Hc. apply Hr.
  eapply Hout; [|exact Hc]. intros x Hx. cbn in Hx. unfold touched.
  sublist_of Hx.
Qed.

Lemma select_final_after_completion hs df df3 df4 :
  fill_all fill_defaults (add_missing_columns hs df) = Done df3 ->
  final_types df3 = Done df4 ->
  exists out, select_final hs df4 = Done out.
Proof.
  intros H3 H4.
  apply fill_all_spec in H3 as [C3 _]; [|apply fill_defaults_NoDup].
  apply final_types_Done in H4 as [C4 _].
  destruct (add_missing_columns_spec hs df) as (G & _ & Hcol & _).
  assert (missing_from hs df4 = []) as Hm.
  { apply missing_from_nil. intros c Hc.
    rewrite (has_column_columns c _ _ C4).
    rewrite (has_column_columns c _ _ C3), Hcol.
    rewrite (bool_decide_eq_true_2 _ Hc). apply orb_true_r. }
  unfold select_final. rewrite Hm. eauto.
Qed.

Lemma obind_Failed {A B} (m : outcome A) (k : A -> outcome B) e :
  obind m k = Failed e ->
  m = Failed e \/ exists a, m = Done a /\ k a = Failed e.
Proof. destruct m; simpl; [eauto|]. intros [= ->]. by left. Qed.

Lemma convert_Failed df hs m e :
  convert_gymrun_to_strong df hs m = Failed e ->
  e = MissingEssentialColumns (missing_from essential_cols df)
  /\ missing_from essential_cols df <> []
  \/ missing_from essential_cols df = []
     /\ (e = DateTimeProcessingError
         \/ e = Uncaught
         \/ exists r dt,
              r ∈ rows df /\ parsed r = Some dt
              /\ (e = AmbiguousTimeError dt
                  /\ localize norway_tz dt = AmbiguousTime
                  \/ e = NonExistentTimeError dt
                     /\ localize norway_tz dt = NonExistentTime)).
Proof.
  unfold convert_gymrun_to_strong. intros H.
  apply obind_Failed in H as [H|([] & H0 & H)];
    rewrite check_columns_spec in *.
  { destruct (missing_from essential_cols df); [done|].
    injection H as <-. by left. }
  right. split; [by destruct (missing_from essential_cols df)|].
  apply obind_Failed in H as [H|(df1 & H1 & H)].
  { apply parse_timestamps_Failed in H as [->|H]; [by left|by right; right]. }
  apply obind_Failed in H as [H|(df2 & H2 & H)].
  { apply process_cardio_Failed in H. by right; left. }
  apply obind_Failed in H as [H|(df3 & H3 & H)].
  { apply fill_all_Failed in H. by right; left. }
  apply obind_Failed in H as [H|(df4 & H4 & H)].
  { apply final_types_Failed in H. by right; left. }
  destruct (select_final_after_completion _ _ _ _ H3 H4) as [out Hout].
  congruence.
Qed.

(** ** Properties of the whole run *)

(** X1 (lines 65-77).  The column check ends the run exactly when one of
    Date, Time, Exercise, Set, Weight and Reps is absent, and then the error
    lists exactly the absent ones of these six; a table that has the six
    passes the check, whether or not it has Type, Duration and Distance, and
    the run never ends with this error. *)
Theorem missing_essential_column_ends_run (gymrun_df : DataFrame)
    (strong_headers : list string) (initial_mapping : list (pyobj * pyobj)) :
  match missing_from essential_cols gymrun_df with
  | [] =>
      check_columns gymrun_df = Done tt
      /\ forall cols,
           convert_gymrun_to_strong gymrun_df strong_headers initial_mapping
           <> Failed (MissingEssentialColumns cols)
  | missing_essential =>
      convert_gymrun_to_strong gymrun_df strong_headers initial_mapping
      = Failed (MissingEssentialColumns missing_essential)
  end.
Proof.
  destruct (missing_from essential_cols gymrun_df) as [|c l] eqn:Hess.
  - split; [by rewrite check_columns_spec, Hess|].
    intros cols H. apply convert_Failed in H as [[_ H]|[_ H]]; [done|].
    destruct H as [H|[H|(r & dt & _ & _ & [[H _]|[H _]])]]; discriminate.
  - unfold convert_gymrun_to_strong. by rewrite check_columns_spec, Hess.
Qed.


(** X3 (lines 84, 106, 229).  A run that reaches the end writes one row for
    every row of the input whose date and time parse, no more and no less,
    and a written row has cells under the labels of the Strong header
    only: no helper column of the run reaches the output. *)
Theorem one_output_row_per_parsed_row (gymrun_df : DataFrame)
    (strong_headers : list string) (initial_mapping : list (pyobj * pyobj))
    (out : DataFrame) :
  convert_gymrun_to_strong gymrun_df strong_headers initial_mapping
  = Done out ->
  length (rows out) = length (rows (keep_parsed gymrun_df))
  /\ forall r c, r ∈ rows out -> c ∉ strong_headers -> r !! c = None.
Proof.
  intros H. split.
  - apply convert_keeps in H as (df1 & df3 & df4 & H1 & K & H4 & ->).
    apply final_types_Done in H4 as [_ K4]. apply Forall2_length in K, K4.
    rewrite length_fmap, <- K4, <- K, group_workouts_length. simpl.
    rewrite (Permutation_length (merge_sort_Permutation _ _)).
    apply parse_timestamps_Done in H1 as [_ H1].
    symmetry. by apply Forall2_length in H1.
  - apply convert_Done in H as (_ & _ & _ & df4 & _ & _ & _ & _ & _ & H).
    apply select_final_Done in H as (_ & _ & ->).
    intros r c (r0 & -> & _)%list_elem_of_fmap Hc.
    rewrite select_row_lookup. by rewrite bool_decide_eq_false_2.
Qed.

(** ** Workout numbers along the sorted rows *)

Lemma workout_number_index df i r' :
  rows (group_workouts df) !! i = Some r' ->
  exists k,
    unique (day_of <$> rows df) !! k = Some (day_of r')
    /\ cell_of "Workout #" r' = CInt (Z.of_nat k + 1).
Proof.
  intros Hr'.
  destruct (group_workouts_lookup _ _ _ Hr')
    as (r & Hr & Hts & _ & _ & _ & _ & _ & Hnum).
  assert (day_of r' = day_of r) as Hday by (unfold day_of; by rewrite Hts).
  assert (day_of r ∈ unique (day_of <$> rows df)) as Hin.
  { apply elem_of_unique, list_elem_of_fmap_2.
    by eapply list_elem_of_lookup_2. }
  apply list_elem_of_lookup_1 in Hin as [k Hk].
  exists k. rewrite Hday. split; [done|].
  by rewrite Hnum, (enumerate_from_1_lookup _ k _ (NoDup_unique _) Hk).
Qed.

Lemma sorted_le_lookup (D : list Z) i j x y :
  StronglySorted Z.le D -> (i <= j)%nat ->
  D !! i = Some x -> D !! j = Some y -> x <= y.
Proof.
  intros Hs Hij Hi Hj. destruct (decide (i = j)) as [->|Hne].
  - rewrite Hi in Hj. injection Hj as ->. lia.
  - eapply (StronglySorted_lookup Z.le); [exact Hs| |exact Hi|exact Hj]. lia.
Qed.

Lemma unique_index_step (D : list Z) i d1 d2 k1 k2 :
  StronglySorted Z.le D ->
  D !! i = Some d1 -> D !! S i = Some d2 ->
  unique D !! k1 = Some d1 -> unique D !! k2 = Some d2 ->
  d1 = d2 /\ k2 = k1 \/ d1 < d2 /\ k2 = S k1.
Proof.
  intros Hs H1 H2 Hk1 Hk2.
  pose proof (NoDup_unique D) as Hnd.
  pose proof (unique_sorted D Hs) as Hus.
  assert (d1 <= d2) as Hle.
  { eapply (sorted_le_lookup D i (S i)); [exact Hs|lia|exact H1|exact H2]. }
  destruct (decide (d1 = d2)) as [->|Hne].
  { left. split; [done|]. by eapply NoDup_lookup. }
  right. split; [lia|].
  assert (k1 < k2)%nat as Hlt.
  { destruct (decide (k1 < k2)%nat) as [|Hge]; [done|]. exfalso.
    destruct (decide (k1 = k2)) as [->|Hk]; [congruence|].
    assert (d2 < d1); [|lia].
    eapply (StronglySorted_lookup Z.lt); [exact Hus| |exact Hk2|exact Hk1].
    lia. }
  destruct (decide (k2 = S k1)) as [|Hgap]; [done|]. exfalso.
  destruct (lookup_lt_is_Some_2 (unique D) (S k1)) as [d Hd].
  { apply lookup_lt_Some in Hk2. lia. }
  assert (d1 < d) as Hd1.
  { eapply (StronglySorted_lookup Z.lt); [exact Hus| |exact Hk1|exact Hd].
    lia. }
  assert (d < d2) as Hd2.
  { eapply (StronglySorted_lookup Z.lt); [exact Hus| |exact Hd|exact Hk2].
    lia. }
  assert (d ∈ D) as Hin.
  { apply elem_of_unique. by eapply list_elem_of_lookup_2. }
  apply list_elem_of_lookup_1 in Hin as [p Hp].
  destruct (decide (p <= i)%nat).
  - assert (d <= d1); [|lia].
    eapply (sorted_le_lookup D p i); [exact Hs|lia|exact Hp|exact H1].
  - assert (d2 <= d); [|lia].
    eapply (sorted_le_lookup D (S i) p); [exact Hs|lia|exact H2|exact Hp].
Qed.

Lemma unique_head (D : list Z) d k :
  D !! 0%nat = Some d -> unique D !! k = Some d -> k = 0%nat.
Proof.
  intros H0 Hk. destruct D as [|x D]; [done|]. injection H0 as ->.
  eapply NoDup_lookup; [apply NoDup_unique|exact Hk|done].
Qed.

Lemma workout_number_first df r' :
  rows (group_workouts df) !! 0%nat = Some r' ->
  cell_of "Workout #" r' = CInt 1.
Proof.
  intros Hr'. destruct (workout_number_index _ _ _ Hr') as (k & Hk & ->).
  assert ((day_of <$> rows df) !! 0%nat = Some (day_of r')) as H0.
  { rewrite <- group_workouts_days, list_lookup_fmap. by rewrite Hr'. }
  by rewrite (unique_head _ _ _ H0 Hk).
Qed.

Lemma workout_number_step df i r1 r2 :
  rows (group_workouts (sort_values df)) !! i = Some r1 ->
  rows (group_workouts (sort_values df)) !! S i = Some r2 ->
  exists n,
    cell_of "Workout #" r1 = CInt n
    /\ (day_of r1 = day_of r2 /\ cell_of "Workout #" r2 = CInt n
        \/ day_of r1 < day_of r2 /\ cell_of "Workout #" r2 = CInt (n + 1)).
Proof.
  intros H1 H2.
  destruct (workout_number_index _ _ _ H1) as (k1 & Hk1 & ->).
  destruct (workout_number_index _ _ _ H2) as (k2 & Hk2 & ->).
  exists (Z.of_nat k1 + 1). split; [done|].
  assert (forall j r, rows (group_workouts (sort_values df)) !! j = Some r ->
            (day_of <$> rows (sort_values df)) !! j = Some (day_of r))
    as Hday.
  { intros j r Hr. rewrite <- group_workouts_days, list_lookup_fmap.
    by rewrite Hr. }
  destruct (unique_index_step _ i _ _ k1 k2 (sort_values_days_sorted df)
              (Hday _ _ H1) (Hday _ _ H2) Hk1 Hk2) as [[Hd ->]|[Hd ->]].
  - by left.
  - right. split; [done|]. f_equal. lia.
Qed.

(** ** Sessions *)

Lemma group_workouts_row df j x :
  rows df !! j = Some x ->
  exists r'', rows (group_workouts df) !! j = Some r''
              /\ timestamp_of r'' = timestamp_of x /\ day_of r'' = day_of x.
Proof.
  intros Hx. destruct (group_workouts_lookup_total _ _ _ Hx) as [r'' Hr''].
  exists r''. split; [done|].
  destruct (group_workouts_lookup _ _ _ Hr'') as (x' & Hx' & Hts & _).
  rewrite Hx in Hx'. injection Hx' as <-.
  split; [done|]. unfold day_of. by rewrite Hts.
Qed.

Lemma session_bounds_in_group df i r' :
  rows (group_workouts df) !! i = Some r' ->
  exists r,
    rows df !! i = Some r /\ timestamp_of r' = timestamp_of r
    /\ day_of r' = day_of r
    /\ session_start r'
       = foldr Z.min (timestamp_of r)
           (timestamp_of <$> group_of day_of (rows df) r)
    /\ session_end r'
       = foldr Z.max (timestamp_of r)
           (timestamp_of <$> group_of day_of (rows df) r).
Proof.
  intros Hr'.
  destruct (group_workouts_lookup _ _ _ Hr')
    as (r & Hr & Hts & _ & Hs & He & _).
  exists r. unfold session_start, session_end, day_of.
  by rewrite Hs, He, Hts.
Qed.

Lemma extreme_attained df i r r' (t : Z) :
  rows (group_workouts df) !! i = Some r' ->
  rows df !! i = Some r -> timestamp_of r' = timestamp_of r ->
  t ∈ timestamp_of r :: (timestamp_of <$> group_of day_of (rows df) r) ->
  exists j r'',
    rows (group_workouts df) !! j = Some r''
    /\ day_of r'' = day_of r' /\ timestamp_of r'' = t.
Proof.
  intros Hr' Hr Hts [->|Hin]%elem_of_cons.
  - exists i, r'. by split_and!.
  - apply list_elem_of_fmap in Hin as (x & -> & Hx).
    apply list_elem_of_filter in Hx as [Hday Hx].
    apply list_elem_of_lookup_1 in Hx as [j Hj].
    destruct (group_workouts_row _ _ _ Hj) as (r'' & Hr'' & Hts'' & Hd'').
    exists j, r''. split_and!; [done| |done].
    rewrite Hd'', Hday. unfold day_of. by rewrite Hts.
Qed.

Lemma session_start_le df i j r' r'' :
  rows (group_workouts df) !! i = Some r' ->
  rows (group_workouts df) !! j = Some r'' ->
  day_of r'' = day_of r' ->
  session_start r' <= timestamp_of r'' <= session_end r'.
Proof.
  intros Hr' Hr'' Hday.
  destruct (session_bounds_in_group _ _ _ Hr')
    as (r & Hr & Hts & Hd & -> & ->).
  destruct (session_bounds_in_group _ _ _ Hr'')
    as (x & Hx & Htsx & Hdx & _).
  assert (timestamp_of x ∈ timestamp_of <$> group_of day_of (rows df) r)
    as Hin.
  { apply list_elem_of_fmap_2, list_elem_of_filter.
    split; [congruence|]. by eapply list_elem_of_lookup_2. }
  rewrite Htsx. split.
  - by apply foldr_min_le_elem.
  - by apply foldr_max_ge_elem.
Qed.

Lemma session_start_attained df i r' :
  rows (group_workouts df) !! i = Some r' ->
  exists j r'',
    rows (group_workouts df) !! j = Some r''
    /\ day_of r'' = day_of r' /\ timestamp_of r'' = session_start r'.
Proof.
  intros Hr'.
  destruct (session_bounds_in_group _ _ _ Hr')
    as (r & Hr & Hts & Hd & -> & _).
  eapply extreme_attained; [done..|]. apply foldr_min_elem.
Qed.

Lemma session_end_attained df i r' :
  rows (group_workouts df) !! i = Some r' ->
  exists j r'',
    rows (group_workouts df) !! j = Some r''
    /\ day_of r'' = day_of r' /\ timestamp_of r'' = session_end r'.
Proof.
  intros Hr'.
  destruct (session_bounds_in_group _ _ _ Hr')
    as (r & Hr & Hts & Hd & _ & ->).
  eapply extreme_attained; [done..|]. apply foldr_max_elem.
Qed.

Lemma session_start_same_day df i j r1 r2 :
  rows (group_workouts df) !! i = Some r1 ->
  rows (group_workouts df) !! j = Some r2 ->
  day_of r1 = day_of r2 -> session_start r1 = session_start r2.
Proof.
  intros H1 H2 Hday.
  destruct (session_start_attained _ _ _ H1) as (j1 & x1 & Hx1 & Hd1 & Ht1).
  destruct (session_start_attained _ _ _ H2) as (j2 & x2 & Hx2 & Hd2 & Ht2).
  assert (session_start r1 <= timestamp_of x2).
  { eapply session_start_le; [exact H1|exact Hx2|congruence]. }
  assert (session_start r2 <= timestamp_of x1).
  { eapply session_start_le; [exact H2|exact Hx1|congruence]. }
  lia.
Qed.

(** X4 (lines 109-113).  The session start written on a row is the
    earliest and the session end the latest of the timestamps of the rows
    of its UTC date: each is the timestamp of one of these rows and bounds
    the timestamps of all of them; so the duration of a session is never
    negative. *)
Theorem session_bounds_are_extremes (df : DataFrame) (i : nat)
    (r' : gmap string cell) :
  rows (group_workouts df) !! i = Some r' ->
  (exists j r'', rows (group_workouts df) !! j = Some r''
                 /\ day_of r'' = day_of r'
                 /\ timestamp_of r'' = session_start r')
  /\ (exists j r'', rows (group_workouts df) !! j = Some r''
                    /\ day_of r'' = day_of r'
                    /\ timestamp_of r'' = session_end r')
  /\ (forall j r'', rows (group_workouts df) !! j = Some r'' ->
        day_of r'' = day_of r' ->
        session_start r' <= timestamp_of r'' <= session_end r')
  /\ exists z, cell_of "Duration (sec)" r' = CInt z /\ 0 <= z.
Proof.
  intros Hr'. split_and!.
  - by eapply session_start_attained.
  - by eapply session_end_attained.
  - intros j r'' Hr'' Hday. by eapply session_start_le.
  - destruct (group_workouts_lookup _ _ _ Hr')
      as (r & _ & _ & _ & _ & _ & Hdur & _).
    eexists. split; [exact Hdur|].
    pose proof (session_start_le df i i r' r' Hr' Hr' eq_refl). lia.
Qed.

(** X5 (lines 115-117).  Whatever the order of the rows, two rows get the
    same workout number exactly when their timestamps fall on the same UTC
    date, and every workout number lies between 1 and the number of
    distinct UTC dates. *)
Theorem same_workout_number_iff_same_date (df : DataFrame) (i j : nat)
    (r1 r2 : gmap string cell) :
  rows (group_workouts df) !! i = Some r1 ->
  rows (group_workouts df) !! j = Some r2 ->
  (cell_of "Workout #" r1 = cell_of "Workout #" r2 <-> day_of r1 = day_of r2)
  /\ exists n, cell_of "Workout #" r1 = CInt n
               /\ 1 <= n <= Z.of_nat (length (unique (day_of <$> rows df))).
Proof.
  intros H1 H2.
  destruct (workout_number_index _ _ _ H1) as (k1 & Hk1 & Hn1).
  destruct (workout_number_index _ _ _ H2) as (k2 & Hk2 & Hn2).
  split.
  - rewrite Hn1, Hn2. split.
    + intros [= Hk]. assert (k1 = k2) as -> by lia. congruence.
    + intros Hd. rewrite Hd in Hk1.
      by rewrite (NoDup_lookup _ _ _ _ (NoDup_unique _) Hk1 Hk2).
  - exists (Z.of_nat k1 + 1). split; [done|].
    apply lookup_lt_Some in Hk1. lia.
Qed.

(** X6 (lines 106-117).  Down the rows sorted by timestamp the workout
    numbers start at 1 and go up in steps of one: a row has the number of
    the row before it when both are on the same UTC date, and the next
    number when its date is a later one. *)
Theorem workout_numbers_rise_by_one (df : DataFrame) :
  (forall r, rows (group_workouts (sort_values df)) !! 0%nat = Some r ->
     cell_of "Workout #" r = CInt 1)
  /\ forall i r1 r2,
       rows (group_workouts (sort_values df)) !! i = Some r1 ->
       rows (group_workouts (sort_values df)) !! S i = Some r2 ->
       exists n,
         cell_of "Workout #" r1 = CInt n
         /\ (day_of r1 = day_of r2 /\ cell_of "Workout #" r2 = CInt n
             \/ day_of r1 < day_of r2
                /\ cell_of "Workout #" r2 = CInt (n + 1)).
Proof.
  split.
  - intros r. apply workout_number_first.
  - intros i r1 r2. apply workout_number_step.
Qed.

(** ** The session columns in the written table *)

Lemma cell_of_Some c (r : gmap string cell) v :
  cell_of c r = v -> v <> CNaN -> r !! c = Some v.
Proof. unfold cell_of. destruct (r !! c); simpl; congruence. Qed.

Lemma group_workouts_has_column c df :
  c ∈ ["Duration (sec)"; "Workout #"; "Date"] ->
  has_column c (group_workouts df) = true.
Proof.
  intros Hc. unfold group_workouts. cbv zeta.
  repeat (apply elem_of_cons in Hc as [->|Hc];
          [repeat first [apply has_column_set_column
                        |apply has_column_set_column_mono]|]).
  by apply elem_of_nil in Hc.
Qed.

Lemma final_types_duration df df' :
  final_types df = Done df' ->
  Forall2 (fun r r' => forall z, r !! "Duration (sec)" = Some (CInt z) ->
                                 r' !! "Duration (sec)" = Some (CInt z))
    (rows df) (rows df').
Proof.
  unfold final_types. intros H.
  repeat (let d := fresh "d" in
          let Hd := fresh "Hd" in
          apply obind_Done in H as (d & Hd & H);
          apply cast_column_Done in Hd as (_ & _ & ?); cbv beta in H).
  apply cast_column_Done in H as (_ & _ & H).
  set (R := fun r r' : gmap string cell =>
              forall z, r !! "Duration (sec)" = Some (CInt z) ->
                        r' !! "Duration (sec)" = Some (CInt z)).
  assert (forall l1 l2 l3, Forall2 R l1 l2 -> Forall2 R l2 l3 ->
                           Forall2 R l1 l3) as Htrans.
  { intros l1 l2 l3 H12 H23. eapply Forall2_trans; [|exact H12|exact H23].
    intros r1 r2 r3 Hr12 Hr23 z Hz. exact (Hr23 z (Hr12 z Hz)). }
  repeat (eapply Htrans;
          [eapply Forall2_impl; [eassumption|];
           intros r r' (v & _ & ->) z Hz; by rewrite lookup_insert_ne|]).
  eapply Forall2_impl; [exact H|].
  intros r r' (v & Hv & ->) z Hz. rewrite lookup_insert_eq.
  unfold cell_of in Hv. rewrite Hz in Hv. simpl in Hv. congruence.
Qed.

(** X7 (lines 106-118, 120-229).  What lines 109-118 put into the Date,
    Workout # and Duration (sec) columns is what the written table has in
    them, for those of the three that the Strong header names: no later
    step changes these cells.  So the workout numbers of the written table
    start at 1 and rise in steps of one down its rows. *)
Theorem session_columns_reach_output (gymrun_df : DataFrame)
    (strong_headers : list string) (initial_mapping : list (pyobj * pyobj))
    (out : DataFrame) :
  convert_gymrun_to_strong gymrun_df strong_headers initial_mapping
  = Done out ->
  (exists df',
     parse_timestamps gymrun_df = Done df'
     /\ Forall2 (fun rg ro =>
                   forall c, c ∈ ["Date"; "Workout #"; "Duration (sec)"] ->
                     c ∈ strong_headers ->
                     is_Some (rg !! c) /\ ro !! c = rg !! c)
          (rows (group_workouts (sort_values df'))) (rows out))
  /\ ("Workout #" ∈ strong_headers ->
      (forall ro, rows out !! 0%nat = Some ro ->
         cell_of "Workout #" ro = CInt 1)
      /\ forall i ro1 ro2,
           rows out !! i = Some ro1 -> rows out !! S i = Some ro2 ->
           exists n,
             cell_of "Workout #" ro1 = CInt n
             /\ (cell_of "Workout #" ro2 = CInt n
                 \/ cell_of "Workout #" ro2 = CInt (n + 1))).
Proof.
  intros H. apply convert_keeps in H as (df1 & df3 & df4 & H1 & K & H4 & Hout).
  set (dfg := group_workouts (sort_values df1)) in *.
  pose proof (final_types_duration _ _ H4) as Kd.
  apply final_types_Done in H4 as [_ K4].
  assert (Forall2 (fun rg ro =>
                     forall c, c ∈ ["Date"; "Workout #"; "Duration (sec)"] ->
                       c ∈ strong_headers ->
                       is_Some (rg !! c) /\ ro !! c = rg !! c)
            (rows dfg) (rows out)) as Hrows.
  { apply Forall2_same_length_lookup. split.
    { apply Forall2_length in K, K4. rewrite Hout, length_fmap. congruence. }
    intros i rg ro Hrg Hro.
    destruct (Forall2_lookup_l _ _ _ _ _ K Hrg) as (r3 & Hr3 & K3).
    destruct (Forall2_lookup_l _ _ _ _ _ K4 Hr3) as (r4 & Hr4 & K4').
    destruct (Forall2_lookup_l _ _ _ _ _ Kd Hr3) as (r4' & Hr4' & Kd').
    rewrite Hr4 in Hr4'. injection Hr4' as <-.
    rewrite Hout, list_lookup_fmap, Hr4 in Hro. injection Hro as <-.
    destruct (group_workouts_lookup _ _ _ Hrg)
      as (r & _ & _ & _ & _ & _ & Hdur & Hdate & _).
    destruct (workout_number_index _ _ _ Hrg) as (k & _ & Hnum).
    apply cell_of_Some in Hdur, Hdate, Hnum; [|done..].
    intros c Hc Hhs. rewrite select_row_lookup, bool_decide_eq_true_2 by done.
    assert (r3 !! c = rg !! c) as H3.
    { apply K3. split.
      - intros Hin. unfold touched in Hin.
        repeat (apply elem_of_cons in Hc as [->|Hc];
                [not_in_literals Hin|]).
        by apply elem_of_nil in Hc.
      - apply group_workouts_has_column. sublist_of Hc. }
    apply elem_of_cons in Hc as [->|Hc];
      [|apply elem_of_cons in Hc as [->|Hc];
        [|apply elem_of_cons in Hc as [->|Hc];
          [|by apply elem_of_nil in Hc]]].
    - split; [by rewrite Hdate|]. rewrite <- H3. apply K4'.
      intros Hin. not_in_literals Hin.
    - split; [by rewrite Hnum|]. rewrite <- H3. apply K4'.
      intros Hin. not_in_literals Hin.
    - split; [by rewrite Hdur|]. rewrite Hdur in *. by apply Kd'. }
  split; [by exists df1|].
  intros Hhs.
  assert (forall i ro, rows out !! i = Some ro ->
            exists rg, rows dfg !! i = Some rg
                       /\ cell_of "Workout #" ro = cell_of "Workout #" rg)
    as Hnum.
  { intros i ro Hro.
    destruct (Forall2_lookup_r _ _ _ _ _ Hrows Hro) as (rg & Hrg & Hc).
    exists rg. split; [done|]. unfold cell_of.
    destruct (Hc "Workout #") as [_ ->]; [in_literals|done..]. }
  split.
  - intros ro (rg & Hrg & ->)%Hnum. by eapply workout_number_first.
  - intros i ro1 ro2 (rg1 & Hrg1 & ->)%Hnum (rg2 & Hrg2 & ->)%Hnum.
    destruct (workout_number_step _ _ _ _ Hrg1 Hrg2) as (n & Hn & Hstep).
    exists n. split; [done|]. destruct Hstep as [[_ ?]|[_ ?]]; eauto.
Qed.

(** ** Renaming and completing the columns *)

Lemma rename_row_target m (r : gmap string cell) old new v :
  NoDup m.*2 -> (forall x, x ∈ m.*1 -> x ∉ m.*2) ->
  (old, new) ∈ m -> r !! old = Some v -> rename_row m r !! new = Some v.
Proof.
  unfold rename_row. induction m as [|kv m IH]; simpl.
  { by intros _ _ ?%elem_of_nil. }
  intros [Hn Hnd]%NoDup_cons Hdis [<-|Hin]%elem_of_cons Hv.
  { simpl. rewrite Hv. apply lookup_insert_eq. }
  assert (foldr (fun kv acc =>
                   match r !! kv.1 with
                   | Some v => <[kv.2 := v]> (delete kv.1 acc)
                   | None => acc
                   end) r m !! new = Some v) as IH'.
  { apply IH; [done| |done..]. intros x Hx.
    specialize (Hdis x (list_elem_of_further _ _ _ Hx)).
    by apply not_elem_of_cons in Hdis as [_ ?]. }
  destruct (r !! kv.1); [|done].
  assert (new ∈ m.*2) as Hnew by (by apply (list_elem_of_fmap_2 snd) in Hin).
  rewrite lookup_insert_ne, lookup_delete_ne; [done| |].
  - intros Heq. apply (Hdis kv.1); [by left|]. rewrite Heq. by right.
  - intros Heq. apply Hn. by rewrite Heq.
Qed.

Lemma rename_row_source m (r : gmap string cell) old :
  NoDup m.*1 -> (forall x, x ∈ m.*1 -> x ∉ m.*2) ->
  old ∈ m.*1 -> rename_row m r !! old = None.
Proof.
  induction m as [|kv m IH]; simpl.
  { by intros _ _ ?%elem_of_nil. }
  intros [Hn Hnd]%NoDup_cons Hdis Hold.
  assert (forall x, x ∈ m.*1 -> x ∉ m.*2) as Hdis'.
  { intros x Hx. specialize (Hdis x (list_elem_of_further _ _ _ Hx)).
    by apply not_elem_of_cons in Hdis as [_ ?]. }
  assert (old <> kv.2) as Hne2.
  { intros ->. apply (Hdis kv.2 Hold). by left. }
  change (rename_row (kv :: m) r)
    with (match r !! kv.1 with
          | Some v => <[kv.2 := v]> (delete kv.1 (rename_row m r))
          | None => rename_row m r
          end).
  apply elem_of_cons in Hold as [->|Hold].
  - destruct (r !! kv.1) eqn:Hr.
    + rewrite lookup_insert_ne by done. apply lookup_delete_eq.
    + rewrite rename_row_other; [done..|].
      specialize (Hdis kv.1 (list_elem_of_here _ _)).
      by apply not_elem_of_cons in Hdis as [_ ?].
  - destruct (r !! kv.1).
    + rewrite lookup_insert_ne by done.
      destruct (decide (kv.1 = old)) as [->|Hne]; [apply lookup_delete_eq|].
      rewrite lookup_delete_ne by done. by apply IH.
    + by apply IH.
Qed.

Lemma rename_label_source m old new :
  NoDup m.*1 -> (old, new) ∈ m -> rename_label m old = new.
Proof.
  intros Hnd Hin. unfold rename_label.
  destruct (list_find _ m) as [[i kv]|] eqn:Hf.
  - apply list_find_Some in Hf as (Hi & Hkv & _).
    apply list_elem_of_lookup_1 in Hin as [j Hj].
    assert (i = j) as ->.
    { apply (NoDup_lookup (m.*1) i j old Hnd); rewrite list_lookup_fmap.
      - rewrite Hi. simpl. by rewrite Hkv.
      - by rewrite Hj. }
    rewrite Hi in Hj. by injection Hj as ->.
  - apply list_find_None in Hf. rewrite Forall_forall in Hf.
    by destruct (Hf _ Hin).
Qed.

Lemma rename_map_NoDup :
  NoDup rename_map.*1 /\ NoDup rename_map.*2
  /\ forall x, x ∈ rename_map.*1 -> x ∉ rename_map.*2.
Proof.
  split_and!.
  - apply (bool_decide_unpack (NoDup rename_map.*1)). by vm_compute.
  - apply (bool_decide_unpack (NoDup rename_map.*2)). by vm_compute.
  - intros x Hx Hx'. cbn in Hx, Hx'.
    repeat (apply elem_of_cons in Hx as [->|Hx]; [not_in_literals Hx'|]).
    by apply elem_of_nil in Hx.
Qed.

(** X8 (lines 155-165).  The renaming changes labels and nothing else: a
    column keeps its position, its label is replaced when it is Routine,
    Exercise, Set, Weight or Note and kept otherwise (so Reps stays Reps);
    in every row the cell of a renamed column is found under the new label
    and no longer under the old one, and the cells of all other columns
    are as before. *)
Theorem rename_moves_cells_to_new_labels (df : DataFrame) (i : nat)
    (r' : gmap string cell) :
  rows (rename_columns rename_map df) !! i = Some r' ->
  (exists r,
     rows df !! i = Some r
     /\ (forall old new v, (old, new) ∈ rename_map -> r !! old = Some v ->
           r' !! new = Some v)
     /\ (forall old, old ∈ rename_map.*1 -> r' !! old = None)
     /\ (forall c, c ∉ rename_map.*1 -> c ∉ rename_map.*2 ->
           r' !! c = r !! c))
  /\ forall k c,
       columns df !! k = Some c ->
       exists c',
         columns (rename_columns rename_map df) !! k = Some c'
         /\ ((c, c') ∈ rename_map \/ (c ∉ rename_map.*1) /\ c' = c).
Proof.
  destruct rename_map_NoDup as (Hnd1 & Hnd2 & Hdis).
  intros Hr'. split.
  - unfold rename_columns in Hr'. cbn [rows] in Hr'.
    apply list_lookup_fmap_Some_1 in Hr' as (r & -> & Hr).
    exists r. split_and!; [done|..].
    + intros old new v Hin Hv. by eapply rename_row_target.
    + intros old Hold. by apply rename_row_source.
    + intros c Hc1 Hc2. by apply rename_row_other.
  - intros k c Hc. exists (rename_label rename_map c). split.
    { simpl. by rewrite list_lookup_fmap, Hc. }
    destruct (decide (c ∈ rename_map.*1)) as [Hin|Hout].
    + left. apply list_elem_of_fmap in Hin as ([old new] & -> & Hin).
      simpl. by rewrite (rename_label_source _ _ _ Hnd1 Hin).
    + right. split; [done|]. by apply rename_label_other.
Qed.

Lemma add_missing_columns_columns hs df :
  exists new,
    columns (add_missing_columns hs df) = columns df ++ new
    /\ NoDup new
    /\ forall c, c ∈ new <-> c ∈ hs /\ c ∉ columns df.
Proof.
  clear norway_tz str_to_float float_to_str.
  unfold add_missing_columns. revert df.
  induction hs as [|h hs IH]; intros df; simpl.
  { exists []. rewrite app_nil_r. split_and!; [done|constructor|].
    intros c. split; [by intros ?%elem_of_nil|by intros [?%elem_of_nil _]]. }
  destruct (has_column h df) eqn:Hh.
  - destruct (IH df) as (new & Hcols & Hnd & Hnew).
    exists new. split_and!; [done..|]. intros c. rewrite Hnew, elem_of_cons.
    apply bool_decide_eq_true_1 in Hh. split; [tauto|].
    intros [[->|Hc] Hn]; [done|tauto].
  - destruct (IH (set_column h (fun _ => default_for_missing h) df))
      as (new & Hcols & Hnd & Hnew).
    simpl in Hcols, Hnew. rewrite Hh in Hcols, Hnew.
    apply bool_decide_eq_false_1 in Hh.
    exists (h :: new). split_and!.
    + by rewrite Hcols, <- app_assoc.
    + constructor; [|done]. rewrite Hnew, elem_of_app, list_elem_of_singleton.
      tauto.
    + intros c. rewrite !elem_of_cons, Hnew, elem_of_app,
        list_elem_of_singleton.
      destruct (decide (c = h)) as [->|Hne]; tauto.
Qed.

Lemma add_missing_columns_id hs df :
  (forall c, c ∈ hs -> has_column c df = true) ->
  add_missing_columns hs df = df.
Proof.
  unfold add_missing_columns. induction hs as [|h hs IH]; simpl; [done|].
  intros Hall. rewrite (Hall h) by left. apply IH.
  intros c Hc. apply Hall. by right.
Qed.

(** X9 (lines 170-181).  Completing the table for the Strong header only
    appends: the columns of the table keep their order at the front, the
    labels of the header that the table lacks follow them, each once, every
    label of the header is then a column, and the cells that the rows had
    under the old columns are untouched.  Completing a second time changes
    nothing. *)
Theorem completion_only_appends (strong_headers : list string)
    (df : DataFrame) :
  (exists new,
     columns (add_missing_columns strong_headers df) = columns df ++ new
     /\ NoDup new
     /\ forall c, c ∈ new <-> c ∈ strong_headers /\ c ∉ columns df)
  /\ missing_from strong_headers (add_missing_columns strong_headers df) = []
  /\ Forall2 (keeps (fun c => has_column c df = true))
       (rows df) (rows (add_missing_columns strong_headers df))
  /\ add_missing_columns strong_headers
       (add_missing_columns strong_headers df)
     = add_missing_columns strong_headers df.
Proof.
  destruct (add_missing_columns_spec strong_headers df)
    as (G & HG & Hcol & Hkeep & _).
  assert (forall c, c ∈ strong_headers ->
            has_column c (add_missing_columns strong_headers df) = true)
    as Hall.
  { intros c Hc. rewrite Hcol, (bool_decide_eq_true_2 _ Hc).
    apply orb_true_r. }
  split_and!.
  - apply add_missing_columns_columns.
  - by apply missing_from_nil.
  - rewrite HG. apply Forall2_fmap_self. intros r _ c Hc. by apply Hkeep.
  - by apply add_missing_columns_id.
Qed.

(** ** The exercise names *)

(** X10 (lines 24-31).  Without the exercise column the substitution
    returns the table as it is.  With it, every cell of the column comes
    out as a text, also where the name was missing: a missing name comes
    out as the text nan, unless the dictionary has a usable key that reads
    nan, whose value it then gets. *)
Theorem missing_exercise_name_becomes_nan (df : DataFrame)
    (mapping_dict : list (pyobj * pyobj)) (exercise_col : string) :
  (has_column exercise_col df = false ->
   apply_exercise_mappings df mapping_dict exercise_col = df)
  /\ (has_column exercise_col df = true ->
      forall i r',
        rows (apply_exercise_mappings df mapping_dict exercise_col) !! i
        = Some r' ->
        exists r s,
          rows df !! i = Some r /\ r' !! exercise_col = Some (CStr s)
          /\ (cell_of exercise_col r = CNaN ->
              s = match valid_mappings mapping_dict !! "nan" with
                  | Some new_name => new_name
                  | None => "nan"
                  end)).
Proof.
  unfold apply_exercise_mappings. split; intros Hcol; rewrite Hcol; [done|].
  intros i r' (r & Hr & ->)%set_column_lookup.
  exists r, (replace (valid_mappings mapping_dict)
               (astype_str (cell_of exercise_col r))).
  split_and!; [done|apply lookup_insert_eq|].
  intros ->. unfold replace. simpl.
  by destruct (valid_mappings mapping_dict !! "nan").
Qed.

Lemma isin_valid_mappings mapping_dict s :
  isin s mapping_dict.*1 = true ->
  is_Some (valid_mappings mapping_dict !! s).
Proof.
  intros Hin%bool_decide_eq_true_1.
  apply list_elem_of_fmap in Hin as (kv & Hk & Hkv).
  rewrite valid_mappings_lookup, fmap_is_Some. unfold deciding_entry.
  apply last_is_Some. intros Hnil.
  assert (kv ∈ filter (fun kv => py_notna kv.1 = true /\ py_str kv.1 = s)
                 mapping_dict) as Hf.
  { apply list_elem_of_filter. by rewrite <- Hk. }
  rewrite Hnil in Hf. by apply elem_of_nil in Hf.
Qed.

Lemma valid_mappings_isin mapping_dict s :
  Forall (fun kv => has_text_key kv = true) mapping_dict ->
  is_Some (valid_mappings mapping_dict !! s) ->
  isin s mapping_dict.*1 = true.
Proof.
  intros Htext. rewrite valid_mappings_lookup, fmap_is_Some.
  intros [kv Hkv]. apply last_Some_elem_of in Hkv.
  apply list_elem_of_filter in Hkv as [[_ Hs] Hin].
  apply bool_decide_eq_true_2.
  rewrite Forall_forall in Htext. specialize (Htext kv Hin).
  unfold has_text_key in Htext. destruct kv as [k v]. simpl in *.
  destruct k; try done. simpl in Hs. subst.
  by apply (list_elem_of_fmap_2 fst) in Hin.
Qed.

(** X11 (convert.py lines 26-27 against exercises.py lines 44-48).  The
    two scripts read the same dictionary.  A name that the extractor leaves
    out as mapped is always a name that the converter has an entry for;
    when every key of the dictionary is a text, the converse holds too, and
    the extractor keeps exactly the rows whose name the converter would not
    replace for want of an entry. *)
Theorem extractor_and_converter_agree (gymrun_df : DataFrame)
    (mapping_dict : list (pyobj * pyobj)) (exercise_col : string)
    (unmapped_df : DataFrame) (count : option nat) :
  extract_unmapped_exercises gymrun_df mapping_dict exercise_col
  = Done (unmapped_df, count) ->
  (forall r, r ∈ rows gymrun_df ->
     valid_mappings mapping_dict !! astype_str (cell_of exercise_col r)
     = None ->
     r ∈ rows unmapped_df)
  /\ (Forall (fun kv => has_text_key kv = true) mapping_dict ->
      rows unmapped_df
      = filter (fun r => valid_mappings mapping_dict
                           !! astype_str (cell_of exercise_col r) = None)
               (rows gymrun_df)).
Proof.
  unfold extract_unmapped_exercises.
  destruct (has_column exercise_col gymrun_df); [|done].
  intros [= <- _]. cbn [rows]. split.
  - intros r Hr Hnone. apply list_elem_of_filter. split; [|done].
    apply not_true_is_false. intros His%isin_valid_mappings.
    rewrite Hnone in His. by destruct His.
  - intros Htext. apply list_filter_iff. intros r. split.
    + intros Hf. apply eq_None_not_Some. intros His.
      apply (valid_mappings_isin _ _ Htext) in His. congruence.
    + intros Hnone. apply not_true_is_false. intros His%isin_valid_mappings.
      rewrite Hnone in His. by destruct His.
Qed.

(** X12 (exercises.py lines 21-23, 44-56).  Extraction is a filter that
    settles at once: the rows it keeps are rows of the input in their
    order, running it again on its own result returns the same table and
    the same count, and with an empty dictionary, which is also what a
    missing dictionary is replaced by, every row is kept. *)
Theorem extraction_is_idempotent (gymrun_df : DataFrame)
    (mapping_dict : list (pyobj * pyobj)) (exercise_col : string)
    (unmapped_df : DataFrame) (count : option nat) :
  extract_unmapped_exercises gymrun_df mapping_dict exercise_col
  = Done (unmapped_df, count) ->
  rows unmapped_df `sublist_of` rows gymrun_df
  /\ extract_unmapped_exercises unmapped_df mapping_dict exercise_col
     = Done (unmapped_df, count)
  /\ (mapping_dict = [] -> unmapped_df = gymrun_df).
Proof.
  unfold extract_unmapped_exercises.
  destruct (has_column exercise_col gymrun_df) eqn:Hcol; [|done].
  intros [= <- <-]. split_and!.
  - apply sublist_filter.
  - unfold has_column in *. cbn [columns rows]. rewrite Hcol.
    by rewrite list_filter_filter_l.
  - intros ->. destruct gymrun_df as [cols rs]. cbn [columns rows fmap].
    f_equal. induction rs as [|r rs IH]; [done|].
    rewrite filter_cons_True; [by rewrite IH|].
    apply bool_decide_eq_false_2. apply not_elem_of_nil.
Qed.

(** ** The types after the defaulting pass *)

Lemma cast_column_id cast col df :
  has_column col df = true ->
  (forall r, r ∈ rows df -> exists v, r !! col = Some v /\ cast v = Done v) ->
  cast_column cast col df = Done df.
Proof.
  intros Hcol Hrows. unfold cast_column, try_set_column. rewrite Hcol.
  rewrite (try_map_ext _ (fun r => Done (id r))).
  - rewrite try_map_pure, list_fmap_id. simpl. by destruct df.
  - intros r Hr. destruct (Hrows r Hr) as (v & Hv & Hcast).
    unfold cell_of. rewrite Hv. simpl. rewrite Hcast. simpl.
    by rewrite insert_id.
Qed.

Lemma fill_cell_int col d c v :
  col ∈ int_columns -> fill_cell col d c = Done v -> exists z, v = CInt z.
Proof.
  intros Hc. unfold fill_cell. rewrite (bool_decide_eq_true_2 _ Hc).
  destruct (num_astype_int _); intros [= <-]; eauto.
Qed.

Lemma fill_cell_float col d c v :
  col ∈ float_columns -> fill_cell col d c = Done v -> exists f, v = CFloat f.
Proof.
  intros Hc. unfold float_columns in Hc.
  repeat (apply elem_of_cons in Hc as [->|Hc];
          [unfold fill_cell; eval_bool_decide; intros [= <-]; eauto|]).
  by apply elem_of_nil in Hc.
Qed.

Lemma fill_cell_text col d c v :
  (col, d) ∈ fill_defaults -> col ∉ int_columns ++ float_columns ->
  fill_cell col d c = Done v -> isna v = false.
Proof.
  intros Hin [Hi Hf]%not_elem_of_app. unfold fill_cell.
  case_bool_decide; [done|]. case_bool_decide; [done|]. intros [= <-].
  destruct (isna c) eqn:Hna; [|done].
  assert (Forall (fun kv : string * cell => isna kv.2 = false) fill_defaults)
    as Hd by (repeat constructor).
  rewrite Forall_forall in Hd. exact (Hd _ Hin).
Qed.

Lemma fill_all_typed (df df' : DataFrame) (r' : gmap string cell) :
  fill_all fill_defaults df = Done df' -> r' ∈ rows df' ->
  (forall c, c ∈ int_columns -> has_column c df = true ->
     exists z, r' !! c = Some (CInt z))
  /\ (forall c, c ∈ float_columns -> has_column c df = true ->
        exists f, r' !! c = Some (CFloat f))
  /\ (forall c d, (c, d) ∈ fill_defaults ->
        c ∉ int_columns ++ float_columns -> has_column c df = true ->
        isna (cell_of c r') = false)
  /\ exists r, r ∈ rows df
       /\ forall c, c ∉ fill_defaults.*1 -> r' !! c = r !! c.
Proof.
  intros Hfill [i Hi]%list_elem_of_lookup_1.
  apply fill_all_spec in Hfill as [_ Hrows]; [|apply fill_defaults_NoDup].
  destruct (Forall2_lookup_r _ _ _ _ _ Hrows Hi) as (r & Hr & Hf & Hk).
  split_and!.
  - intros c Hc Hcol.
    assert (exists d, (c, d) ∈ fill_defaults) as [d Hd].
    { unfold int_columns in Hc. unfold fill_defaults.
      repeat (apply elem_of_cons in Hc as [->|Hc];
              [eexists; in_literals|]).
      by apply elem_of_nil in Hc. }
    destruct (fill_cell_int _ _ _ _ Hc (Hf _ _ Hd Hcol)) as [z Hz].
    exists z. by apply cell_of_Some.
  - intros c Hc Hcol.
    assert (exists d, (c, d) ∈ fill_defaults) as [d Hd].
    { unfold float_columns in Hc. unfold fill_defaults.
      repeat (apply elem_of_cons in Hc as [->|Hc];
              [eexists; in_literals|]).
      by apply elem_of_nil in Hc. }
    destruct (fill_cell_float _ _ _ _ Hc (Hf _ _ Hd Hcol)) as [f Hf'].
    exists f. by apply cell_of_Some.
  - intros c d Hd Hc Hcol.
    eapply fill_cell_text; [exact Hd|exact Hc|]. by apply Hf.
  - exists r. split; [by eapply list_elem_of_lookup_2|done].
Qed.

Lemma final_types_id (df : DataFrame) :
  (forall c, c ∈ int_columns ++ float_columns ++ ["Duration (sec)"] ->
     has_column c df = true) ->
  (forall r c, r ∈ rows df -> c ∈ int_columns ++ ["Duration (sec)"] ->
     exists z, r !! c = Some (CInt z)) ->
  (forall r c, r ∈ rows df -> c ∈ float_columns ->
     exists f, r !! c = Some (CFloat f)) ->
  final_types df = Done df.
Proof.
  intros Hcols Hint Hfloat. unfold final_types.
  repeat (rewrite cast_column_id;
          [cbn [obind]
          |apply Hcols; unfold int_columns, float_columns; simpl;
           in_literals
          |intros r' Hr';
           match goal with
           | |- exists v, r' !! ?c = Some v /\ _ =>
               first [destruct (Hint r' c Hr') as [z Hz];
                      [unfold int_columns; simpl; in_literals|];
                      by exists (CInt z)
                     |destruct (Hfloat r' c Hr') as [f Hf];
                      [unfold float_columns; in_literals|];
                      by exists (CFloat f)]
           end]).
  reflexivity.
Qed.

(** X13 (lines 198-216).  After the defaulting pass every cell of Set
    Order, Reps and Seconds is an integer, every cell of Weight (kg) and
    Distance (meters) is a float, and no cell of Workout Name, Notes,
    Workout Notes and RPE is missing.  So the casts of lines 211-216, run
    on a table that has the six columns and whose Duration (sec) holds the
    integers of line 113, change nothing and cannot raise. *)
Theorem final_casts_change_nothing (df df' : DataFrame) :
  fill_all fill_defaults df = Done df' ->
  (forall c, c ∈ int_columns ++ float_columns ++ ["Duration (sec)"] ->
     has_column c df = true) ->
  (forall r, r ∈ rows df -> exists z, r !! "Duration (sec)" = Some (CInt z)) ->
  final_types df' = Done df'
  /\ forall r', r' ∈ rows df' ->
       (forall c, c ∈ int_columns -> exists z, r' !! c = Some (CInt z))
       /\ (forall c, c ∈ float_columns -> exists f, r' !! c = Some (CFloat f))
       /\ (forall c d, (c, d) ∈ fill_defaults ->
             c ∉ int_columns ++ float_columns -> has_column c df = true ->
             isna (cell_of c r') = false).
Proof.
  intros Hfill Hcols Hdur.
  assert (forall c, c ∈ int_columns ++ float_columns ++ ["Duration (sec)"] ->
            has_column c df' = true) as Hcols'.
  { intros c Hc.
    pose proof Hfill as [Hsame _]%fill_all_spec; [|apply fill_defaults_NoDup].
    rewrite (has_column_columns c _ _ Hsame). by apply Hcols. }
  split.
  - apply final_types_id; [exact Hcols'|..].
    + intros r' c Hr' [Hc|Hc]%elem_of_app.
      * destruct (fill_all_typed _ _ _ Hfill Hr') as (Hint & _).
        apply Hint; [done|]. apply Hcols, elem_of_app. by left.
      * apply list_elem_of_singleton in Hc as ->.
        destruct (fill_all_typed _ _ _ Hfill Hr') as (_ & _ & _ & r & Hr & Hk).
        destruct (Hdur r Hr) as [z Hz]. exists z. rewrite Hk; [done|].
        intros Hin. cbn in Hin. not_in_literals Hin.
    + intros r' c Hr' Hc.
      destruct (fill_all_typed _ _ _ Hfill Hr') as (_ & Hfloat & _).
      apply Hfloat; [done|]. apply Hcols, elem_of_app. right.
      apply elem_of_app. by left.
  - intros r' Hr'.
    destruct (fill_all_typed _ _ _ Hfill Hr') as (Hint & Hfloat & Htext & _).
    split_and!.
    + intros c Hc. apply Hint; [done|]. apply Hcols, elem_of_app. by left.
    + intros c Hc. apply Hfloat; [done|]. apply Hcols, elem_of_app. right.
      apply elem_of_app. by left.
    + exact Htext.
Qed.

(** ** Which row ends the run *)




(** ** An input without a row that parses *)

(** X15 (lines 84-103).  An input that has the essential columns but no row
    whose date and time parse, which includes an input without rows, does
    not give an empty output: the run ends in the handler of line 101,
    whatever the header and the dictionary. *)
Theorem run_without_parsed_rows_aborts (gymrun_df : DataFrame)
    (strong_headers : list string) (initial_mapping : list (pyobj * pyobj)) :
  missing_from essential_cols gymrun_df = [] ->
  date_time_text gymrun_df = true ->
  rows (keep_parsed gymrun_df) = [] ->
  convert_gymrun_to_strong gymrun_df strong_headers initial_mapping
  = Failed DateTimeProcessingError.
Proof.
  intros Hess Htext Hnil. unfold convert_gymrun_to_strong.
  rewrite check_columns_spec, Hess. cbn [obind].
  by rewrite (no_parseable_row_aborts _ Htext Hnil).
Qed.

(** ** Running the defaulting pass twice *)

Lemma fill_cell_typed col d v :
  (col ∈ int_columns -> exists z, v = CInt z) ->
  (col ∈ float_columns -> exists f, v = CFloat f) ->
  isna v = false ->
  fill_cell col d v = Done v.
Proof.
  intros Hint Hfloat Hna. unfold fill_cell.
  case_bool_decide as Hi.
  { destruct (Hint Hi) as [z ->]. done. }
  case_bool_decide as Hf.
  { destruct (Hfloat Hf) as [f ->]. unfold to_numeric. by rewrite Hna. }
  by rewrite Hna.
Qed.

Lemma fill_column_id col d df :
  (has_column col df = true ->
   forall r, r ∈ rows df ->
     exists v, r !! col = Some v /\ fill_cell col d v = Done v) ->
  fill_column col d df = Done df.
Proof.
  intros Hrows. unfold fill_column, try_set_column.
  destruct (has_column col df) eqn:Hcol; [|done].
  rewrite (try_map_ext _ (fun r => Done (id r))).
  - rewrite try_map_pure, list_fmap_id. simpl. by destruct df.
  - intros r Hr. destruct (Hrows eq_refl r Hr) as (v & Hv & Hfill).
    unfold cell_of. rewrite Hv. simpl. rewrite Hfill. simpl.
    by rewrite insert_id.
Qed.

Lemma fill_all_id defaults df :
  (forall col d, (col, d) ∈ defaults -> has_column col df = true ->
     forall r, r ∈ rows df ->
       exists v, r !! col = Some v /\ fill_cell col d v = Done v) ->
  fill_all defaults df = Done df.
Proof.
  induction defaults as [|[col d] l IH]; simpl; [done|]. intros H.
  rewrite fill_column_id; simpl.
  - apply IH. intros col' d' Hin. apply H. by right.
  - apply H. by left.
Qed.

Lemma fill_all_row df df' r' :
  fill_all fill_defaults df = Done df' -> r' ∈ rows df' ->
  exists r,
    r ∈ rows df
    /\ forall col d, (col, d) ∈ fill_defaults -> has_column col df = true ->
         fill_cell col d (cell_of col r) = Done (cell_of col r').
Proof.
  intros [_ Hrows]%fill_all_spec [i Hi]%list_elem_of_lookup_1;
    [|apply fill_defaults_NoDup].
  destruct (Forall2_lookup_r _ _ _ _ _ Hrows Hi) as (r & Hr & H1 & _).
  exists r. split; [by eapply list_elem_of_lookup_2|done].
Qed.

(** X16 (lines 186-207).  The defaulting pass settles in one go: run again
    on its own result it changes nothing, provided the float columns of
    the result hold no NaN (a NaN there would be replaced by the default
    the second time). *)
Theorem defaulting_pass_is_idempotent (df df' : DataFrame) :
  fill_all fill_defaults df = Done df' ->
  (forall r' c, r' ∈ rows df' -> c ∈ float_columns ->
     isna (cell_of c r') = false) ->
  fill_all fill_defaults df' = Done df'.
Proof.
  intros Hfill Hnan. apply fill_all_id. intros col d Hd Hcol r' Hr'.
  destruct (fill_all_row _ _ _ Hfill Hr') as (r & _ & Hf).
  assert (has_column col df = true) as Hcol0.
  { apply fill_all_spec in Hfill as [Hsame _]; [|apply fill_defaults_NoDup].
    by rewrite <- (has_column_columns col _ _ Hsame). }
  specialize (Hf col d Hd Hcol0).
  assert (isna (cell_of col r') = false) as Hna.
  { destruct (decide (col ∈ int_columns)) as [Hi|Hi].
    { by destruct (fill_cell_int _ _ _ _ Hi Hf) as [z ->]. }
    destruct (decide (col ∈ float_columns)) as [Hfl|Hfl]; [by apply Hnan|].
    eapply fill_cell_text; [exact Hd| |exact Hf].
    by apply not_elem_of_app. }
  exists (cell_of col r'). split.
  - apply cell_of_Some; [done|]. intros Heq. by rewrite Heq in Hna.
  - apply fill_cell_typed; [| |done].
    + intros Hi. by eapply fill_cell_int.
    + intros Hfl. by eapply fill_cell_float.
Qed.

(** ** Conditions on a table, checked cell by cell *)

Lemma has_columns_check (cols : list string) (df : DataFrame) :
  forallb (fun c => has_column c df) cols = true ->
  forall c, c ∈ cols -> has_column c df = true.
Proof.
  intros H c Hc. rewrite forallb_forall in H.
  by apply H, list_elem_of_In.
Qed.

Lemma duration_cells_check (df : DataFrame) :
  forallb (fun r => match r !! "Duration (sec)" with
                    | Some (CInt _) => true
                    | _ => false
                    end) (rows df) = true ->
  forall r, r ∈ rows df -> exists z, r !! "Duration (sec)" = Some (CInt z).
Proof.
  intros H r Hr. rewrite forallb_forall in H.
  specialize (H r (proj1 (list_elem_of_In _ _) Hr)).
  destruct (r !! "Duration (sec)") as [[]|]; try done. eauto.
Qed.

Lemma float_cells_check (df : DataFrame) :
  forallb (fun r => forallb (fun c => negb (isna (cell_of c r)))
                      float_columns) (rows df) = true ->
  forall r c, r ∈ rows df -> c ∈ float_columns -> isna (cell_of c r) = false.
Proof.
  intros H r c Hr Hc. rewrite forallb_forall in H.
  specialize (H r (proj1 (list_elem_of_In _ _) Hr)).
  rewrite forallb_forall in H.
  specialize (H c (proj1 (list_elem_of_In _ _) Hc)).
  by apply negb_true_iff in H.
Qed.

(** ** When the run reaches the end *)

Lemma parse_timestamps_total df :
  zone_ok norway_tz = true -> date_time_text df = true ->
  Forall (fun r => forall dt, parsed r = Some dt -> regular norway_tz dt)
         (rows df) ->
  rows (keep_parsed df) <> [] ->
  exists df', parse_timestamps df = Done df'.
Proof.
  intros Hok Htext Hreg Hne.
  unfold parse_timestamps. rewrite (parse_naive_text df Htext). simpl.
  apply localize_to_utc_total; [done|..]; simpl.
  - intros Hnil. apply fmap_nil_inv in Hnil. done.
  - intros r1 (r & -> & Hr)%list_elem_of_fmap.
    apply list_elem_of_filter in Hr as [[dt Hdt] Hr].
    exists dt. rewrite cell_of_insert, Hdt. split; [done|].
    rewrite Forall_forall in Hreg. by apply (Hreg r).
Qed.

Lemma process_cardio_total df :
  durations_castable df -> exists df', process_cardio df = Done df'.
Proof.
  intros Hcast. unfold durations_castable in Hcast. unfold process_cardio.
  set (df1 := set_column "Seconds" _ df).
  set (df2 := set_column "Distance (meters)" _ df1).
  assert (has_column "Duration" df2 = has_column "Duration" df) as HDur.
  { unfold df2, df1. by rewrite !has_column_set_column_ne. }
  rewrite HDur. destruct (has_column "Duration" df) eqn:Hd; [|by eexists].
  destruct (try_set_column_total "Seconds"
              (fun r => seconds_of_duration (cell_of "Duration" r)) df2)
    as [df3 ->]; [|by eexists].
  intros r2 (r1 & -> & (r & -> & Hr)%list_elem_of_fmap)%list_elem_of_fmap.
  specialize (Hcast eq_refl). rewrite Forall_forall in Hcast.
  specialize (Hcast r Hr). unfold seconds_of_duration. cell_simpl.
  destruct (cast_defined_Some _ Hcast) as [s ->]. eauto.
Qed.

Lemma process_cardio_seconds df df' r' :
  process_cardio df = Done df' -> r' ∈ rows df' ->
  exists s, r' !! "Seconds" = Some (CInt s).
Proof.
  unfold process_cardio.
  set (df1 := set_column "Seconds" _ df).
  set (df2 := set_column "Distance (meters)" _ df1).
  intros (df3 & H3 & [= <-])%obind_Done Hr'.
  assert (forall r3, r3 ∈ rows df3 -> exists s, r3 !! "Seconds" = Some (CInt s))
    as Hs3.
  { destruct (has_column "Duration" df2).
    - intros r3 [i Hi]%list_elem_of_lookup_1.
      apply try_set_column_Done in H3 as [_ H3].
      destruct (Forall2_lookup_r _ _ _ _ _ H3 Hi) as (r2 & _ & v & Hv & ->).
      unfold seconds_of_duration in Hv.
      destruct (num_astype_int _); [|done]. injection Hv as <-.
      rewrite lookup_insert_eq. eauto.
    - injection H3 as <-.
      intros r2 (r1 & -> & (r & -> & _)%list_elem_of_fmap)%list_elem_of_fmap.
      rewrite lookup_insert_ne by done. rewrite lookup_insert_eq. eauto. }
  destruct (has_column "Distance" df3); [|by apply Hs3].
  apply list_elem_of_fmap in Hr' as (r3 & -> & Hr3).
  rewrite lookup_insert_ne by done. by apply Hs3.
Qed.

Lemma has_column_try_set_column_ne c c' f df df' :
  try_set_column c' f df = Done df' -> c <> c' ->
  has_column c df' = has_column c df.
Proof.
  intros [Hc _]%try_set_column_Done Hne. unfold has_column at 1. rewrite Hc.
  destruct (has_column c' df); [done|]. apply bool_decide_ext.
  rewrite elem_of_app, list_elem_of_singleton. split; [|by left].
  by intros [?|?].
Qed.

Lemma parse_timestamps_has_column c df df1 :
  parse_timestamps df = Done df1 ->
  c ∉ ["NaiveTimestamp"; "LocalizedTimestamp"; "Timestamp"] ->
  has_column c df1 = has_column c df.
Proof.
  intros H Hc. unfold parse_timestamps, parse_naive in H.
  apply obind_Done in H as (dfn & Hn & H).
  apply obind_Done in Hn as (df0 & H0 & [= <-]).
  unfold localize_to_utc in H. apply obind_Done in H as (df2 & H2 & H).
  destruct (rows df2); [done|]. injection H as <-.
  rewrite has_column_set_column_ne
    by (intros ->; apply Hc; repeat (first [by left | right])).
  rewrite (has_column_try_set_column_ne _ _ _ _ _ H2)
    by (intros ->; apply Hc; repeat (first [by left | right])).
  change (has_column c (dropna "NaiveTimestamp" df0)) with (has_column c df0).
  apply (has_column_try_set_column_ne _ _ _ _ _ H0).
  intros ->. apply Hc. repeat (first [by left | right]).
Qed.

Lemma parse_timestamps_keeps (P : string -> Prop) df df1 :
  (forall c, P c ->
     c ∉ ["NaiveTimestamp"; "LocalizedTimestamp"; "Timestamp"]) ->
  parse_timestamps df = Done df1 ->
  Forall2 (keeps P) (rows (keep_parsed df)) (rows df1).
Proof.
  intros HP [_ H]%parse_timestamps_Done. eapply Forall2_impl; [exact H|].
  intros r r' (dt & u & off & _ & _ & ->) c Hc%HP.
  unfold with_timestamps. rewrite !lookup_insert_ne; [done|..];
    intros <-; apply Hc; repeat (first [by left | right]).
Qed.

Lemma group_workouts_keeps (P : string -> Prop) df :
  (forall c, P c ->
     c ∉ ["WorkoutUTCDate"; "WorkoutStartTimeUTC"; "WorkoutEndTimeUTC";
          "Duration (sec)"; "Workout #"; "Date"]) ->
  Forall2 (keeps P) (rows df) (rows (group_workouts df))
  /\ forall c, P c -> has_column c (group_workouts df) = has_column c df.
Proof.
  intros HP. unfold group_workouts. cbv zeta. split.
  - repeat (eapply keeps_rows_trans;
            [|apply keeps_set_column; intros Hc%HP; apply Hc;
              repeat (first [by left | right])]).
    apply keeps_rows_refl.
  - intros c Hc%HP. rewrite !has_column_set_column_ne; [done|..];
      intros ->; apply Hc; repeat (first [by left | right]).
Qed.

Lemma keeps_images (P : string -> Prop) rs rs' r' :
  Forall2 (keeps P) rs rs' -> r' ∈ rs' -> exists r, r ∈ rs /\ keeps P r r'.
Proof.
  intros H [i Hi]%list_elem_of_lookup_1.
  destruct (Forall2_lookup_r _ _ _ _ _ H Hi) as (r & Hr & Hk).
  exists r. split; [by eapply list_elem_of_lookup_2|done].
Qed.

Lemma sort_values_elem_of df r : r ∈ rows (sort_values df) <-> r ∈ rows df.
Proof. simpl. by rewrite merge_sort_Permutation. Qed.

Lemma group_row_origin (P : string -> Prop) df df1 rg :
  (forall c, P c ->
     c ∉ ["NaiveTimestamp"; "LocalizedTimestamp"; "Timestamp";
          "WorkoutUTCDate"; "WorkoutStartTimeUTC"; "WorkoutEndTimeUTC";
          "Duration (sec)"; "Workout #"; "Date"]) ->
  parse_timestamps df = Done df1 ->
  rg ∈ rows (group_workouts (sort_values df1)) ->
  exists r, r ∈ rows (keep_parsed df) /\ keeps P r rg.
Proof.
  intros HP H1 Hrg.
  destruct (group_workouts_keeps P (sort_values df1)) as [Kg _].
  { intros c Hc%HP Hin. apply Hc. sublist_of Hin. }
  destruct (keeps_images _ _ _ _ Kg Hrg) as (rs & Hrs & Ks).
  apply (proj1 (sort_values_elem_of _ _)) in Hrs.
  assert (Forall2 (keeps P) (rows (keep_parsed df)) (rows df1)) as Kp.
  { apply parse_timestamps_keeps; [|done].
    intros c Hc%HP Hin. apply Hc. sublist_of Hin. }
  destruct (keeps_images _ _ _ _ Kp Hrs) as (r & Hr & Kr).
  exists r. split; [done|]. intros c Hc. by rewrite Ks, Kr.
Qed.

Lemma process_cardio_columns df df' :
  process_cardio df = Done df' ->
  has_column "Seconds" df' = true /\ has_column "Distance (meters)" df' = true.
Proof.
  unfold process_cardio.
  set (df1 := set_column "Seconds" _ df).
  set (df2 := set_column "Distance (meters)" _ df1).
  intros (df3 & H3 & [= <-])%obind_Done.
  assert (forall c, has_column c df2 = true -> has_column c df3 = true) as C3.
  { destruct (has_column "Duration" df2).
    - intros c. by eapply has_column_try_set_column_mono.
    - by injection H3 as <-. }
  assert (has_column "Seconds" df3 = true
          /\ has_column "Distance (meters)" df3 = true) as [Hs Hd].
  { split; apply C3.
    - apply has_column_set_column_mono, has_column_set_column.
    - apply has_column_set_column. }
  destruct (has_column "Distance" df3); [|done].
  split; by apply has_column_set_column_mono.
Qed.

Lemma rectangular_spec df r c :
  rectangular df = true -> r ∈ rows df -> has_column c df = true ->
  is_Some (r !! c).
Proof.
  intros H Hr Hc%bool_decide_eq_true_1. unfold rectangular in H.
  rewrite forallb_forall in H.
  specialize (H r (proj1 (list_elem_of_In _ _) Hr)).
  rewrite forallb_forall in H.
  specialize (H c (proj1 (list_elem_of_In _ _) Hc)).
  by apply bool_decide_eq_true_1 in H.
Qed.

(** The rows and columns that reach the defaulting pass. *)
Lemma before_fill df df1 df2 hs m :
  missing_from essential_cols df = [] -> rectangular df = true ->
  parse_timestamps df = Done df1 ->
  process_cardio (group_workouts (sort_values df1)) = Done df2 ->
  (forall c, c ∈ int_columns ++ float_columns ++ ["Duration (sec)"] ->
     has_column c
       (add_missing_columns hs
          (apply_exercise_mappings (rename_columns rename_map df2) m
             "Exercise Name")) = true)
  /\ forall ra,
       ra ∈ rows (add_missing_columns hs
                    (apply_exercise_mappings (rename_columns rename_map df2)
                       m "Exercise Name")) ->
       exists r,
         r ∈ rows (keep_parsed df)
         /\ cell_of "Set Order" ra = cell_of "Set" r
         /\ cell_of "Reps" ra = cell_of "Reps" r
         /\ (exists s, ra !! "Seconds" = Some (CInt s))
         /\ exists z, ra !! "Duration (sec)" = Some (CInt z).
Proof.
  intros Hess Hrect H1 H2.
  set (dfg := group_workouts (sort_values df1)) in *.
  set (dfr := rename_columns rename_map df2).
  set (dfm := apply_exercise_mappings dfr m "Exercise Name").
  destruct rename_map_NoDup as (Hnd1 & Hnd2 & Hdis).
  pose proof (proj1 (missing_from_nil _ _) Hess) as Hcols.
  set (P := fun c => c ∈ ["Set"; "Reps"; "Weight"; "Duration (sec)"]).
  set (Q := fun c => c ∈ ["Set Order"; "Reps"; "Weight (kg)"; "Seconds";
                          "Distance (meters)"; "Duration (sec)"]).
  (* the columns *)
  assert (forall c, c ∈ ["Set"; "Reps"; "Weight"] ->
            has_column c dfg = true) as Cg.
  { intros c Hc.
    destruct (group_workouts_keeps (fun c => c ∈ ["Set"; "Reps"; "Weight"])
                (sort_values df1)) as [_ Cgw].
    { intros c' Hc' Hin.
      repeat (apply elem_of_cons in Hc' as [->|Hc'];
              [not_in_literals Hin|]).
      by apply elem_of_nil in Hc'. }
    unfold dfg. rewrite Cgw by done.
    change (has_column c (sort_values df1)) with (has_column c df1).
    rewrite (parse_timestamps_has_column c _ _ H1).
    - apply Hcols. unfold essential_cols. sublist_of Hc.
    - intros Hin.
      repeat (apply elem_of_cons in Hc as [->|Hc]; [not_in_literals Hin|]).
      by apply elem_of_nil in Hc. }
  destruct (process_cardio_keeps P dfg df2) as [K2 C2];
    [intros Hin; unfold P in Hin; not_in_literals Hin..|done|].
  destruct (process_cardio_columns _ _ H2) as [Csec Cdist].
  assert (forall c, P c -> has_column c df2 = true) as C2'.
  { intros c Hc. apply C2. unfold P in Hc.
    apply elem_of_cons in Hc as [->|Hc];
      [apply Cg; repeat (first [by left | right])|].
    apply elem_of_cons in Hc as [->|Hc];
      [apply Cg; repeat (first [by left | right])|].
    apply elem_of_cons in Hc as [->|Hc];
      [apply Cg; repeat (first [by left | right])|].
    apply elem_of_cons in Hc as [->|Hc]; [|by apply elem_of_nil in Hc].
    apply group_workouts_has_column. repeat (first [by left | right]). }
  assert (forall old new, (old, new) ∈ rename_map ->
            has_column old df2 = true -> has_column new dfr = true) as Cren.
  { intros old new Hin Hc%bool_decide_eq_true_1.
    apply bool_decide_eq_true_2. simpl.
    rewrite <- (rename_label_source _ _ _ Hnd1 Hin).
    by apply list_elem_of_fmap_2. }
  assert (forall c, c ∉ rename_map.*1 -> has_column c df2 = true ->
            has_column c dfr = true) as Ckeep.
  { intros c Hc. by apply (rename_columns_keeps (fun _ => False)). }
  assert (forall c, Q c -> has_column c dfm = true) as Cm.
  { intros c Hc.
    destruct (apply_exercise_mappings_keeps (fun _ => False) dfr m
                "Exercise Name") as [_ Cap]; [by intros []|].
    unfold dfm. rewrite Cap.
    unfold Q in Hc.
    apply elem_of_cons in Hc as [->|Hc].
    { apply (Cren "Set"); [unfold rename_map; repeat (first [by left | right])|].
      apply C2'. unfold P. repeat (first [by left | right]). }
    apply elem_of_cons in Hc as [->|Hc].
    { apply Ckeep; [intros Hin; cbn in Hin; not_in_literals Hin|].
      apply C2'. unfold P. repeat (first [by left | right]). }
    apply elem_of_cons in Hc as [->|Hc].
    { apply (Cren "Weight");
        [unfold rename_map; repeat (first [by left | right])|].
      apply C2'. unfold P. repeat (first [by left | right]). }
    apply elem_of_cons in Hc as [->|Hc].
    { apply Ckeep; [intros Hin; cbn in Hin; not_in_literals Hin|done]. }
    apply elem_of_cons in Hc as [->|Hc].
    { apply Ckeep; [intros Hin; cbn in Hin; not_in_literals Hin|done]. }
    apply elem_of_cons in Hc as [->|Hc]; [|by apply elem_of_nil in Hc].
    apply Ckeep; [intros Hin; cbn in Hin; not_in_literals Hin|].
    apply C2'. unfold P. repeat (first [by left | right]). }
  destruct (add_missing_columns_spec hs dfm) as (G & HG & Hcol & Hkeep & _).
  split.
  { intros c Hc. rewrite Hcol, Cm; [done|]. unfold Q.
    unfold int_columns, float_columns in Hc. simpl in Hc. sublist_of Hc. }
  (* the rows *)
  intros ra Hra. rewrite HG in Hra.
  apply list_elem_of_fmap in Hra as (rm & -> & Hrm).
  destruct (apply_exercise_mappings_keeps Q dfr m "Exercise Name")
    as [Km _]; [intros Hin; unfold Q in Hin; not_in_literals Hin|].
  destruct (keeps_images _ _ _ _ Km Hrm) as (rr & Hrr & Kmr).
  apply list_elem_of_fmap in Hrr as (r2 & -> & Hr2).
  destruct (keeps_images _ _ _ _ K2 Hr2) as (rg & Hrg & K2r).
  destruct (group_row_origin (fun c => c ∈ ["Set"; "Reps"]) df df1 rg)
    as (r & Hr & Kr); [|done..|].
  { intros c Hc Hin.
    repeat (apply elem_of_cons in Hc as [->|Hc]; [not_in_literals Hin|]).
    by apply elem_of_nil in Hc. }
  assert (forall c, Q c -> G rm !! c = rename_row rename_map r2 !! c) as Hfin.
  { intros c Hc. rewrite Hkeep by (by apply Cm). by apply Kmr. }
  assert (forall c, c ∈ ["Set"; "Reps"] -> r2 !! c = r !! c) as Hin2.
  { intros c Hc. rewrite K2r, Kr; [done..|]. unfold P. sublist_of Hc. }
  exists r. split; [done|]. split_and!.
  - assert (is_Some (r !! "Set")) as [v Hv].
    { apply (rectangular_spec df); [done| |].
      - by apply list_elem_of_filter in Hr as [_ ?].
      - apply Hcols. unfold essential_cols. repeat (first [by left | right]). }
    unfold cell_of. rewrite Hfin by (unfold Q; repeat (first [by left | right])).
    rewrite (rename_row_target rename_map r2 "Set" "Set Order" v);
      [by rewrite Hv|done..| |].
    + unfold rename_map. repeat (first [by left | right]).
    + rewrite Hin2; [done|]. repeat (first [by left | right]).
  - unfold cell_of. rewrite Hfin by (unfold Q; repeat (first [by left | right])).
    rewrite rename_row_other, Hin2; [done|..].
    + repeat (first [by left | right]).
    + intros Hin. cbn in Hin. not_in_literals Hin.
    + intros Hin. cbn in Hin. not_in_literals Hin.
  - destruct (process_cardio_seconds _ _ _ H2 Hr2) as [s Hs].
    exists s. rewrite Hfin by (unfold Q; repeat (first [by left | right])).
    rewrite rename_row_other; [done|..];
      intros Hin; cbn in Hin; not_in_literals Hin.
  - apply list_elem_of_lookup_1 in Hrg as [i Hi].
    destruct (group_workouts_lookup _ _ _ Hi)
      as (r0 & _ & _ & _ & _ & _ & Hdur & _).
    apply cell_of_Some in Hdur; [|done].
    eexists. rewrite Hfin by (unfold Q; repeat (first [by left | right])).
    rewrite rename_row_other, K2r; [exact Hdur|..].
    + unfold P. repeat (first [by left | right]).
    + intros Hin. cbn in Hin. not_in_literals Hin.
    + intros Hin. cbn in Hin. not_in_literals Hin.
Qed.

Lemma convert_steps df hs m df1 df2 df3 df4 out :
  check_columns df = Done tt ->
  parse_timestamps df = Done df1 ->
  process_cardio (group_workouts (sort_values df1)) = Done df2 ->
  fill_all fill_defaults
    (add_missing_columns hs
       (apply_exercise_mappings (rename_columns rename_map df2) m
          "Exercise Name")) = Done df3 ->
  final_types df3 = Done df4 ->
  select_final hs df4 = Done out ->
  convert_gymrun_to_strong df hs m = Done out.
Proof.
  intros H0 H1 H2 H3 H4 H5. unfold convert_gymrun_to_strong.
  rewrite H0. cbn [obind]. rewrite H1. cbn [obind]. rewrite H2. cbn [obind].
  rewrite H3. cbn [obind]. rewrite H4. cbn [obind]. exact H5.
Qed.

(** X18 (the whole of [convert_gymrun_to_strong]).  The run reaches the end
    and hands a table to [to_csv] whenever the input has the six essential
    columns with a cell in every row, text in Date and Time, at least one
    row that parses, no parsed time on a daylight-saving boundary, and in
    the rows that parse no Duration, Set or Reps that [astype(int)] rejects
    (a number that is infinite, for Duration once taken times 60): none of
    the later steps can stop it, whatever the Strong header and the
    dictionary are. *)
Theorem run_reaches_the_end (gymrun_df : DataFrame)
    (strong_headers : list string) (initial_mapping : list (pyobj * pyobj)) :
  zone_ok norway_tz = true ->
  missing_from essential_cols gymrun_df = [] ->
  rectangular gymrun_df = true ->
  date_time_text gymrun_df = true ->
  rows (keep_parsed gymrun_df) <> [] ->
  Forall (fun r => forall dt, parsed r = Some dt -> regular norway_tz dt)
         (rows gymrun_df) ->
  forallb (castable_row (has_column "Duration" gymrun_df))
          (rows (keep_parsed gymrun_df)) = true ->
  exists out,
    convert_gymrun_to_strong gymrun_df strong_headers initial_mapping
    = Done out.
Proof.
  intros Hok Hess Hrect Htext Hne Hreg Hcast.
  assert (forall r, r ∈ rows (keep_parsed gymrun_df) ->
            castable_row (has_column "Duration" gymrun_df) r = true)
    as Hrow.
  { intros r Hr. rewrite forallb_forall in Hcast.
    by apply Hcast, list_elem_of_In. }
  assert (check_columns gymrun_df = Done tt) as H0.
  { by rewrite check_columns_spec, Hess. }
  destruct (parse_timestamps_total _ Hok Htext Hreg Hne) as [df1 H1].
  set (dfg := group_workouts (sort_values df1)).
  assert (durations_castable dfg) as Hdur.
  { intros Hd. apply Forall_forall. intros rg Hrg.
    destruct (group_row_origin (fun c => c = "Duration") _ _ rg
                ltac:(intros c -> Hin; not_in_literals Hin) H1 Hrg)
      as (r & Hr & Kr).
    unfold cell_of. rewrite (Kr "Duration" eq_refl).
    specialize (Hrow r Hr). unfold castable_row in Hrow.
    rewrite !andb_true_iff, orb_true_iff in Hrow.
    destruct Hrow as [[[Hno|Hc] _] _]; [|exact Hc]. exfalso.
    destruct (group_workouts_keeps (fun c => c = "Duration")
                (sort_values df1)) as [_ Cg].
    { intros c -> Hin. not_in_literals Hin. }
    unfold dfg in Hd. rewrite Cg in Hd by done.
    change (has_column "Duration" (sort_values df1))
      with (has_column "Duration" df1) in Hd.
    rewrite (parse_timestamps_has_column _ _ _ H1) in Hd.
    - rewrite Hd in Hno. done.
    - intros Hin. not_in_literals Hin. }
  destruct (process_cardio_total _ Hdur) as [df2 H2].
  destruct (before_fill _ _ _ strong_headers initial_mapping Hess Hrect H1 H2)
    as [Hcols Hrows].
  set (dfa := add_missing_columns strong_headers _) in *.
  destruct (fill_all_total fill_defaults dfa fill_defaults_NoDup)
    as [df3 H3].
  { intros col d Hd Hcol ra Hra.
    destruct (Hrows ra Hra) as (r & Hr & Hset & Hreps & [s Hs] & _).
    specialize (Hrow r Hr). unfold castable_row in Hrow.
    rewrite !andb_true_iff in Hrow. destruct Hrow as [[_ Hcs] Hcr].
    unfold fill_cell. case_bool_decide as Hi; [|case_bool_decide; eauto].
    assert (cast_defined (fillna_num (default_num d)
                            (to_numeric (cell_of col ra))) = true) as Hc.
    { unfold fill_defaults in Hd.
      repeat (apply elem_of_cons in Hd as [[= -> ->]|Hd];
              [first [not_in_literals Hi
                     |by rewrite Hset
                     |by rewrite Hreps
                     |unfold cell_of; by rewrite Hs]|]).
      by apply elem_of_nil in Hd. }
    destruct (cast_defined_Some _ Hc) as [z ->]. eauto. }
  assert (final_types df3 = Done df3) as H4.
  { apply final_types_id.
    - intros c Hc.
      pose proof H3 as [Hsame _]%fill_all_spec; [|apply fill_defaults_NoDup].
      rewrite (has_column_columns c _ _ Hsame). by apply Hcols.
    - intros r3 c Hr3 [Hc|Hc]%elem_of_app.
      + destruct (fill_all_typed _ _ _ H3 Hr3) as (Hint & _).
        apply Hint; [done|]. apply Hcols, elem_of_app. by left.
      + apply list_elem_of_singleton in Hc as ->.
        destruct (fill_all_typed _ _ _ H3 Hr3) as (_ & _ & _ & ra & Hra & Hk).
        destruct (Hrows ra Hra) as (_ & _ & _ & _ & _ & z & Hz).
        exists z. rewrite Hk; [done|].
        intros Hin. cbn in Hin. not_in_literals Hin.
    - intros r3 c Hr3 Hc.
      destruct (fill_all_typed _ _ _ H3 Hr3) as (_ & Hfloat & _).
      apply Hfloat; [done|]. apply Hcols, elem_of_app. right.
      apply elem_of_app. by left. }
  destruct (select_final_after_completion _ _ _ _ H3 H4) as [out H5].
  exists out. by eapply convert_steps.
Qed.

End Converter.

(** ** The claims on the sample data *)

(** The whole conversion of the sample: the row in another date format is
    gone, the two winter sets are one workout from 11:00 UTC lasting 600
    seconds, the summer run is workout 2 with 300 seconds and 2500.0 m. *)
Example convert_sample :
  (fun d => (fun r => (fun c => cell_of c r) <$> strong_header) <$> rows d)
    <$> (match convert_gymrun_to_strong oslo_2024 plain_to_float
                 plain_float_to_str sample_gymrun strong_header
                 bench_mapping with
         | Done d => Some d
         | Failed _ => None
         end)
  = Some
      [[CStr "2024-01-15 11:00:00"; CStr "Workout"; CStr "Squat"; CInt 1;
        CFloat 100; CInt 5; CInt 0; CFloat 0; CStr ""; CStr ""; CStr "";
        CInt 1; CInt 600];
       [CStr "2024-01-15 11:00:00"; CStr "Workout"; CStr "Squat"; CInt 2;
        CFloat 100; CInt 5; CInt 0; CFloat 0; CStr ""; CStr ""; CStr "";
        CInt 1; CInt 600];
       [CStr "2024-07-15 10:00:00"; CStr "Workout"; CStr "Run"; CInt 1;
        CFloat 0; CInt 0; CInt 300; CFloat 2500; CStr ""; CStr ""; CStr "";
        CInt 2; CInt 0]].
Proof. vm_compute. reflexivity. Qed.

(** The sample table in the zone of 2024: its three parseable rows hold
    regular local times and get their UTC timestamps. *)
Lemma utc_timestamp_sample :
  zone_ok oslo_2024 = true
  /\ date_time_text sample_gymrun = true
  /\ rows (keep_parsed sample_gymrun) <> []
  /\ exists df',
       parse_timestamps oslo_2024 sample_gymrun = Done df'
       /\ Forall2 (fun r r' => exists dt inf,
                     parsed r = Some dt
                     /\ tzinfo_at oslo_2024 (dt - utcoffset inf) = Some inf
                     /\ (forall u, shows oslo_2024 u dt ->
                                   u = dt - utcoffset inf)
                     /\ cell_of "Timestamp" r'
                        = CAware (dt - utcoffset inf) 0
                     /\ (utcoffset inf = 3600 ->
                         cell_of "Timestamp" r' = CAware (dt - 3600) 0)
                     /\ (utcoffset inf = 7200 ->
                         cell_of "Timestamp" r' = CAware (dt - 7200) 0)
                     /\ r' = with_timestamps r dt (dt - utcoffset inf)
                               (utcoffset inf))
            (rows (keep_parsed sample_gymrun)) (rows df').
Proof.
  assert (rows (keep_parsed sample_gymrun) <> []) as Hne.
  { intros H%(f_equal length). revert H. vm_compute. discriminate. }
  split_and!; [vm_compute; reflexivity..|exact Hne|].
  apply (utc_timestamp_is_local_minus_offset oslo_2024 sample_gymrun);
    [vm_compute; reflexivity..| |exact Hne].
  apply all_regular_check. vm_compute. reflexivity.
Defined.

(** The local times of the sample and the timestamps they get: one hour
    earlier in January, two hours earlier in July. *)
Example winter_and_summer_offsets :
  (fun d => (fun r => (cell_of "NaiveTimestamp" r, cell_of "Timestamp" r))
            <$> rows d)
    <$> (match parse_timestamps oslo_2024 sample_gymrun with
         | Done d => Some d
         | Failed _ => None
         end)
  = Some [(CNaive 1705320600, CAware (1705320600 - 3600) 0);
          (CNaive 1705320000, CAware (1705320000 - 3600) 0);
          (CNaive 1721044800, CAware (1721044800 - 7200) 0)].
Proof. vm_compute. reflexivity. Qed.

(** C1 fails as the spec words it on a row of 1890.  Europe/Oslo is then on
    local mean time, 43 minutes ahead of UTC: noon of 1890-01-01 is a
    regular local time, the row is kept, and its timestamp is 11:17 UTC,
    neither one nor two hours before noon. *)
Lemma local_mean_time_row_is_43_minutes_off :
  zone_ok oslo_1894 = true
  /\ parsed <$> rows old_gymrun = [Some (-2524478400)]
  /\ regularb oslo_1894 (-2524478400) = true
  /\ (fun d => cell_of "Timestamp" <$> rows d)
       <$> (match parse_timestamps oslo_1894 old_gymrun with
            | Done d => Some d
            | Failed _ => None
            end)
     = Some [CAware (-2524478400 - 2580) 0]
  /\ -2524478400 - 2580 <> -2524478400 - 3600
  /\ -2524478400 - 2580 <> -2524478400 - 7200.
Proof. vm_compute. repeat split; discriminate. Qed.

(** 02:30 on 2024-10-27 happens twice in Oslo: the run ends with that
    local time. *)
Example fall_back_sample :
  convert_gymrun_to_strong oslo_2024 plain_to_float plain_float_to_str
    fall_back_gymrun strong_header []
  = Failed (AmbiguousTimeError 1729996200).
Proof. vm_compute. reflexivity. Qed.


(** C9 at a table whose dates are all in another format: the only row is
    dropped and the run, left without rows, ends in the handler of line
    101 instead of going on. *)
Lemma all_rows_unparseable_aborts :
  parsed <$> rows iso_dates_gymrun = [None]
  /\ convert_gymrun_to_strong oslo_2024 plain_to_float plain_float_to_str
       iso_dates_gymrun strong_header []
     = Failed DateTimeProcessingError.
Proof. split; vm_compute; reflexivity. Qed.

(** The sample has four rows of which three parse; converting it is
    converting those three. *)
Lemma unparseable_rows_sample :
  date_time_text sample_gymrun = true
  /\ length (rows sample_gymrun) = 4%nat
  /\ length (rows (keep_parsed sample_gymrun)) = 3%nat
  /\ convert_gymrun_to_strong oslo_2024 plain_to_float plain_float_to_str
       sample_gymrun strong_header bench_mapping
     = convert_gymrun_to_strong oslo_2024 plain_to_float plain_float_to_str
         (keep_parsed sample_gymrun) strong_header bench_mapping.
Proof.
  split_and!; [vm_compute; reflexivity..|].
  apply (unparseable_rows_are_dropped oslo_2024 plain_to_float
           plain_float_to_str sample_gymrun strong_header bench_mapping).
  vm_compute. reflexivity.
Defined.

(** The second row of the sorted sample sessions. *)
Lemma session_bounds_sample :
  exists r',
    rows (group_workouts (sort_values sample_sessions)) !! 1%nat = Some r'
    /\ session_start r' <= timestamp_of r' <= session_end r'
    /\ cell_of "Duration (sec)" r' = CInt (session_end r' - session_start r')
    /\ forall j r'',
         rows (group_workouts (sort_values sample_sessions)) !! j = Some r'' ->
         day_of r'' = day_of r' ->
         cell_of "WorkoutStartTimeUTC" r'' = cell_of "WorkoutStartTimeUTC" r'
         /\ cell_of "WorkoutEndTimeUTC" r'' = cell_of "WorkoutEndTimeUTC" r'
         /\ cell_of "Duration (sec)" r'' = cell_of "Duration (sec)" r'.
Proof.
  destruct (lookup_lt_is_Some_2
              (rows (group_workouts (sort_values sample_sessions))) 1%nat)
    as [r' Hr']; [vm_compute; lia|].
  exists r'. split; [exact Hr'|].
  exact (session_bounds_and_duration (sort_values sample_sessions) 1%nat r'
           Hr').
Defined.

(** Start, timestamp, end and duration of the sample sessions. *)
Example sessions_sample :
  (fun r => (session_start r, timestamp_of r, session_end r,
             cell_of "Duration (sec)" r))
    <$> rows (group_workouts (sort_values sample_sessions))
  = [(1705316400, 1705316400, 1705317000, CInt 600);
     (1705316400, 1705317000, 1705317000, CInt 600);
     (1721037600, 1721037600, 1721037600, CInt 0)].
Proof. vm_compute. reflexivity. Qed.

(** The two dates of the sample sessions are workouts 1 and 2. *)
Example workout_numbers_sample :
  (fun r => (timestamp_of r, cell_of "Workout #" r))
    <$> rows (group_workouts (sort_values sample_sessions))
  = [(1705316400, CInt 1); (1705317000, CInt 1); (1721037600, CInt 2)].
Proof. vm_compute. reflexivity. Qed.

(** Minutes to seconds and kilometres to metres on single cells. *)
Example five_minutes_are_300_seconds :
  seconds_of_duration plain_to_float (CInt 5) = Done (CInt 300)
  /\ seconds_of_duration plain_to_float (CFloat 5) = Done (CInt 300)
  /\ seconds_of_duration plain_to_float (CStr "5") = Done (CInt 300)
  /\ seconds_of_duration plain_to_float (CFloat 0) = Done (CInt 0)
  /\ seconds_of_duration plain_to_float CNaN = Done (CInt 0)
  /\ seconds_of_duration plain_to_float (CStr "five") = Done (CInt 0)
  /\ meters_of_distance plain_to_float (CFloat 2.5) = CFloat 2500
  /\ meters_of_distance plain_to_float (CStr "2.5") = CFloat 2500
  /\ meters_of_distance plain_to_float (CFloat 0) = CFloat 0
  /\ meters_of_distance plain_to_float CNaN = CFloat 0.
Proof. vm_compute. repeat split. Qed.

(** The cardio columns of the sample table: the summer run of 5 minutes
    over 2.5 km gets 300 seconds and 2500.0 metres, a set without duration
    and distance gets 0 and 0.0. *)
Lemma cardio_sample :
  durations_castable plain_to_float sample_gymrun
  /\ exists df' set run,
       process_cardio plain_to_float sample_gymrun = Done df'
       /\ rows df' !! 0%nat = Some set /\ rows df' !! 3%nat = Some run
       /\ cell_of "Seconds" set = CInt 0
       /\ cell_of "Distance (meters)" set = CFloat 0
       /\ cell_of "Seconds" run = CInt 300
       /\ cell_of "Distance (meters)" run = CFloat 2500.
Proof.
  assert (durations_castable plain_to_float sample_gymrun) as Hcast.
  { intros _. repeat (constructor; [vm_compute; reflexivity|]). constructor. }
  split; [exact Hcast|].
  destruct (cardio_unit_conversion plain_to_float sample_gymrun Hcast)
    as (df' & Hdf' & Hrows).
  destruct (Forall2_lookup_l _ _ _ 0%nat _ Hrows eq_refl)
    as (set & Hset & Hs0 & Hd0 & _).
  destruct (Forall2_lookup_l _ _ _ 3%nat _ Hrows eq_refl)
    as (run & Hrun & _ & _ & Hs3 & Hd3).
  exists df', set, run.
  split_and!; [exact Hdf'|exact Hset|exact Hrun|exact Hs0|exact Hd0| |].
  - apply Hs3; [vm_compute; reflexivity|]. right. vm_compute. reflexivity.
  - apply Hd3; vm_compute; reflexivity.
Defined.

(** The row without values after lines 170-207. *)
Example defaults_sample :
  (fun d => (fun r => (fun c => cell_of c r)
                        <$> ["Workout Name"; "Set Order"; "Weight (kg)";
                             "Reps"; "RPE"; "Notes"; "Seconds"])
            <$> rows d)
    <$> (match fill_all plain_to_float fill_defaults
                 (add_missing_columns strong_header sample_undefaulted) with
         | Done d => Some d
         | Failed _ => None
         end)
  = Some [[CStr "Workout"; CInt 1; CFloat 0; CInt 0; CStr ""; CStr "";
           CInt 0]].
Proof. vm_compute. reflexivity. Qed.


(** The Gymrun table itself lacks columns of the Strong header; the
    converted table has exactly the header. *)
Lemma output_columns_sample :
  missing_from strong_header sample_gymrun <> []
  /\ select_final strong_header sample_gymrun
     = Failed (MissingStrongColumns (missing_from strong_header sample_gymrun))
  /\ forall out,
       convert_gymrun_to_strong oslo_2024 plain_to_float plain_float_to_str
         sample_gymrun strong_header bench_mapping = Done out ->
       columns out = strong_header.
Proof.
  assert (missing_from strong_header sample_gymrun <> []) as Hne.
  { intros H%(f_equal length). revert H. vm_compute. discriminate. }
  pose proof (output_columns_are_target_headers oslo_2024 plain_to_float
                plain_float_to_str strong_header) as (Hfail & _ & Hcols).
  split_and!; [exact Hne|exact (Hfail sample_gymrun Hne)|].
  intros out. apply Hcols.
Defined.

(** C7 at a dictionary keyed by the integer 5: the entry is not ignored,
    the exercise called 5 becomes Squat, whereas without the entries whose
    key is no text it stays 5. *)
Lemma non_text_key_is_not_ignored :
  text_entries numbered_mapping = []
  /\ cell_of "Exercise Name"
       <$> rows (apply_exercise_mappings plain_float_to_str numbered_gymrun
                   numbered_mapping "Exercise Name")
     = [CStr "Squat"]
  /\ cell_of "Exercise Name"
       <$> rows (apply_exercise_mappings plain_float_to_str numbered_gymrun
                   (text_entries numbered_mapping) "Exercise Name")
     = [CStr "5"]
  /\ apply_exercise_mappings plain_float_to_str numbered_gymrun
       numbered_mapping "Exercise Name"
     <> apply_exercise_mappings plain_float_to_str numbered_gymrun
          (text_entries numbered_mapping) "Exercise Name".
Proof.
  split_and!; [vm_compute; reflexivity..|].
  intros H%(f_equal (fun d => cell_of "Exercise Name" <$> rows d)).
  revert H. vm_compute. discriminate.
Qed.

(** The exercise called 5 through the general statement. *)
Lemma exercise_names_sample :
  has_column "Exercise Name" numbered_gymrun = true
  /\ exists r',
       rows (apply_exercise_mappings plain_float_to_str numbered_gymrun
               numbered_mapping "Exercise Name") !! 0%nat = Some r'
       /\ (exists r,
             rows numbered_gymrun !! 0%nat = Some r
             /\ cell_of "Exercise Name" r'
                = CStr (match deciding_entry numbered_mapping
                                (astype_str plain_float_to_str
                                   (cell_of "Exercise Name" r)) with
                        | Some kv => py_str kv.2
                        | None => astype_str plain_float_to_str
                                    (cell_of "Exercise Name" r)
                        end)
             /\ forall c, c <> "Exercise Name" -> r' !! c = r !! c).
Proof.
  assert (has_column "Exercise Name" numbered_gymrun = true) as Hhas
    by (vm_compute; reflexivity).
  split; [exact Hhas|].
  destruct (lookup_lt_is_Some_2
              (rows (apply_exercise_mappings plain_float_to_str
                       numbered_gymrun numbered_mapping "Exercise Name"))
              0%nat) as [r' Hr']; [vm_compute; lia|].
  exists r'. split; [exact Hr'|].
  exact (proj1 (exercise_names_are_substituted plain_float_to_str
                  numbered_gymrun numbered_mapping "Exercise Name" 0%nat r'
                  Hhas Hr')).
Defined.

(** Barbell Bench is mapped, Squat is not: the two Squat rows are kept and
    one distinct name is counted. *)
Example unmapped_sample :
  (fun p => ((fun r => cell_of "Exercise" r) <$> rows p.1, p.2))
    <$> (match extract_unmapped_exercises plain_float_to_str
                 bench_squat_gymrun bench_mapping "Exercise" with
         | Done p => Some p
         | Failed _ => None
         end)
  = Some ([CStr "Squat"; CStr "Squat"], Some 1%nat).
Proof. vm_compute. reflexivity. Qed.

(** The same table through the general statement. *)
Lemma unmapped_rows_sample :
  has_column "Exercise" bench_squat_gymrun = true
  /\ exists unmapped_df count,
       extract_unmapped_exercises plain_float_to_str bench_squat_gymrun
         bench_mapping "Exercise" = Done (unmapped_df, count)
       /\ columns unmapped_df = columns bench_squat_gymrun
       /\ rows unmapped_df
          = filter (fun r => PyStr (astype_str plain_float_to_str
                                      (cell_of "Exercise" r))
                             ∉ bench_mapping.*1) (rows bench_squat_gymrun)
       /\ (rows unmapped_df = [] -> count = None)
       /\ (rows unmapped_df <> [] ->
           Forall (fun r => text_cell (cell_of "Exercise" r) = true)
                  (rows unmapped_df) ->
           count = Some (size (list_to_set
                                 (base.omap cell_text
                                    (cell_of "Exercise" <$> rows unmapped_df))
                               : gset string))).
Proof.
  split; [vm_compute; reflexivity|].
  apply (unmapped_rows_and_count plain_float_to_str bench_squat_gymrun
           bench_mapping "Exercise").
  vm_compute. reflexivity.
Defined.

(** ** Further properties on the sample data *)

(** X1 on a file without the Set and Reps columns. *)
Lemma missing_essential_sample :
  convert_gymrun_to_strong oslo_2024 plain_to_float plain_float_to_str
    no_set_no_reps_gymrun strong_header []
  = Failed (MissingEssentialColumns ["Set"; "Reps"]).
Proof.
  exact (missing_essential_column_ends_run oslo_2024 plain_to_float
           plain_float_to_str no_set_no_reps_gymrun strong_header []).
Defined.


(** X3 on the sample: four rows, three of which parse. *)
Lemma output_rows_sample :
  exists out,
    convert_gymrun_to_strong oslo_2024 plain_to_float plain_float_to_str
      sample_gymrun strong_header bench_mapping = Done out
    /\ length (rows sample_gymrun) = 4%nat
    /\ length (rows out) = 3%nat
    /\ forall r c, r ∈ rows out -> c ∉ strong_header -> r !! c = None.
Proof.
  destruct (convert_gymrun_to_strong oslo_2024 plain_to_float
              plain_float_to_str sample_gymrun strong_header bench_mapping)
    as [out|e] eqn:H; [|exfalso; revert H; vm_compute; discriminate].
  exists out. split; [reflexivity|]. split; [reflexivity|].
  destruct (one_output_row_per_parsed_row oslo_2024 plain_to_float
              plain_float_to_str sample_gymrun strong_header bench_mapping
              out H) as [Hlen Hkeys].
  split; [|exact Hkeys]. rewrite Hlen. vm_compute. reflexivity.
Defined.

(** X4 on the second row of the sample sessions. *)
Lemma session_extremes_sample :
  exists r',
    rows (group_workouts sample_sessions) !! 1%nat = Some r'
    /\ (exists j r'', rows (group_workouts sample_sessions) !! j = Some r''
                      /\ day_of r'' = day_of r'
                      /\ timestamp_of r'' = session_start r')
    /\ (exists j r'', rows (group_workouts sample_sessions) !! j = Some r''
                      /\ day_of r'' = day_of r'
                      /\ timestamp_of r'' = session_end r')
    /\ (forall j r'', rows (group_workouts sample_sessions) !! j = Some r'' ->
          day_of r'' = day_of r' ->
          session_start r' <= timestamp_of r'' <= session_end r')
    /\ exists z, cell_of "Duration (sec)" r' = CInt z /\ 0 <= z.
Proof.
  destruct (lookup_lt_is_Some_2 (rows (group_workouts sample_sessions))
              1%nat) as [r' Hr']; [vm_compute; lia|].
  exists r'. split; [exact Hr'|].
  exact (session_bounds_are_extremes sample_sessions 1%nat r' Hr').
Defined.

(** X5 on the first two rows of the sample sessions, which are not in the
    order of their timestamps. *)
Lemma same_number_sample :
  exists r1 r2,
    rows (group_workouts sample_sessions) !! 0%nat = Some r1
    /\ rows (group_workouts sample_sessions) !! 1%nat = Some r2
    /\ (cell_of "Workout #" r1 = cell_of "Workout #" r2
        <-> day_of r1 = day_of r2)
    /\ exists n, cell_of "Workout #" r1 = CInt n
                 /\ 1 <= n
                    <= Z.of_nat (length (unique (day_of
                                                   <$> rows sample_sessions))).
Proof.
  destruct (lookup_lt_is_Some_2 (rows (group_workouts sample_sessions))
              0%nat) as [r1 Hr1]; [vm_compute; lia|].
  destruct (lookup_lt_is_Some_2 (rows (group_workouts sample_sessions))
              1%nat) as [r2 Hr2]; [vm_compute; lia|].
  exists r1, r2. split; [exact Hr1|]. split; [exact Hr2|].
  exact (same_workout_number_iff_same_date sample_sessions 0%nat 1%nat r1 r2
           Hr1 Hr2).
Defined.

(** X7 on the sample: the first written row is of workout 1. *)
Lemma session_columns_sample :
  exists out,
    convert_gymrun_to_strong oslo_2024 plain_to_float plain_float_to_str
      sample_gymrun strong_header bench_mapping = Done out
    /\ "Workout #" ∈ strong_header
    /\ (forall ro, rows out !! 0%nat = Some ro ->
          cell_of "Workout #" ro = CInt 1)
    /\ forall i ro1 ro2,
         rows out !! i = Some ro1 -> rows out !! S i = Some ro2 ->
         exists n,
           cell_of "Workout #" ro1 = CInt n
           /\ (cell_of "Workout #" ro2 = CInt n
               \/ cell_of "Workout #" ro2 = CInt (n + 1)).
Proof.
  destruct (convert_gymrun_to_strong oslo_2024 plain_to_float
              plain_float_to_str sample_gymrun strong_header bench_mapping)
    as [out|e] eqn:H; [|exfalso; revert H; vm_compute; discriminate].
  assert ("Workout #" ∈ strong_header) as Hin.
  { unfold strong_header. repeat (first [by left | right]). }
  exists out. split; [reflexivity|]. split; [exact Hin|].
  exact (proj2 (session_columns_reach_output oslo_2024 plain_to_float
                  plain_float_to_str sample_gymrun strong_header
                  bench_mapping out H) Hin).
Defined.

(** X8 on the first row of the sample. *)
Lemma rename_sample :
  exists r',
    rows (rename_columns rename_map sample_gymrun) !! 0%nat = Some r'
    /\ r' !! "Exercise Name" = Some (CStr "Squat")
    /\ r' !! "Exercise" = None
    /\ r' !! "Reps" = Some (CInt 5).
Proof.
  destruct (lookup_lt_is_Some_2 (rows (rename_columns rename_map
                                         sample_gymrun)) 0%nat)
    as [r' Hr']; [vm_compute; lia|].
  exists r'. split; [exact Hr'|].
  destruct (rename_moves_cells_to_new_labels sample_gymrun 0%nat r' Hr')
    as [(r & Hr & Hnew & Hold & Hother) _].
  injection Hr as <-. split_and!.
  - apply (Hnew "Exercise" "Exercise Name").
    + unfold rename_map. repeat (first [by left | right]).
    + vm_compute. reflexivity.
  - apply Hold. cbn. repeat (first [by left | right]).
  - rewrite Hother; [vm_compute; reflexivity|..];
      apply (bool_decide_unpack _); vm_compute; exact I.
Defined.

(** X10 on a set without an exercise name and an empty dictionary. *)
Lemma missing_name_sample :
  has_column "Exercise Name" unnamed_exercise = true
  /\ exists r',
       rows (apply_exercise_mappings plain_float_to_str unnamed_exercise []
               "Exercise Name") !! 0%nat = Some r'
       /\ r' !! "Exercise Name" = Some (CStr "nan").
Proof.
  assert (has_column "Exercise Name" unnamed_exercise = true) as Hcol
    by (vm_compute; reflexivity).
  split; [exact Hcol|].
  destruct (lookup_lt_is_Some_2
              (rows (apply_exercise_mappings plain_float_to_str
                       unnamed_exercise [] "Exercise Name")) 0%nat)
    as [r' Hr']; [vm_compute; lia|].
  exists r'. split; [exact Hr'|].
  destruct (proj2 (missing_exercise_name_becomes_nan plain_float_to_str
                     unnamed_exercise [] "Exercise Name") Hcol 0%nat r' Hr')
    as (r & s & Hr & Hs & Hnan).
  injection Hr as <-. rewrite Hs, Hnan; [|vm_compute; reflexivity].
  vm_compute. reflexivity.
Defined.

(** X11 on the bench and squat sample, whose dictionary has text keys
    only. *)
Lemma extractor_agrees_sample :
  Forall (fun kv => has_text_key kv = true) bench_mapping
  /\ exists unmapped_df count,
       extract_unmapped_exercises plain_float_to_str bench_squat_gymrun
         bench_mapping "Exercise" = Done (unmapped_df, count)
       /\ rows unmapped_df
          = filter (fun r => valid_mappings bench_mapping
                               !! astype_str plain_float_to_str
                                    (cell_of "Exercise" r) = None)
                   (rows bench_squat_gymrun).
Proof.
  assert (Forall (fun kv => has_text_key kv = true) bench_mapping) as Htext
    by (repeat constructor).
  split; [exact Htext|].
  destruct (extract_unmapped_exercises plain_float_to_str bench_squat_gymrun
              bench_mapping "Exercise")
    as [[unmapped_df count]|e] eqn:H;
    [|exfalso; revert H; vm_compute; discriminate].
  exists unmapped_df, count. split; [reflexivity|].
  exact (proj2 (extractor_and_converter_agree plain_float_to_str
                  bench_squat_gymrun bench_mapping "Exercise" unmapped_df
                  count H) Htext).
Defined.

(** X12 on the same sample. *)
Lemma extraction_twice_sample :
  exists unmapped_df count,
    extract_unmapped_exercises plain_float_to_str bench_squat_gymrun
      bench_mapping "Exercise" = Done (unmapped_df, count)
    /\ rows unmapped_df `sublist_of` rows bench_squat_gymrun
    /\ extract_unmapped_exercises plain_float_to_str unmapped_df
         bench_mapping "Exercise" = Done (unmapped_df, count).
Proof.
  destruct (extract_unmapped_exercises plain_float_to_str bench_squat_gymrun
              bench_mapping "Exercise")
    as [[unmapped_df count]|e] eqn:H;
    [|exfalso; revert H; vm_compute; discriminate].
  exists unmapped_df, count. split; [reflexivity|].
  destruct (extraction_is_idempotent plain_float_to_str bench_squat_gymrun
              bench_mapping "Exercise" unmapped_df count H)
    as (Hsub & Hagain & _).
  split; [exact Hsub|exact Hagain].
Defined.

(** The undefaulted sample, completed for the Strong header and run
    through the defaulting pass. *)
Definition filled_sample : DataFrame :=
  match fill_all plain_to_float fill_defaults
          (add_missing_columns strong_header sample_undefaulted) with
  | Done df => df
  | Failed _ => sample_undefaulted
  end.

(** X13 on that table. *)
Lemma final_casts_sample :
  fill_all plain_to_float fill_defaults
    (add_missing_columns strong_header sample_undefaulted)
  = Done filled_sample
  /\ final_types filled_sample = Done filled_sample.
Proof.
  assert (fill_all plain_to_float fill_defaults
            (add_missing_columns strong_header sample_undefaulted)
          = Done filled_sample) as Hfill by (vm_compute; reflexivity).
  split; [exact Hfill|].
  apply (final_casts_change_nothing plain_to_float
           (add_missing_columns strong_header sample_undefaulted)
           filled_sample Hfill).
  - apply has_columns_check. vm_compute. reflexivity.
  - apply duration_cells_check. vm_compute. reflexivity.
Defined.

(** X16 on the same table. *)
Lemma defaulting_twice_sample :
  fill_all plain_to_float fill_defaults
    (add_missing_columns strong_header sample_undefaulted)
  = Done filled_sample
  /\ fill_all plain_to_float fill_defaults filled_sample = Done filled_sample.
Proof.
  assert (fill_all plain_to_float fill_defaults
            (add_missing_columns strong_header sample_undefaulted)
          = Done filled_sample) as Hfill by (vm_compute; reflexivity).
  split; [exact Hfill|].
  apply (defaulting_pass_is_idempotent plain_to_float
           (add_missing_columns strong_header sample_undefaulted)
           filled_sample Hfill).
  apply float_cells_check. vm_compute. reflexivity.
Defined.


(** X15 on the file whose dates are all in another format. *)
Lemma no_parsed_rows_sample :
  missing_from essential_cols iso_dates_gymrun = []
  /\ date_time_text iso_dates_gymrun = true
  /\ rows (keep_parsed iso_dates_gymrun) = []
  /\ convert_gymrun_to_strong oslo_2024 plain_to_float plain_float_to_str
       iso_dates_gymrun strong_header bench_mapping
     = Failed DateTimeProcessingError.
Proof.
  assert (missing_from essential_cols iso_dates_gymrun = []) as Hess
    by (vm_compute; reflexivity).
  assert (date_time_text iso_dates_gymrun = true) as Htext
    by (vm_compute; reflexivity).
  assert (rows (keep_parsed iso_dates_gymrun) = []) as Hnil
    by (vm_compute; reflexivity).
  split_and!; [exact Hess|exact Htext|exact Hnil|].
  exact (run_without_parsed_rows_aborts oslo_2024 plain_to_float
           plain_float_to_str iso_dates_gymrun strong_header bench_mapping
           Hess Htext Hnil).
Defined.

(** X18 on the sample. *)
Lemma run_reaches_the_end_sample :
  zone_ok oslo_2024 = true
  /\ missing_from essential_cols sample_gymrun = []
  /\ rectangular sample_gymrun = true
  /\ date_time_text sample_gymrun = true
  /\ rows (keep_parsed sample_gymrun) <> []
  /\ forallb (castable_row plain_to_float
                (has_column "Duration" sample_gymrun))
       (rows (keep_parsed sample_gymrun)) = true
  /\ exists out,
       convert_gymrun_to_strong oslo_2024 plain_to_float plain_float_to_str
         sample_gymrun strong_header bench_mapping = Done out.
Proof.
  assert (rows (keep_parsed sample_gymrun) <> []) as Hne.
  { intros H%(f_equal length). revert H. vm_compute. discriminate. }
  split_and!; [vm_compute; reflexivity..|exact Hne|vm_compute; reflexivity|].
  apply (run_reaches_the_end oslo_2024 plain_to_float plain_float_to_str
           sample_gymrun strong_header bench_mapping);
    [vm_compute; reflexivity..|exact Hne| |vm_compute; reflexivity].
  apply all_regular_check. vm_compute. reflexivity.
Defined.
